(** * Balance-sheet transformer: a shallow embedding of [bs_transformer.py]

    The Python class [BalanceSheetTransformer] turns a tall table of
    financial line items into a fixed 25-column balance-sheet layout.  This
    file embeds its methods as Rocq functions and proves properties of them.

    Conventions of the embedding.
    - A Python [str] is a list of Unicode code points ([pystr]); literals are
      written as UTF-8 text and decoded by [u].
    - A Python [float] is an IEEE binary64 value ([PyFloat.t]); a finite one
      is stored as the integer number of units of 2^-1074 it is worth, and
      every operation rounds the exact result to nearest, ties to even.
    - A raised exception is a value of [result]; the exceptions the code
      catches are caught in the model at the same place.
    - A [dict] is an association list in insertion order, which is the order
      Python iterates it in. *)

From Stdlib Require Import Strings.String Strings.Ascii.
From Stdlib Require Import ZArith NArith List Bool Lia Permutation.
From Stdlib Require Import Numbers.DecimalString Numbers.DecimalN Numbers.DecimalFacts.
Import ListNotations.

Open Scope Z_scope.

(** ** Python strings *)

Definition char := N.
Definition pystr := list char.

(** UTF-8 decoding of a literal (well-formed input only). *)
Fixpoint utf8_go (bs : list N) (need : nat) (acc : N) : pystr :=
  match bs with
  | [] => []
  | b :: rest =>
      match need with
      | O =>
          if (b <? 128)%N then b :: utf8_go rest 0 0%N
          else if (b <? 224)%N then utf8_go rest 1 (b - 192)%N
          else if (b <? 240)%N then utf8_go rest 2 (b - 224)%N
          else utf8_go rest 3 (b - 240)%N
      | S O => (acc * 64 + (b - 128))%N :: utf8_go rest 0 0%N
      | S n => utf8_go rest n (acc * 64 + (b - 128))%N
      end
  end.

Definition u (s : string) : pystr :=
  utf8_go (map N_of_ascii (list_ascii_of_string s)) 0 0%N.

Definition char_eqb (a b : char) : bool := N.eqb a b.

Fixpoint pystr_eqb (a b : pystr) : bool :=
  match a, b with
  | [], [] => true
  | x :: a', y :: b' => char_eqb x y && pystr_eqb a' b'
  | _, _ => false
  end.

Lemma pystr_eqb_eq (a b : pystr) : pystr_eqb a b = true <-> a = b.
Proof.
  revert b; induction a as [|x a IH]; intros [|y b]; simpl; split;
    try congruence; try reflexivity.
  - intros H. apply andb_true_iff in H as [H1 H2].
    apply N.eqb_eq in H1. apply IH in H2. congruence.
  - intros H. injection H as -> ->. apply andb_true_iff. split.
    + apply N.eqb_refl.
    + apply IH. reflexivity.
Qed.

Lemma pystr_eqb_refl (a : pystr) : pystr_eqb a a = true.
Proof. apply pystr_eqb_eq. reflexivity. Qed.

(** The characters the code names. *)
Definition c_comma : char := 44%N.       (* , *)
Definition c_minus : char := 45%N.       (* - *)
Definition c_quote : char := 34%N.       (* double quote *)
Definition c_triangle : char := 9651%N.  (* U+25B3, the alternate negative glyph *)
Definition c_note : char := 8251%N.      (* U+203B, the annotation marker *)

(** [s.startswith(p)] *)
Fixpoint startswith (s p : pystr) {struct p} : bool :=
  match p with
  | [] => true
  | c :: p' =>
      match s with
      | [] => false
      | d :: s' => char_eqb c d && startswith s' p'
      end
  end.

(** [p in s] on strings: substring containment. *)
Fixpoint contains (s p : pystr) : bool :=
  startswith s p ||
  match s with
  | [] => false
  | _ :: s' => contains s' p
  end.

(** [s.replace(c, '')] for a one-character [c]. *)
Definition remove_char (c : char) (s : pystr) : pystr :=
  filter (fun d => negb (char_eqb d c)) s.

(** [str.isspace] of one character (Unicode 14, as [str.strip] uses it). *)
Definition is_space (c : char) : bool :=
  ((9 <=? c) && (c <=? 13) || (28 <=? c) && (c <=? 32) ||
   (c =? 133) || (c =? 160) || (c =? 5760) ||
   (8192 <=? c) && (c <=? 8202) || (c =? 8232) || (c =? 8233) ||
   (c =? 8239) || (c =? 8287) || (c =? 12288))%N.

Fixpoint lstrip_by (p : char -> bool) (s : pystr) : pystr :=
  match s with
  | [] => []
  | c :: s' => if p c then lstrip_by p s' else s
  end.

Definition strip_by (p : char -> bool) (s : pystr) : pystr :=
  rev (lstrip_by p (rev (lstrip_by p s))).

(** [s.strip()] *)
Definition strip (s : pystr) : pystr := strip_by is_space s.

(** The first code point of each block of ten decimal digits (general
    category Nd, Unicode 14): the characters [\d] matches in a [str] pattern
    and the ones [float] reads as digits.  Within a block the digit values
    are 0 to 9 in order. *)
Definition decimal_blocks : list N :=
  [48; 1632; 1776; 1984; 2406; 2534; 2662; 2790; 2918; 3046; 3174; 3302;
   3430; 3558; 3664; 3792; 3872; 4160; 4240; 6112; 6160; 6470; 6608; 6784;
   6800; 6992; 7088; 7232; 7248; 42528; 43216; 43264; 43472; 43504; 43600;
   44016; 65296; 66720; 68912; 69734; 69872; 69942; 70096; 70384; 70736;
   70864; 71248; 71360; 71472; 71904; 72016; 72784; 73040; 73120; 92768;
   92864; 93008; 120782; 120792; 120802; 120812; 120822; 123200; 123632;
   125264; 130032]%N.

Fixpoint digit_in (blocks : list N) (c : char) : option Z :=
  match blocks with
  | [] => None
  | b :: rest =>
      if ((b <=? c) && (c <? b + 10))%N then Some (Z.of_N (c - b))
      else digit_in rest c
  end.

(** The value of a decimal digit character, [None] for any other character. *)
Definition digit_value (c : char) : option Z := digit_in decimal_blocks c.

Definition is_digit (c : char) : bool :=
  match digit_value c with Some _ => true | None => false end.

(** ** The Amount Normalizer *)

(** One character of the class [[\d,]]. *)
Definition is_number_char (c : char) : bool := is_digit c || char_eqb c c_comma.

(** One character of the class [[△-]]. *)
Definition is_sign_char (c : char) : bool :=
  char_eqb c c_triangle || char_eqb c c_minus.

(** The longest prefix of characters satisfying [p] (a greedy [+] or [*]). *)
Fixpoint take_while (p : char -> bool) (s : pystr) : pystr :=
  match s with
  | [] => []
  | c :: s' => if p c then c :: take_while p s' else []
  end.

(** [re.findall(r'[△-]?[\d,]+', s)[0]]: the leftmost match, or [None] when
    the list of matches is empty.  At a sign character the optional sign is
    tried first; when no number character follows, the pattern fails at this
    position (the sign itself is no number character) and the search moves
    on. *)
Fixpoint first_number_pattern (s : pystr) : option pystr :=
  match s with
  | [] => None
  | c :: s' =>
      if is_sign_char c then
        match take_while is_number_char s' with
        | [] => first_number_pattern s'
        | body => Some (c :: body)
        end
      else if is_number_char c then Some (c :: take_while is_number_char s')
      else first_number_pattern s'
  end.

(** [clean_amount_value]; the argument is a [str] (the caller passes
    [str(cell)] or the empty string), so [pd.isna] is false. *)
Definition clean_amount_value (value : pystr) : pystr :=
  match value with
  | [] => []
  | _ =>
      match first_number_pattern value with
      | Some cleaned =>
          if startswith cleaned [c_triangle]
          then c_minus :: tl cleaned
          else cleaned
      | None => []
      end
  end.

(** ** Exceptions *)

Inductive exn := OverflowError | ValueError | AttributeError.

Inductive result (A : Type) : Type :=
| Ok (a : A)
| Raise (e : exn).

Arguments Ok {A} a.
Arguments Raise {A} e.

Definition bind {A B : Type} (r : result A) (k : A -> result B) : result B :=
  match r with
  | Ok a => k a
  | Raise e => Raise e
  end.

Notation "x <- r ;; k" := (bind r (fun x => k))
  (at level 61, r at next level, right associativity).

(** ** Python floats *)

Module PyFloat.

(** [Fin k] is the double worth [k * 2^-1074]; the doubles are the [k]
    with [|k| = m * 2^s], [m < 2^53], below [2^2098].  The two zeros are
    one value here: no operation of the program tells them apart. *)
Inductive t := Nan | Inf (negative : bool) | Fin (k : Z).

Definition one : Z := 2 ^ 1074.    (* 1.0 *)
Definition mant : Z := 2 ^ 53.
Definition huge : Z := 2 ^ 2098.   (* 2^1024, the first magnitude out of range *)

(** The integer nearest to [a / d], ties to the even one ([0 <= a], [0 < d]). *)
Definition rne (a d : Z) : Z :=
  let q := a / d in
  let r := a mod d in
  if 2 * r <? d then q
  else if d <? 2 * r then q + 1
  else if Z.even q then q else q + 1.

(** The magnitude [a / d] (in units) rounded to 53 significant bits. *)
Definition round_mag (a d : Z) : Z :=
  let q := a / d in
  if q <? mant then rne a d
  else let s := Z.log2 q - 52 in rne a (d * 2 ^ s) * 2 ^ s.

(** The double nearest to [n / d] units ([0 < d]); overflow gives an
    infinity, as every operation the program uses does. *)
Definition round (n d : Z) : t :=
  let k := round_mag (Z.abs n) d in
  if huge <=? k then Inf (n <? 0) else Fin (Z.sgn n * k).

(** [float(n)] for an [int]. *)
Definition of_Z (n : Z) : t := round (n * one) 1.

(** [-x] *)
Definition neg (x : t) : t :=
  match x with
  | Nan => Nan
  | Inf s => Inf (negb s)
  | Fin k => Fin (- k)
  end.

(** [x + y] *)
Definition add (x y : t) : t :=
  match x, y with
  | Nan, _ | _, Nan => Nan
  | Inf a, Inf b => if Bool.eqb a b then Inf a else Nan
  | Inf a, Fin _ => Inf a
  | Fin _, Inf b => Inf b
  | Fin a, Fin b => round (a + b) 1
  end.

(** [x / n] for a positive [int] that is a double, such as 1000000. *)
Definition div_Z (x : t) (n : Z) : t :=
  match x with
  | Fin k => round k n
  | other => other
  end.

(** [x % n] for such an [n]: C's exact [fmod], then moved to the sign of
    the divisor. *)
Definition rem_Z (x : t) (n : Z) : t :=
  match x with
  | Fin k =>
      let r := Z.rem k (n * one) in
      if r <? 0 then round (r + n * one) 1 else Fin r
  | _ => Nan
  end.

(** [x >= n], [x == n] and [x < n] against an [int]: exact comparisons. *)
Definition ge_Z (x : t) (n : Z) : bool :=
  match x with
  | Fin k => n * one <=? k
  | Inf s => negb s
  | Nan => false
  end.

Definition eq_Z (x : t) (n : Z) : bool :=
  match x with
  | Fin k => k =? n * one
  | _ => false
  end.

Definition lt_Z (x : t) (n : Z) : bool :=
  match x with
  | Fin k => k <? n * one
  | Inf s => s
  | Nan => false
  end.

(** [int(x)]: truncation toward zero; an infinity raises [OverflowError]
    and a NaN raises [ValueError]. *)
Definition to_int (x : t) : result Z :=
  match x with
  | Fin k => Ok (Z.quot k one)
  | Inf _ => Raise OverflowError
  | Nan => Raise ValueError
  end.

(** [x.is_integer()] *)
Definition is_integer (x : t) : bool :=
  match x with
  | Fin k => k mod one =? 0
  | _ => false
  end.

End PyFloat.

(** ** Number formatting *)

Fixpoint uint_chars (d : Decimal.uint) : pystr :=
  match d with
  | Decimal.Nil => []
  | Decimal.D0 d => 48%N :: uint_chars d
  | Decimal.D1 d => 49%N :: uint_chars d
  | Decimal.D2 d => 50%N :: uint_chars d
  | Decimal.D3 d => 51%N :: uint_chars d
  | Decimal.D4 d => 52%N :: uint_chars d
  | Decimal.D5 d => 53%N :: uint_chars d
  | Decimal.D6 d => 54%N :: uint_chars d
  | Decimal.D7 d => 55%N :: uint_chars d
  | Decimal.D8 d => 56%N :: uint_chars d
  | Decimal.D9 d => 57%N :: uint_chars d
  end.

(** The decimal digits of a natural number, most significant first. *)
Definition decimal_digits (n : N) : pystr := uint_chars (N.to_uint n).

(** A comma after every third digit, on digits given least significant
    first; [i] is the number of digits already in the current group. *)
Fixpoint group_rev (ds : pystr) (i : nat) : pystr :=
  match ds with
  | [] => []
  | d :: rest =>
      match rest with
      | [] => [d]
      | _ =>
          match i with
          | 2%nat => d :: c_comma :: group_rev rest 0
          | _ => d :: group_rev rest (S i)
          end
      end
  end.

Definition group_digits (ds : pystr) : pystr := rev (group_rev (rev ds) 0).

(** [f"{n:,}"] for an [int]. *)
Definition format_int (n : Z) : pystr :=
  let body := group_digits (decimal_digits (Z.abs_N n)) in
  if n <? 0 then c_minus :: body else body.

(** [f"{x:,.0f}"] for a [float]: the nearest integer, ties to even, keeping
    the sign of a negative value that rounds to zero. *)
Definition format_0f (x : PyFloat.t) : pystr :=
  match x with
  | PyFloat.Nan => u "nan"
  | PyFloat.Inf s => if s then u "-inf" else u "inf"
  | PyFloat.Fin k =>
      let body :=
        group_digits (decimal_digits (Z.to_N (PyFloat.rne (Z.abs k) PyFloat.one))) in
      if k <? 0 then c_minus :: body else body
  end.

(** ** [float(s)] for a [str] *)

Definition c_zero : char := 48%N.
Definition c_plus : char := 43%N.
Definition c_dot : char := 46%N.
Definition c_underscore : char := 95%N.

Definition is_ascii_digit (c : char) : bool := ((48 <=? c) && (c <=? 57))%N.

(** The whitespace [float] skips at both ends once the string is ASCII. *)
Definition is_ascii_space (c : char) : bool :=
  ((9 <=? c) && (c <=? 13) || (c =? 32))%N.

(** A non-ASCII string is first rewritten: a space character becomes a
    blank, a decimal digit its ASCII digit; any other non-ASCII character
    stays and is refused by the grammar. *)
Definition to_ascii_char (c : char) : char :=
  if (c <? 127)%N then c
  else if is_space c then 32%N
  else match digit_value c with
       | Some d => (48 + Z.to_N d)%N
       | None => c
       end.

(** Underscores are dropped when each stands between two digits; any other
    underscore makes the string invalid.  [prev] is the previous character. *)
Fixpoint drop_underscores (prev : option char) (s : pystr) : option pystr :=
  match s with
  | [] =>
      match prev with
      | Some p => if char_eqb p c_underscore then None else Some []
      | None => Some []
      end
  | c :: s' =>
      let prev_digit := match prev with Some p => is_ascii_digit p | None => false end in
      let prev_under := match prev with Some p => char_eqb p c_underscore | None => false end in
      if char_eqb c c_underscore then
        if prev_digit then drop_underscores (Some c) s' else None
      else if prev_under && negb (is_ascii_digit c) then None
      else option_map (cons c) (drop_underscores (Some c) s')
  end.

Definition lower_ascii (c : char) : char :=
  if ((65 <=? c) && (c <=? 90))%N then (c + 32)%N else c.

(** The value of a run of ASCII digits read after the digits worth [acc]. *)
Fixpoint digits_value (acc : Z) (ds : pystr) : Z :=
  match ds with
  | [] => acc
  | c :: ds' => digits_value (10 * acc + Z.of_N (c - 48)) ds'
  end.

Definition split_digits (s : pystr) : pystr * pystr :=
  (take_while is_ascii_digit s, skipn (length (take_while is_ascii_digit s)) s).

(** An optional exponent part that must reach the end of the string. *)
Definition parse_exponent (s : pystr) : option Z :=
  match s with
  | [] => Some 0
  | c :: s1 =>
      if char_eqb (lower_ascii c) 101%N then
        let '(sgn, s2) :=
          match s1 with
          | d :: s2' =>
              if char_eqb d c_minus then (-1, s2')
              else if char_eqb d c_plus then (1, s2')
              else (1, s1)
          | [] => (1, s1)
          end in
        match split_digits s2 with
        | ((_ :: _) as ds, []) => Some (sgn * digits_value 0 ds)
        | _ => None
        end
      else None
  end.

(** The double nearest to [m * 10^e]. *)
Definition decimal_to_float (m e : Z) : PyFloat.t :=
  if 0 <=? e then PyFloat.round (m * 10 ^ e * PyFloat.one) 1
  else PyFloat.round (m * PyFloat.one) (10 ^ (- e)).

(** An unsigned numeral: digits, an optional point and digits, at least one
    digit in all, an optional exponent; or [inf], [infinity], [nan] in any
    case. *)
Definition parse_unsigned (s : pystr) : option PyFloat.t :=
  let low := map lower_ascii s in
  if pystr_eqb low (u "inf") || pystr_eqb low (u "infinity") then Some (PyFloat.Inf false)
  else if pystr_eqb low (u "nan") then Some PyFloat.Nan
  else
    let '(ip, s1) := split_digits s in
    let '(fp, s2) :=
      match s1 with
      | c :: s1' => if char_eqb c c_dot then split_digits s1' else ([], s1)
      | [] => ([], s1)
      end in
    match ip ++ fp with
    | [] => None
    | ds =>
        match parse_exponent s2 with
        | Some e => Some (decimal_to_float (digits_value 0 ds) (e - Z.of_nat (length fp)))
        | None => None
        end
    end.

(** [float(s)]: [None] stands for the [ValueError] of a string that is not a
    numeral. *)
Definition py_float (s : pystr) : option PyFloat.t :=
  match drop_underscores None (map to_ascii_char s) with
  | None => None
  | Some a =>
      match strip_by is_ascii_space a with
      | [] => None
      | c :: rest =>
          if char_eqb c c_minus then option_map PyFloat.neg (parse_unsigned rest)
          else if char_eqb c c_plus then parse_unsigned rest
          else parse_unsigned (c :: rest)
      end
  end.

Definition float_of_str (s : pystr) : result PyFloat.t :=
  match py_float s with
  | Some x => Ok x
  | None => Raise ValueError
  end.

(** [try: body except (ValueError, TypeError): handler]; nothing in the
    model raises [TypeError]. *)
Definition except_ValueError {A : Type} (body handler : result A) : result A :=
  match body with
  | Raise ValueError => handler
  | other => other
  end.

(** ** The Amount Formatter *)

(** [format_amount].  The [OverflowError] of [int] on an infinity is not
    among the exceptions the method catches, so it leaves the method. *)
Definition format_amount (amount : pystr) : result pystr :=
  match amount with
  | [] => Ok []
  | _ =>
      except_ValueError
        (let clean_amount := remove_char c_comma amount in
         let is_negative := startswith clean_amount [c_minus] in
         let clean_amount := if is_negative then tl clean_amount else clean_amount in
         num_value <- float_of_str clean_amount ;;
         if PyFloat.ge_Z num_value 1000000
            && PyFloat.eq_Z (PyFloat.rem_Z num_value 1000000) 0
         then
           num_value <- PyFloat.to_int (PyFloat.div_Z num_value 1000000) ;;
           if is_negative then Ok (format_int (num_value * -1))
           else Ok (format_int num_value)
         else
           n <- PyFloat.to_int num_value ;;
           if is_negative then Ok (c_minus :: format_int n)
           else Ok (format_int n))
        (Ok amount)
  end.

(** ** The Annotation Extractor *)

(** One character of the class [[0-9,\s]]. *)
Definition is_note_char (c : char) : bool :=
  is_ascii_digit c || char_eqb c c_comma || is_space c.

(** The matches of [※[0-9,\s]*] joined.  A match never holds a second
    marker, so the search after a match is the search after its marker. *)
Fixpoint note_matches (s : pystr) : pystr :=
  match s with
  | [] => []
  | c :: s' =>
      if char_eqb c c_note
      then c :: take_while is_note_char s' ++ note_matches s'
      else note_matches s'
  end.

Definition extract_note_numbers (value : pystr) : pystr :=
  match value with
  | [] => []
  | _ => strip (note_matches value)
  end.

(** ** The Account Classifier *)

Record BSItem := {
  level : Z;
  name : pystr;
  value : pystr;
  note : pystr
}.

Definition major_categories : list pystr :=
  [u "資産の部"; u "負債の部"; u "純資産の部"; u "流動資産"; u "固定資産";
   u "流動負債"; u "固定負債"].

Definition _get_account_level (account_name : pystr) : Z :=
  if contains account_name (u "合計") then 1
  else if existsb (pystr_eqb account_name) major_categories then 0
  else 2.

(** The value a pattern table gives an account: a list, whose members that
    are no strings are [None], a single string, or anything else. *)
Inductive source_patterns :=
| PatternList (patterns : list (option pystr))
| PatternStr (pattern : pystr)
| PatternOther.

Definition account_mapping_t := list (pystr * source_patterns).

(** Whether the loop over one table entry returns on the label. *)
Definition patterns_match (sp : source_patterns) (item_name_str : pystr) : bool :=
  match sp with
  | PatternList ps =>
      existsb (fun p => match p with
                        | Some pat => contains item_name_str pat
                        | None => false
                        end) ps
  | PatternStr pat => contains item_name_str pat
  | PatternOther => false
  end.

(** The loop over [mapping.items()]: the account of the first entry that
    matches. *)
Fixpoint first_matching_account (mapping : account_mapping_t)
    (item_name_str : pystr) : option pystr :=
  match mapping with
  | [] => None
  | (bs_account, sp) :: rest =>
      if patterns_match sp item_name_str then Some bs_account
      else first_matching_account rest item_name_str
  end.

(** [map_item_to_bs_account]; a label that is NaN or [None] is [None] here.
    The amount is cleaned and formatted before the table is consulted. *)
Definition map_item_to_bs_account (mapping : account_mapping_t)
    (item_name : option pystr) (amount : pystr) : result (option BSItem) :=
  match item_name with
  | None => Ok None
  | Some [] => Ok None
  | Some item_name =>
      let item_name_str := strip item_name in
      match item_name_str with
      | [] => Ok None
      | _ =>
          let note := extract_note_numbers amount in
          let clean_amount := clean_amount_value amount in
          formatted_amount <- format_amount clean_amount ;;
          match first_matching_account mapping item_name_str with
          | Some bs_account =>
              Ok (Some {| level := _get_account_level bs_account;
                          name := bs_account;
                          value := formatted_amount;
                          note := note |})
          | None => Ok None
          end
      end
  end.

(** ** The Aggregator *)

(** What one item adds to the total: [None] when the loop body skips it,
    either because its value is empty or blank or because [float] raises
    the [ValueError] the loop catches. *)
Definition item_amount (item : BSItem) : option PyFloat.t :=
  match value item, strip (value item) with
  | _ :: _, _ :: _ =>
      let clean_value := remove_char c_comma (value item) in
      if startswith clean_value [c_minus]
      then option_map PyFloat.neg (py_float (tl clean_value))
      else py_float clean_value
  | _, _ => None
  end.

(** The loop over the items of one account: the running total, which
    starts as the [int] 0, and the flag [has_valid_amount]. *)
Fixpoint sum_items (items : list BSItem) (total_amount : PyFloat.t)
    (has_valid_amount : bool) : PyFloat.t * bool :=
  match items with
  | [] => (total_amount, has_valid_amount)
  | item :: rest =>
      match item_amount item with
      | Some amount => sum_items rest (PyFloat.add total_amount amount) true
      | None => sum_items rest total_amount has_valid_amount
      end
  end.

(** The amount string of the grouping path:
    [f"{int(t):,}" if t == int(t) else f"{t:,.0f}"]. *)
Definition format_total (total_amount : PyFloat.t) : result pystr :=
  i <- PyFloat.to_int total_amount ;;
  if PyFloat.eq_Z total_amount i then Ok (format_int i)
  else Ok (format_0f total_amount).

(** The consolidated amount of one group, [None] when no item of the group
    has a valid amount. *)
Definition consolidated_amount (items_list : list BSItem) : result (option pystr) :=
  let '(total_amount, has_valid_amount) :=
    sum_items items_list (PyFloat.of_Z 0) false in
  if has_valid_amount then
    formatted_amount <- format_total total_amount ;;
    Ok (Some formatted_amount)
  else Ok None.

Definition item_dict_t := list (pystr * BSItem).

(** [d.get(key)] *)
Fixpoint dict_get {A : Type} (d : list (pystr * A)) (key : pystr) : option A :=
  match d with
  | [] => None
  | (k, v) :: rest => if pystr_eqb k key then Some v else dict_get rest key
  end.

(** [d[key] = v]: an existing key keeps its place. *)
Fixpoint dict_set {A : Type} (d : list (pystr * A)) (key : pystr) (v : A)
    : list (pystr * A) :=
  match d with
  | [] => [(key, v)]
  | (k, w) :: rest =>
      if pystr_eqb k key then (k, v) :: rest else (k, w) :: dict_set rest key v
  end.

(** The first loop of [_build_balance_sheet_structure_with_grouping]. *)
Fixpoint consolidate (bs_items_dict : list (pystr * list BSItem))
    (consolidated_items : item_dict_t) : result item_dict_t :=
  match bs_items_dict with
  | [] => Ok consolidated_items
  | (account_name, items_list) :: rest =>
      match items_list with
      | [] => consolidate rest consolidated_items
      | first :: _ =>
          amount <- consolidated_amount items_list ;;
          match amount with
          | Some formatted_amount =>
              consolidate rest
                (dict_set consolidated_items account_name
                   {| level := level first;
                      name := account_name;
                      value := formatted_amount;
                      note := [] |})
          | None => consolidate rest consolidated_items
          end
      end
  end.

(** ** The Report Layout Builder *)

Definition row := list pystr.

Definition blank_row : row := repeat [] 25.

(** [l[i] = v] for an index inside the list. *)
Fixpoint list_set {A : Type} (l : list A) (i : nat) (v : A) : list A :=
  match l, i with
  | [], _ => []
  | _ :: l', O => v :: l'
  | x :: l', S i' => x :: list_set l' i' v
  end.

(** The template: what a section maps a category to, and what a nested
    category maps a sub-category to. *)
Inductive subcategory_value :=
| SubItems (items : list pystr)
| SubOther.

Inductive category_value :=
| CatDict (subcategories : list (pystr * subcategory_value))
| CatList (items : list pystr)
| CatOther.

Definition section_t := list (pystr * category_value).
Definition structure_t := list (pystr * section_t).

Definition quoted (s : pystr) : pystr := c_quote :: s ++ [c_quote].

Definition place_label (r : row) (item_name : pystr) (level : Z) : row :=
  if level =? 1 then list_set r 0 item_name
  else if level =? 2 then list_set r 1 item_name
  else if level =? 3 then list_set r 2 item_name
  else r.

Definition _add_item_row_with_grouping (item_name : pystr)
    (item_dict : item_dict_t) (level : Z) : list row :=
  let r := place_label blank_row item_name level in
  match dict_get item_dict item_name with
  | Some item =>
      match value item with
      | [] => [r]
      | v => [list_set r 9 (quoted v)]
      end
  | None => [r]
  end.

Definition header_row (indent : nat) (label : pystr) : row :=
  repeat [] indent ++ [label] ++ repeat [] (24 - indent).

Definition subcategory_rows (add : pystr -> Z -> list row)
    (leaf_level : Z) (entry : pystr * subcategory_value) : list row :=
  match entry with
  | (subcat, SubItems items) =>
      header_row 2 subcat :: flat_map (fun item_name => add item_name leaf_level) items
  | (subcat, SubOther) => add subcat 2
  end.

Definition category_rows (add : pystr -> Z -> list row)
    (nested_leaf_level direct_leaf_level : Z)
    (entry : pystr * category_value) : list row :=
  match entry with
  | (category, CatDict subcategories) =>
      header_row 1 category
        :: flat_map (subcategory_rows add nested_leaf_level) subcategories
  | (category, CatList items) =>
      header_row 1 category
        :: flat_map (fun item_name => add item_name direct_leaf_level) items
  | (category, CatOther) => add category 1
  end.

(** [_build_section_with_grouping]: a leaf is added at level 3 both below a
    sub-category and directly below a category. *)
Definition _build_section_with_grouping (bs_structure : structure_t)
    (section_name : pystr) (item_dict : item_dict_t) : list row :=
  let structure := match dict_get bs_structure section_name with
                   | Some s => s
                   | None => []
                   end in
  header_row 0 section_name
    :: flat_map
         (category_rows (fun n l => _add_item_row_with_grouping n item_dict l) 3 3)
         structure.

Definition _build_balance_sheet_structure_with_grouping
    (bs_structure : structure_t) (bs_items_dict : list (pystr * list BSItem))
    : result (list row) :=
  consolidated_items <- consolidate bs_items_dict [] ;;
  Ok (_build_section_with_grouping bs_structure (u "資産の部") consolidated_items
        ++ [blank_row]
        ++ _build_section_with_grouping bs_structure (u "負債の部") consolidated_items).

(** ** The legacy layout path

    [_build_balance_sheet_structure], [_build_section] and [_add_item_row]
    are kept in the class next to the grouping path; nothing calls them. *)

Fixpoint flat_mapM {A B : Type} (f : A -> result (list B)) (l : list A)
    : result (list B) :=
  match l with
  | [] => Ok []
  | x :: rest =>
      ys <- f x ;;
      zs <- flat_mapM f rest ;;
      Ok (ys ++ zs)
  end.

Definition _add_item_row (item_name : pystr) (item_dict : item_dict_t)
    (level : Z) : result (list row) :=
  let matching_items :=
    map snd (filter (fun kv => pystr_eqb (fst kv) item_name) item_dict) in
  let r := place_label blank_row item_name level in
  match matching_items with
  | [] => Ok [r]
  | _ =>
      let '(total_amount, has_valid_amount) :=
        sum_items matching_items (PyFloat.of_Z 0) false in
      if has_valid_amount then
        formatted_amount <-
          (if PyFloat.is_integer total_amount
           then i <- PyFloat.to_int total_amount ;; Ok (format_int i)
           else Ok (format_0f total_amount)) ;;
        formatted_amount <-
          (if PyFloat.lt_Z total_amount 0
           then i <- PyFloat.to_int total_amount ;;
                Ok (c_triangle :: format_int (Z.abs i))
           else Ok formatted_amount) ;;
        Ok [list_set r 9 (quoted formatted_amount)]
      else Ok [r]
  end.

Definition subcategory_rowsM (add : pystr -> Z -> result (list row))
    (entry : pystr * subcategory_value) : result (list row) :=
  match entry with
  | (subcat, SubItems items) =>
      rows <- flat_mapM (fun item_name => add item_name 3) items ;;
      Ok (header_row 2 subcat :: rows)
  | (subcat, SubOther) => add subcat 2
  end.

(** [_build_section]: a leaf directly below a category is added at level 2. *)
Definition category_rowsM (add : pystr -> Z -> result (list row))
    (entry : pystr * category_value) : result (list row) :=
  match entry with
  | (category, CatDict subcategories) =>
      rows <- flat_mapM (subcategory_rowsM add) subcategories ;;
      Ok (header_row 1 category :: rows)
  | (category, CatList items) =>
      rows <- flat_mapM (fun item_name => add item_name 2) items ;;
      Ok (header_row 1 category :: rows)
  | (category, CatOther) => add category 1
  end.

Definition _build_section (bs_structure : structure_t)
    (section_name : pystr) (item_dict : item_dict_t) : result (list row) :=
  let structure := match dict_get bs_structure section_name with
                   | Some s => s
                   | None => []
                   end in
  rows <- flat_mapM (category_rowsM (fun n l => _add_item_row n item_dict l))
            structure ;;
  Ok (header_row 0 section_name :: rows).

Definition _build_balance_sheet_structure (bs_structure : structure_t)
    (bs_items : list BSItem) : result (list row) :=
  let item_dict :=
    fold_left (fun d item => dict_set d (name item) item) bs_items [] in
  assets <- _build_section bs_structure (u "資産の部") item_dict ;;
  liabilities <- _build_section bs_structure (u "負債の部") item_dict ;;
  Ok (assets ++ [blank_row] ++ liabilities).

(** ** The Row Standardizer *)

Definition standardize_row (r : row) : row :=
  if (List.length r <? 25)%nat then r ++ repeat [] (25 - List.length r)
  else if (25 <? List.length r)%nat then firstn 25 r
  else r.

(** [_convert_to_csv_format]; the frame it returns is the list of its rows. *)
Definition _convert_to_csv_format (bs_table : list row) : list row :=
  map standardize_row bs_table.

(** ** Configuration *)

Record config := {
  account_mapping : account_mapping_t;   (* [balance_sheet.account_mapping], default empty *)
  structure : option structure_t         (* [balance_sheet.structure], when present *)
}.

Definition default_structure : structure_t :=
  [ (u "資産の部",
      [ (u "流動資産",
          CatList [u "現金及び預金"; u "コールローン"; u "受取手形及び売掛金";
                   u "有価証券"; u "棚卸資産"; u "営業貸付金";
                   u "銀行業における貸出金"; u "その他"; u "貸倒引当金";
                   u "流動資産合計"]);
        (u "固定資産",
          CatDict
            [ (u "有形固定資産",
                SubItems [u "建物及び構築物（純額）"; u "工具、器具及び備品（純額）";
                          u "土地"; u "リース資産（純額）"; u "建設仮勘定";
                          u "その他（純額）"; u "有形固定資産合計"]);
              (u "無形固定資産",
                SubItems [u "のれん"; u "ソフトウエア"; u "リース資産"; u "その他";
                          u "無形固定資産合計"]);
              (u "投資その他の資産",
                SubItems [u "投資有価証券"; u "退職給付に係る資産"; u "繰延税金資産";
                          u "差入保証金"; u "店舗賃借仮勘定"; u "その他";
                          u "貸倒引当金"; u "投資その他の資産合計"]) ]);
        (u "固定資産合計", CatOther);
        (u "資産合計", CatOther) ]);
    (u "負債の部",
      [ (u "流動負債",
          CatList [u "支払手形及び買掛金"; u "銀行業における預金"; u "短期借入金";
                   u "1年内返済予定の長期借入金"; u "1年内償還予定の社債";
                   u "コマーシャル・ペーパー"; u "リース債務"; u "未払法人税等";
                   u "契約負債"; u "賞与引当金"; u "店舗閉鎖損失引当金";
                   u "ポイント引当金"; u "設備関係支払手形"; u "その他";
                   u "流動負債合計"]);
        (u "固定負債",
          CatList [u "社債"; u "長期借入金"; u "リース債務"; u "繰延税金負債";
                   u "役員退職慰労引当金"; u "店舗閉鎖損失引当金"; u "偶発損失引当金";
                   u "利息返還損失引当金"; u "退職給付に係る負債"; u "資産除去債務";
                   u "長期預り保証金"; u "保険契約準備金"; u "その他";
                   u "固定負債合計"]);
        (u "負債合計", CatOther) ]) ].

Definition _load_bs_structure (cfg : config) : structure_t :=
  match structure cfg with
  | Some s => s
  | None => default_structure
  end.

(** ** Data frames

    A frame is its columns, in order, each with a label, a dtype and one
    cell per row.  A cell is [None] when it is missing (NaN) and otherwise
    the text [str] gives for it: the string itself in an [object] column,
    the printed number in a numeric one.  Labels are strings and distinct,
    the index is the default one, and an [object] column holds strings. *)

Inductive dtype := ObjectDtype | Int64Dtype | Float64Dtype | OtherDtype.

Record column := {
  col_name : pystr;
  col_dtype : dtype;
  col_cells : list (option pystr)
}.

Record DataFrame := {
  columns : list column;
  n_rows : nat
}.

Definition is_object (c : column) : bool :=
  match col_dtype c with ObjectDtype => true | _ => false end.

Definition is_numeric (c : column) : bool :=
  match col_dtype c with Int64Dtype | Float64Dtype => true | _ => false end.

(** [name in df.columns] *)
Definition has_column (df : DataFrame) (name : pystr) : bool :=
  existsb (fun c => pystr_eqb (col_name c) name) (columns df).

(** [df[name]] *)
Definition get_column (df : DataFrame) (name : pystr) : option column :=
  find (fun c => pystr_eqb (col_name c) name) (columns df).

Definition cell_at (c : column) (i : nat) : option pystr :=
  nth i (col_cells c) None.

Fixpoint select {A : Type} (mask : list bool) (l : list A) : list A :=
  match mask, l with
  | true :: mask', x :: l' => x :: select mask' l'
  | false :: mask', _ :: l' => select mask' l'
  | _, _ => []
  end.

Definition count_true (mask : list bool) : nat :=
  List.length (filter (fun b => b) mask).

(** [df[mask]] *)
Definition select_rows (df : DataFrame) (mask : list bool) : DataFrame :=
  {| columns :=
       map (fun c => {| col_name := col_name c;
                        col_dtype := col_dtype c;
                        col_cells := select mask (col_cells c) |})
           (columns df);
     n_rows := count_true (firstn (n_rows df) mask) |}.

(** [series.str.contains('Current', na=False, case=False)], and the same
    with the pattern ['CurrentYear|Current'], which matches the same
    strings: the accessor exists on a column of strings only. *)
Definition str_contains_current (c : column) : result (list bool) :=
  if is_object c then
    Ok (map (fun cell => match cell with
                         | Some s => contains (map lower_ascii s) (u "current")
                         | None => false
                         end) (col_cells c))
  else Raise AttributeError.

Definition mask_or (a b : list bool) : list bool :=
  map (fun p => orb (fst p) (snd p)) (combine a b).

(** The loop over the columns whose label holds [Instant] or [Quarter]. *)
Fixpoint instant_mask (df : DataFrame) (instant_cols : list column)
    (mask : list bool) : result (list bool) :=
  match instant_cols with
  | [] => Ok mask
  | c :: rest =>
      let first_has_current :=
        if (0 <? n_rows df)%nat then
          match cell_at c 0 with
          | Some s => contains s (u "Current")
          | None => false
          end
        else false in
      if first_has_current then
        m <- str_contains_current c ;;
        instant_mask df rest (mask_or mask m)
      else instant_mask df rest mask
  end.

(** The selection of the rows of the current period. *)
Definition current_year_rows (df : DataFrame) : result DataFrame :=
  let is_instant c :=
    contains (col_name c) (u "Instant") || contains (col_name c) (u "Quarter") in
  if has_column df (u "コンテキストID") then
    match get_column df (u "コンテキストID") with
    | Some c => mask <- str_contains_current c ;; Ok (select_rows df mask)
    | None => Ok df
    end
  else if has_column df (u "相対年度") then
    match get_column df (u "相対年度") with
    | Some c =>
        Ok (select_rows df
              (map (fun cell =>
                      match cell with
                      | Some s =>
                          is_object c
                          && (pystr_eqb s (u "当期") || pystr_eqb s (u "当期末"))
                      | None => false
                      end) (col_cells c)))
    | None => Ok df
    end
  else if existsb is_instant (columns df) then
    mask <- instant_mask df (filter is_instant (columns df))
              (repeat false (n_rows df)) ;;
    if existsb (fun b => b) mask then Ok (select_rows df mask) else Ok df
  else Ok df.

Definition _detect_item_name_column (df : DataFrame) : option pystr :=
  let names := map col_name (columns df) in
  match find (fun cand => existsb (pystr_eqb cand) names)
             [u "項目名"; u "科目名"; u "勘定科目"; u "Element"; u "ElementName"] with
  | Some candidate => Some candidate
  | None =>
      match find (fun col => existsb (contains col)
                               [u "項目"; u "科目"; u "勘定"; u "Element"]) names with
      | Some col => Some col
      | None => option_map col_name (find is_object (columns df))
      end
  end.

(** Whether a sampled value counts as numeric:
    [float(str(val).replace(',', '').replace('△', '-').strip())] returns. *)
Definition looks_numeric (val : pystr) : bool :=
  let val_str :=
    strip (map (fun c => if char_eqb c c_triangle then c_minus else c)
               (remove_char c_comma val)) in
  match py_float val_str with Some _ => true | None => false end.

Fixpoint dropna (cells : list (option pystr)) : list pystr :=
  match cells with
  | [] => []
  | Some s :: rest => s :: dropna rest
  | None :: rest => dropna rest
  end.

(** The last loop of [_detect_value_column] on one column. *)
Definition value_like (c : column) : bool :=
  if is_numeric c then true
  else if is_object c then
    let sample_values := firstn 10 (dropna (col_cells c)) in
    let numeric_count := List.length (filter looks_numeric sample_values) in
    (List.length sample_values <? 2 * numeric_count)%nat
  else false.

Definition _detect_value_column (df : DataFrame) : option pystr :=
  let names := map col_name (columns df) in
  match find (fun cand => existsb (pystr_eqb cand) names)
             [u "値"; u "金額"; u "Value"; u "Amount"; u "残高"] with
  | Some candidate => Some candidate
  | None =>
      match find (fun col => existsb (contains col)
                               [u "値"; u "金額"; u "Value"; u "Amount"]) names with
      | Some col => Some col
      | None => option_map col_name (find value_like (columns df))
      end
  end.

(** A label is false in a condition when it is the empty string. *)
Definition truthy (name : option pystr) : bool :=
  match name with
  | Some (_ :: _) => true
  | _ => false
  end.

(** The grouping loop of [transform_to_balance_sheet] over the rows from
    index [i] on, [n] rows in all. *)
Fixpoint group_rows (mapping : account_mapping_t) (item_col value_col : column)
    (i n : nat) (bs_items_dict : list (pystr * list BSItem))
    : result (list (pystr * list BSItem)) :=
  match n with
  | O => Ok bs_items_dict
  | S n' =>
      let item_name := match cell_at item_col i with Some s => s | None => [] end in
      let value := match cell_at value_col i with Some s => s | None => [] end in
      bs_item <- map_item_to_bs_account mapping (Some item_name) value ;;
      match bs_item with
      | Some item =>
          let key := name item in
          let old := match dict_get bs_items_dict key with
                     | Some l => l
                     | None => []
                     end in
          group_rows mapping item_col value_col (S i) n'
            (dict_set bs_items_dict key (old ++ [item]))
      | None => group_rows mapping item_col value_col (S i) n' bs_items_dict
      end
  end.

Definition transform_to_balance_sheet (cfg : config) (df : DataFrame)
    : result (list row) :=
  current_year_df <- current_year_rows df ;;
  let item_name_col := _detect_item_name_column current_year_df in
  let value_col := _detect_value_column current_year_df in
  if negb (truthy item_name_col) || negb (truthy value_col) then
    Ok (_convert_to_csv_format [])
  else
    match item_name_col, value_col with
    | Some item_name_col, Some value_col =>
        match get_column current_year_df item_name_col,
              get_column current_year_df value_col with
        | Some item_col, Some value_col =>
            bs_items_dict <-
              group_rows (account_mapping cfg) item_col value_col
                0 (n_rows current_year_df) [] ;;
            bs_table <-
              _build_balance_sheet_structure_with_grouping
                (_load_bs_structure cfg) bs_items_dict ;;
            Ok (_convert_to_csv_format bs_table)
        | _, _ => Ok (_convert_to_csv_format [])
        end
    | _, _ => Ok (_convert_to_csv_format [])
    end.

(** ** The account table of [processor.py] *)

(** [CSVProcessor._flatten_account_mapping]: the configuration maps a
    category to a dictionary from source account to general account; the
    categories are merged into one dictionary, assignment by assignment. *)
Definition _flatten_account_mapping
    (account_mapping : list (pystr * list (pystr * pystr)))
    : list (pystr * pystr) :=
  fold_left
    (fun flattened category =>
       fold_left (fun f kv => dict_set f (fst kv) (snd kv)) (snd category) flattened)
    account_mapping [].

(** [CSVProcessor._apply_account_mapping] on one cell: a missing cell is
    [None]; any other cell is given by its text. *)
Definition _apply_account_mapping (account_mapping : list (pystr * pystr))
    (value : option pystr) : option pystr :=
  match value with
  | None => None
  | Some [] => Some []
  | Some v =>
      let str_value := strip v in
      match dict_get account_mapping str_value with
      | Some general_account => Some general_account
      | None =>
          match find (fun kv => contains str_value (fst kv)) account_mapping with
          | Some (_, general_account) => Some general_account
          | None => Some str_value
          end
      end
  end.

(** * Properties *)

(** ** Strings *)

Lemma startswith_prefix (s p : pystr) :
  startswith s p = true <-> exists b, s = p ++ b.
Proof.
  revert s; induction p as [|c p IH]; intros s; simpl.
  - split; [intros _; exists s; reflexivity | reflexivity].
  - destruct s as [|d s].
    + split; [discriminate | intros [b Hb]; discriminate].
    + rewrite andb_true_iff, IH. unfold char_eqb. rewrite N.eqb_eq. split.
      * intros [-> [b ->]]. exists b. reflexivity.
      * intros [b Hb]. injection Hb as -> ->. split; [reflexivity | exists b; reflexivity].
Qed.

(** [contains] is substring containment, code point by code point. *)
Lemma contains_substring (s p : pystr) :
  contains s p = true <-> exists a b, s = a ++ p ++ b.
Proof.
  induction s as [|d s IH].
  - simpl. rewrite orb_false_r, startswith_prefix. split.
    + intros [b Hb]. exists [], b. exact Hb.
    + intros [a [b Hab]]. destruct a; [exists b; exact Hab | discriminate].
  - cbn [contains]. rewrite orb_true_iff, startswith_prefix, IH. split.
    + intros [[b Hb] | [a [b Hab]]].
      * exists [], b. exact Hb.
      * exists (d :: a), b. simpl. rewrite Hab. reflexivity.
    + intros [a [b Hab]]. destruct a as [|x a].
      * left. exists b. exact Hab.
      * right. injection Hab as _ Hab. exists a, b. exact Hab.
Qed.

Lemma lstrip_by_nil (p : char -> bool) (s : pystr) :
  lstrip_by p s = [] <-> forallb p s = true.
Proof.
  induction s as [|c s IH]; simpl.
  - split; reflexivity.
  - destruct (p c); simpl; [exact IH | split; discriminate].
Qed.

(** A string strips to nothing exactly when it is empty or all blank. *)
Lemma strip_nil (s : pystr) : strip s = [] <-> forallb is_space s = true.
Proof.
  unfold strip, strip_by. split.
  - intros H. apply (f_equal (@rev char)) in H. rewrite rev_involutive in H.
    simpl in H. apply lstrip_by_nil in H.
    destruct (lstrip_by is_space s) as [|c l] eqn:E.
    + apply lstrip_by_nil. exact E.
    + exfalso. rewrite forallb_forall in H.
      assert (Hc : is_space c = true) by (apply H, in_rev; rewrite rev_involutive; left; reflexivity).
      destruct s as [|d s]; [discriminate|].
      revert E Hc. clear. revert d.
      induction s as [|e s IH]; intros d; simpl.
      * destruct (is_space d) eqn:Ed; [discriminate|]. intros [= -> _]. congruence.
      * destruct (is_space d) eqn:Ed.
        -- apply IH.
        -- intros [= -> _]. congruence.
  - intros H. apply lstrip_by_nil in H. rewrite H. reflexivity.
Qed.

(** ** C4: the Amount Normalizer on strings without digits *)

Lemma take_while_none (p : char -> bool) (s : pystr) :
  forallb (fun c => negb (p c)) s = true -> take_while p s = [].
Proof.
  destruct s as [|c s]; simpl; [reflexivity|].
  destruct (p c); simpl; [discriminate | reflexivity].
Qed.

Lemma first_number_pattern_none (s : pystr) :
  forallb (fun c => negb (is_number_char c)) s = true ->
  first_number_pattern s = None.
Proof.
  induction s as [|c s IH]; simpl; [reflexivity|].
  intros H. apply andb_true_iff in H as [Hc Hs].
  apply negb_true_iff in Hc. rewrite Hc, (take_while_none _ _ Hs), (IH Hs).
  destruct (is_sign_char c); reflexivity.
Qed.

(** C4, as the code has it: a string that holds no decimal digit and no
    comma is cleaned to the empty string. *)
Theorem clean_amount_value_no_number_char (value : pystr) :
  forallb (fun c => negb (is_digit c) && negb (char_eqb c c_comma)) value = true ->
  clean_amount_value value = [].
Proof.
  intros H. unfold clean_amount_value. destruct value as [|c s]; [reflexivity|].
  rewrite first_number_pattern_none; [reflexivity|].
  rewrite forallb_forall in *. intros x Hx. specialize (H x Hx).
  unfold is_number_char. rewrite negb_orb. exact H.
Qed.

Lemma clean_amount_value_no_number_char_witness :
  clean_amount_value (u "△ 未定 - n/a") = [].
Proof.
  apply (clean_amount_value_no_number_char (u "△ 未定 - n/a")).
  vm_compute. reflexivity.
Defined.

(** C4 as stated fails on a string of commas: it holds no digit and is
    returned unchanged. *)
Lemma clean_amount_value_commas :
  forallb (fun c => negb (is_digit c)) (u ",,,") = true /\
  clean_amount_value (u ",,,") = u ",,," /\
  clean_amount_value (u ",,,") <> [].
Proof. vm_compute. repeat split; discriminate. Qed.

(** ** C7: the Account Classifier *)

(** [p] occurs in [s], code point for code point. *)
Definition substring (p s : pystr) : Prop := exists a b, s = a ++ p ++ b.

(** A table entry offers a pattern that occurs in [s]. *)
Definition has_pattern_in (sp : source_patterns) (s : pystr) : Prop :=
  match sp with
  | PatternList ps => exists p, In (Some p) ps /\ substring p s
  | PatternStr p => substring p s
  | PatternOther => False
  end.

Lemma patterns_match_spec (sp : source_patterns) (s : pystr) :
  patterns_match sp s = true <-> has_pattern_in sp s.
Proof.
  destruct sp as [ps|p|]; simpl.
  - rewrite existsb_exists. split.
    + intros [[p|] [Hin Hc]]; [|discriminate].
      exists p. split; [exact Hin | apply contains_substring, Hc].
    + intros [p [Hin Hs]]. exists (Some p). split; [exact Hin | apply contains_substring, Hs].
  - apply contains_substring.
  - split; [discriminate | intros []].
Qed.

Lemma first_matching_account_first (pre post : account_mapping_t)
    (a : pystr) (sp : source_patterns) (s : pystr) :
  Forall (fun e => ~ has_pattern_in (snd e) s) pre ->
  has_pattern_in sp s ->
  first_matching_account (pre ++ (a, sp) :: post) s = Some a.
Proof.
  intros Hpre Hsp. induction Hpre as [|[b sq] pre Hb _ IH]; simpl.
  - apply patterns_match_spec in Hsp. rewrite Hsp. reflexivity.
  - destruct (patterns_match sq s) eqn:E; [|exact IH].
    apply patterns_match_spec in E. contradiction.
Qed.

Lemma first_matching_account_none (mapping : account_mapping_t) (s : pystr) :
  Forall (fun e => ~ has_pattern_in (snd e) s) mapping ->
  first_matching_account mapping s = None.
Proof.
  intros H. induction H as [|[b sq] rest Hb _ IH]; simpl; [reflexivity|].
  destruct (patterns_match sq s) eqn:E; [|exact IH].
  apply patterns_match_spec in E. contradiction.
Qed.

Lemma map_item_to_bs_account_blank (mapping : account_mapping_t)
    (l : pystr) (amount : pystr) :
  forallb is_space l = true ->
  map_item_to_bs_account mapping (Some l) amount = Ok None.
Proof.
  intros H. unfold map_item_to_bs_account. destruct l as [|c l]; [reflexivity|].
  apply strip_nil in H. rewrite H. reflexivity.
Qed.

Lemma map_item_to_bs_account_label (mapping : account_mapping_t)
    (l amount formatted : pystr) :
  forallb is_space l = false ->
  format_amount (clean_amount_value amount) = Ok formatted ->
  map_item_to_bs_account mapping (Some l) amount =
  Ok (option_map
        (fun a => {| level := _get_account_level a; name := a;
                     value := formatted; note := extract_note_numbers amount |})
        (first_matching_account mapping (strip l))).
Proof.
  intros Hl Hf. unfold map_item_to_bs_account.
  destruct l as [|c l]; [discriminate|].
  destruct (strip (c :: l)) as [|d s] eqn:E.
  - apply strip_nil in E. congruence.
  - rewrite Hf. simpl.
    destruct (first_matching_account mapping (d :: s)); reflexivity.
Qed.

(** C7, as the code has it.  A missing, empty or blank label gives no item.
    Any other label is stripped of surrounding whitespace and, when the
    amount formats, classified to the first account of the table, in its
    order, that offers a pattern occurring in the stripped label; no item
    when no account does. *)
Theorem map_item_to_bs_account_first_match (mapping : account_mapping_t)
    (amount : pystr) :
  map_item_to_bs_account mapping None amount = Ok None /\
  (forall l, forallb is_space l = true ->
     map_item_to_bs_account mapping (Some l) amount = Ok None) /\
  (forall l formatted,
     forallb is_space l = false ->
     format_amount (clean_amount_value amount) = Ok formatted ->
     (forall pre a sp post,
        mapping = pre ++ (a, sp) :: post ->
        Forall (fun e => ~ has_pattern_in (snd e) (strip l)) pre ->
        has_pattern_in sp (strip l) ->
        map_item_to_bs_account mapping (Some l) amount =
        Ok (Some {| level := _get_account_level a; name := a;
                    value := formatted;
                    note := extract_note_numbers amount |})) /\
     (Forall (fun e => ~ has_pattern_in (snd e) (strip l)) mapping ->
      map_item_to_bs_account mapping (Some l) amount = Ok None)).
Proof.
  split; [reflexivity|]. split.
  - intros l Hl. apply map_item_to_bs_account_blank, Hl.
  - intros l formatted Hl Hf. split.
    + intros pre a sp post -> Hpre Hsp.
      rewrite (map_item_to_bs_account_label _ _ _ _ Hl Hf).
      rewrite (first_matching_account_first _ _ _ _ _ Hpre Hsp). reflexivity.
    + intros Hnone.
      rewrite (map_item_to_bs_account_label _ _ _ _ Hl Hf).
      rewrite (first_matching_account_none _ _ Hnone). reflexivity.
Qed.

(** Two accounts offer a pattern of the label; the first one of the table
    is returned, though the second one's pattern is the longer. *)
Lemma map_item_to_bs_account_first_match_witness :
  map_item_to_bs_account
    [(u "その他", PatternList [None; Some (u "預金")]);
     (u "現金及び預金", PatternStr (u "現金及び預金"))]
    (Some (u "  現金及び預金 ")) (u "1,234") =
  Ok (Some {| level := 2; name := u "その他"; value := u "1,234"; note := [] |}).
Proof.
  apply (proj1 (proj2 (proj2 (map_item_to_bs_account_first_match
           [(u "その他", PatternList [None; Some (u "預金")]);
            (u "現金及び預金", PatternStr (u "現金及び預金"))] (u "1,234")))
           (u "  現金及び預金 ") (u "1,234") eq_refl eq_refl)
         [] (u "その他") (PatternList [None; Some (u "預金")])
         [(u "現金及び預金", PatternStr (u "現金及び預金"))] eq_refl (Forall_nil _)).
  exists (u "預金"). split; [right; left; reflexivity|].
  exists (u "現金及び"), []. reflexivity.
Defined.

(** The classifier as the claim words it: the patterns are looked for in
    the label as it is given. *)
Definition claimed_account (mapping : account_mapping_t)
    (item_name : option pystr) : option pystr :=
  match item_name with
  | None => None
  | Some l => if forallb is_space l then None else first_matching_account mapping l
  end.

(** C7 as stated fails on a label with surrounding whitespace: the pattern
    occurs in the label as given, not in the stripped label the code
    searches. *)
Lemma map_item_to_bs_account_strips_label :
  map_item_to_bs_account [(u "現金及び預金", PatternStr (u " 現金"))]
    (Some (u " 現金")) (u "100") = Ok None /\
  claimed_account [(u "現金及び預金", PatternStr (u " 現金"))] (Some (u " 現金"))
  = Some (u "現金及び預金").
Proof. split; vm_compute; reflexivity. Qed.

(** ** C5: the Row Standardizer *)

Lemma standardize_row_length (r : row) : List.length (standardize_row r) = 25%nat.
Proof.
  unfold standardize_row.
  destruct (List.length r <? 25)%nat eqn:E1.
  - apply Nat.ltb_lt in E1. rewrite length_app, repeat_length. lia.
  - apply Nat.ltb_ge in E1. destruct (25 <? List.length r)%nat eqn:E2.
    + apply Nat.ltb_lt in E2. rewrite length_firstn. lia.
    + apply Nat.ltb_ge in E2. lia.
Qed.

Lemma standardize_row_pad (r : row) :
  (List.length r < 25)%nat ->
  standardize_row r = r ++ repeat [] (25 - List.length r).
Proof.
  intros H. unfold standardize_row. apply Nat.ltb_lt in H. rewrite H. reflexivity.
Qed.

Lemma standardize_row_truncate (r : row) :
  (25 < List.length r)%nat -> standardize_row r = firstn 25 r.
Proof.
  intros H. unfold standardize_row.
  assert (H1 : (List.length r <? 25)%nat = false) by (apply Nat.ltb_ge; lia).
  apply Nat.ltb_lt in H. rewrite H1, H. reflexivity.
Qed.

Lemma standardize_row_id (r : row) :
  List.length r = 25%nat -> standardize_row r = r.
Proof. intros H. unfold standardize_row. rewrite H. reflexivity. Qed.

Lemma convert_rows_25 (bs_table : list row) :
  Forall (fun r => List.length r = 25%nat) (_convert_to_csv_format bs_table).
Proof.
  unfold _convert_to_csv_format. apply Forall_forall. intros r Hr.
  apply in_map_iff in Hr as [r0 [<- _]]. apply standardize_row_length.
Qed.

(** The table [transform_to_balance_sheet] returns is always the output of
    the standardizer: of the built table, or of the empty one. *)
Lemma transform_returns_converted (cfg : config) (df : DataFrame) (t : list row) :
  transform_to_balance_sheet cfg df = Ok t ->
  t = [] \/
  exists cy item_col value_col d consolidated_items,
    current_year_rows df = Ok cy /\
    group_rows (account_mapping cfg) item_col value_col 0 (n_rows cy) [] = Ok d /\
    consolidate d [] = Ok consolidated_items /\
    t = _convert_to_csv_format
          (_build_section_with_grouping (_load_bs_structure cfg) (u "資産の部")
             consolidated_items
           ++ [blank_row]
           ++ _build_section_with_grouping (_load_bs_structure cfg) (u "負債の部")
                consolidated_items).
Proof.
  unfold transform_to_balance_sheet.
  destruct (current_year_rows df) as [cy|e] eqn:Ecy; simpl; [|discriminate].
  destruct (negb (truthy (_detect_item_name_column cy))
            || negb (truthy (_detect_value_column cy))).
  { intros [= <-]. left. reflexivity. }
  destruct (_detect_item_name_column cy) as [ic|]; [|intros [= <-]; left; reflexivity].
  destruct (_detect_value_column cy) as [vc|]; [|intros [= <-]; left; reflexivity].
  destruct (get_column cy ic) as [icol|]; [|intros [= <-]; left; reflexivity].
  destruct (get_column cy vc) as [vcol|]; [|intros [= <-]; left; reflexivity].
  destruct (group_rows _ icol vcol 0 (n_rows cy) []) as [d|e] eqn:Eg; simpl; [|discriminate].
  unfold _build_balance_sheet_structure_with_grouping.
  destruct (consolidate d []) as [ci|e] eqn:Ec; simpl; [|discriminate].
  intros [= <-]. right. exists cy, icol, vcol, d, ci. repeat split; assumption.
Qed.

Lemma standardize_row_firstn (r : row) :
  standardize_row r = firstn 25 r ++ repeat [] (25 - List.length r).
Proof.
  unfold standardize_row.
  destruct (List.length r <? 25)%nat eqn:E1.
  - apply Nat.ltb_lt in E1. rewrite firstn_all2 by lia. reflexivity.
  - apply Nat.ltb_ge in E1.
    replace (25 - List.length r)%nat with 0%nat by lia.
    cbn [repeat]. rewrite List.app_nil_r.
    destruct (25 <? List.length r)%nat eqn:E2; [reflexivity|].
    apply Nat.ltb_ge in E2. rewrite firstn_all2 by lia. reflexivity.
Qed.

Lemma convert_rows_firstn (bs_table : list row) :
  Forall2 (fun r r' => r' = firstn 25 r ++ repeat [] (25 - List.length r))
    bs_table (_convert_to_csv_format bs_table).
Proof.
  unfold _convert_to_csv_format.
  induction bs_table as [|r rest IH]; cbn [map]; constructor;
    [apply standardize_row_firstn | exact IH].
Qed.

(** C5: every row of the returned table has 25 cells, whatever the frame
    and the configuration; the standardizer pads a shorter row with empty
    strings and cuts a longer one.  The returned table is the output of
    [_convert_to_csv_format], on the empty table or on the table the
    layout builder returns, and [_convert_to_csv_format] keeps the rows in
    number and order and replaces each by its first 25 cells followed by
    as many empty strings as it lacks. *)
Theorem transform_rows_have_25_cells :
  (forall cfg df t,
     transform_to_balance_sheet cfg df = Ok t ->
     Forall (fun r => List.length r = 25%nat) t) /\
  (forall r, List.length (standardize_row r) = 25%nat) /\
  (forall r, (List.length r < 25)%nat ->
     standardize_row r = r ++ repeat [] (25 - List.length r)) /\
  (forall r, (25 < List.length r)%nat -> standardize_row r = firstn 25 r) /\
  (forall cfg df t,
     transform_to_balance_sheet cfg df = Ok t ->
     exists bs_table,
       t = _convert_to_csv_format bs_table /\
       (bs_table = [] \/
        exists bs_items_dict,
          _build_balance_sheet_structure_with_grouping
            (_load_bs_structure cfg) bs_items_dict = Ok bs_table)) /\
  (forall bs_table,
     Forall2 (fun r r' => r' = firstn 25 r ++ repeat [] (25 - List.length r))
       bs_table (_convert_to_csv_format bs_table)).
Proof.
  split; [|split; [exact standardize_row_length
                  |split; [exact standardize_row_pad
                          |split; [exact standardize_row_truncate|split]]]].
  - intros cfg df t H. apply transform_returns_converted in H.
    destruct H as [-> | (cy & ic & vc & d & ci & _ & _ & _ & ->)].
    + constructor.
    + apply convert_rows_25.
  - intros cfg df t H. apply transform_returns_converted in H.
    destruct H as [-> | (cy & ic & vc & d & ci & _ & _ & Ec & ->)].
    + exists []. split; [reflexivity | left; reflexivity].
    + eexists. split; [reflexivity|]. right. exists d.
      unfold _build_balance_sheet_structure_with_grouping. rewrite Ec. reflexivity.
  - exact convert_rows_firstn.
Qed.

(** A frame with the two columns of a tall statement and the given rows. *)
Definition statement_frame (rows : list (pystr * pystr)) : DataFrame :=
  {| columns :=
       [ {| col_name := u "項目名"; col_dtype := ObjectDtype;
            col_cells := map (fun r => Some (fst r)) rows |};
         {| col_name := u "値"; col_dtype := ObjectDtype;
            col_cells := map (fun r => Some (snd r)) rows |} ];
     n_rows := List.length rows |}.

Definition cash_config : config :=
  {| account_mapping := [(u "現金及び預金", PatternStr (u "現金及び預金"))];
     structure := None |}.

(** The consolidated entries [transform_to_balance_sheet] forms for a
    statement frame: the grouping loop, then the summing loop. *)
Definition consolidated_entries (cfg : config) (rows : list (pystr * pystr))
    : result item_dict_t :=
  let df := statement_frame rows in
  match get_column df (u "項目名"), get_column df (u "値") with
  | Some item_col, Some value_col =>
      d <- group_rows (account_mapping cfg) item_col value_col 0 (n_rows df) [] ;;
      consolidate d []
  | _, _ => Ok []
  end.

(** On a frame with no row the table is the 72 rows of the default
    template, each of 25 cells. *)
Lemma transform_rows_have_25_cells_witness :
  exists t,
    transform_to_balance_sheet cash_config (statement_frame []) = Ok t /\
    List.length t = 72%nat /\
    Forall (fun r => List.length r = 25%nat) t.
Proof.
  eexists. split; [vm_compute; reflexivity|]. split; [reflexivity|].
  apply (proj1 transform_rows_have_25_cells cash_config (statement_frame [])).
  vm_compute. reflexivity.
Defined.

(** ** C3: the layout of a category with a direct list of leaves *)

Lemma list_set_length {A : Type} (l : list A) (i : nat) (v : A) :
  List.length (list_set l i v) = List.length l.
Proof.
  revert i; induction l as [|x l IH]; intros [|i]; simpl; try reflexivity.
  rewrite IH. reflexivity.
Qed.

Lemma place_label_length (r : row) (n : pystr) (l : Z) :
  List.length (place_label r n l) = List.length r.
Proof.
  unfold place_label.
  destruct (l =? 1); [apply list_set_length|].
  destruct (l =? 2); [apply list_set_length|].
  destruct (l =? 3); [apply list_set_length | reflexivity].
Qed.

Lemma add_item_row_with_grouping_25 (n : pystr) (d : item_dict_t) (l : Z) :
  Forall (fun r => List.length r = 25%nat) (_add_item_row_with_grouping n d l).
Proof.
  unfold _add_item_row_with_grouping.
  destruct (dict_get d n) as [item|]; [destruct (value item)|];
    repeat constructor; rewrite ?list_set_length, place_label_length; reflexivity.
Qed.

Lemma Forall_flat_map {A B : Type} (P : B -> Prop) (f : A -> list B) (l : list A) :
  (forall x, Forall P (f x)) -> Forall P (flat_map f l).
Proof.
  intros H. induction l as [|x l IH]; simpl; [constructor|].
  apply Forall_app. split; [apply H | exact IH].
Qed.

Lemma build_section_with_grouping_25 (s : structure_t) (section_name : pystr)
    (d : item_dict_t) :
  Forall (fun r => List.length r = 25%nat)
         (_build_section_with_grouping s section_name d).
Proof.
  unfold _build_section_with_grouping. constructor; [reflexivity|].
  apply Forall_flat_map. intros [category [subs|items|]]; simpl.
  - constructor; [reflexivity|]. apply Forall_flat_map.
    intros [subcat [items|]]; simpl.
    + constructor; [reflexivity|]. apply Forall_flat_map. intros x.
      apply add_item_row_with_grouping_25.
    + apply add_item_row_with_grouping_25.
  - constructor; [reflexivity|]. apply Forall_flat_map. intros x.
    apply add_item_row_with_grouping_25.
  - apply add_item_row_with_grouping_25.
Qed.

Lemma convert_id (t : list row) :
  Forall (fun r => List.length r = 25%nat) t -> _convert_to_csv_format t = t.
Proof.
  intros H. unfold _convert_to_csv_format.
  induction H as [|r t Hr _ IH]; simpl; [reflexivity|].
  rewrite IH, (standardize_row_id r Hr). reflexivity.
Qed.

(** The row of a leaf at level 3: its label in cell 2, cells 0 and 1 empty. *)
Definition leaf_row_level3 (leaf : pystr) (r : row) : Prop :=
  nth 2 r [] = leaf /\ nth 1 r [] = [] /\ nth 0 r [] = [] /\
  List.length r = 25%nat.

Lemma direct_leaf_rows (d : item_dict_t) (items : list pystr) :
  Forall2 leaf_row_level3 items
    (flat_map (fun item_name => _add_item_row_with_grouping item_name d 3) items).
Proof.
  induction items as [|leaf items IH]; simpl; [constructor|].
  unfold _add_item_row_with_grouping at 1.
  destruct (dict_get d leaf) as [item|]; [destruct (value item)|];
    simpl; constructor; try exact IH; repeat split.
Qed.

Lemma flat_map_middle {A B : Type} (f : A -> list B) (pre post : list A) (x : A) :
  flat_map f (pre ++ x :: post) = flat_map f pre ++ f x ++ flat_map f post.
Proof. rewrite flat_map_app. reflexivity. Qed.

Lemma build_section_direct_list (s : structure_t) (section_name : pystr)
    (d : item_dict_t) (pre post : section_t) (category : pystr)
    (items : list pystr) :
  dict_get s section_name = Some (pre ++ (category, CatList items) :: post) ->
  exists before after leaf_rows,
    _build_section_with_grouping s section_name d =
      before ++ header_row 1 category :: leaf_rows ++ after /\
    Forall2 leaf_row_level3 items leaf_rows.
Proof.
  intros H. unfold _build_section_with_grouping. rewrite H, flat_map_middle.
  eexists (_ :: _), _, _. split.
  - simpl. reflexivity.
  - apply direct_leaf_rows.
Qed.

(** C3, as the code has it: in a table that is not the empty report, a
    category of either section whose template value is a list of leaves
    gives one header row, the category in cell 1, followed by one row per
    leaf, in order, with the leaf in cell 2 (level 3): one column to the
    right of the header. *)
Theorem transform_direct_leaves_in_cell_2 (cfg : config) (df : DataFrame)
    (t : list row) (section_name : pystr) (pre post : section_t)
    (category : pystr) (items : list pystr) :
  transform_to_balance_sheet cfg df = Ok t ->
  t <> [] ->
  section_name = u "資産の部" \/ section_name = u "負債の部" ->
  dict_get (_load_bs_structure cfg) section_name =
    Some (pre ++ (category, CatList items) :: post) ->
  exists before after leaf_rows,
    t = before ++ header_row 1 category :: leaf_rows ++ after /\
    nth 1 (header_row 1 category) [] = category /\
    Forall2 leaf_row_level3 items leaf_rows.
Proof.
  intros Ht Hne Hsec Hcat. apply transform_returns_converted in Ht.
  destruct Ht as [-> | (cy & ic & vc & d & ci & _ & _ & _ & ->)]; [congruence|].
  rewrite convert_id.
  2:{ apply Forall_app. split; [apply build_section_with_grouping_25|].
      apply Forall_app. split; [repeat constructor|].
      apply build_section_with_grouping_25. }
  destruct (build_section_direct_list _ _ ci _ _ _ _ Hcat)
    as (before & after & leaf_rows & E & Hrows).
  destruct Hsec as [-> | ->]; rewrite E.
  - exists before, (after ++ [blank_row]
                      ++ _build_section_with_grouping (_load_bs_structure cfg)
                           (u "負債の部") ci), leaf_rows.
    split; [|split; [reflexivity | exact Hrows]].
    rewrite <- !app_assoc. simpl. rewrite <- app_assoc. reflexivity.
  - exists (_build_section_with_grouping (_load_bs_structure cfg) (u "資産の部") ci
              ++ [blank_row] ++ before), after, leaf_rows.
    split; [|split; [reflexivity | exact Hrows]].
    rewrite <- !app_assoc. reflexivity.
Qed.

Lemma transform_direct_leaves_in_cell_2_witness :
  exists before after leaf_rows,
    match transform_to_balance_sheet cash_config
            (statement_frame [(u "現金及び預金", u "1,234,567")]) with
    | Ok t => t
    | Raise _ => []
    end = before ++ header_row 1 (u "流動資産") :: leaf_rows ++ after /\
    nth 1 (header_row 1 (u "流動資産")) [] = u "流動資産" /\
    Forall2 leaf_row_level3
      [u "現金及び預金"; u "コールローン"; u "受取手形及び売掛金"; u "有価証券";
       u "棚卸資産"; u "営業貸付金"; u "銀行業における貸出金"; u "その他";
       u "貸倒引当金"; u "流動資産合計"] leaf_rows.
Proof.
  eapply (transform_direct_leaves_in_cell_2 cash_config
            (statement_frame [(u "現金及び預金", u "1,234,567")]) _
            (u "資産の部") []).
  - vm_compute. reflexivity.
  - vm_compute. discriminate.
  - left. reflexivity.
  - vm_compute. reflexivity.
Defined.

(** C3 as stated fails on the default template: the row after the header
    of the first category is its first leaf, whose cell 1 is empty; the
    label is in cell 2, while the header has its label in cell 1. *)
Lemma transform_leaf_not_in_cell_1 :
  exists t,
    transform_to_balance_sheet cash_config
      (statement_frame [(u "現金及び預金", u "1,234,567")]) = Ok t /\
    nth 1 (nth 1 t []) [] = u "流動資産" /\
    nth 1 (nth 2 t []) [] = [] /\
    nth 2 (nth 2 t []) [] = u "現金及び預金" /\
    nth 1 (nth 2 t []) [] <> u "現金及び預金".
Proof.
  eexists. split; [vm_compute; reflexivity|].
  repeat split. vm_compute. discriminate.
Qed.

(** ** Floats: when rounding is exact *)

(** A magnitude that 53 significant bits hold. *)
Definition fits_53_bits (k : Z) : Prop :=
  exists m s, 0 <= m < 2 ^ 53 /\ 0 <= s /\ k = m * 2 ^ s.

Lemma one_pos : 0 < PyFloat.one.
Proof. unfold PyFloat.one. apply Z.pow_pos_nonneg; lia. Qed.

Lemma rne_exact (q d : Z) : 0 < d -> PyFloat.rne (q * d) d = q.
Proof.
  intros Hd. unfold PyFloat.rne.
  rewrite Z.div_mul by lia. rewrite Z.mod_mul by lia.
  assert (H : (2 * 0 <? d) = true) by (apply Z.ltb_lt; lia).
  rewrite H. reflexivity.
Qed.

Lemma round_mag_exact (q d : Z) :
  0 < d -> 0 <= q -> fits_53_bits q -> PyFloat.round_mag (q * d) d = q.
Proof.
  intros Hd Hq (m & t & Hm & Ht & E). unfold PyFloat.round_mag.
  rewrite Z.div_mul by lia.
  destruct (q <? PyFloat.mant) eqn:Hlt; [apply rne_exact, Hd|].
  apply Z.ltb_ge in Hlt. unfold PyFloat.mant in Hlt.
  assert (Hqpos : 0 < q) by (assert (0 < 2 ^ 53) by (apply Z.pow_pos_nonneg; lia); lia).
  assert (Hlo : 53 <= Z.log2 q) by (apply Z.log2_le_pow2; assumption).
  assert (Hhi : Z.log2 q < 53 + t).
  { apply Z.log2_lt_pow2; [assumption|].
    rewrite Z.pow_add_r by lia. subst q.
    assert (0 < 2 ^ t) by (apply Z.pow_pos_nonneg; lia). nia. }
  set (s := Z.log2 q - 52).
  assert (Hs : 0 <= s <= t) by (unfold s; lia).
  assert (Hpow : 2 ^ t = 2 ^ (t - s) * 2 ^ s).
  { rewrite <- Z.pow_add_r by lia. f_equal. lia. }
  assert (Hspos : 0 < 2 ^ s) by (apply Z.pow_pos_nonneg; lia).
  replace (q * d) with (m * 2 ^ (t - s) * (d * 2 ^ s)) by (rewrite E, Hpow; ring).
  rewrite rne_exact by nia. rewrite E, Hpow. ring.
Qed.

(** Rounding a value that is a double gives that double. *)
Lemma round_exact (q d : Z) :
  0 < d -> fits_53_bits (Z.abs q) -> Z.abs q < PyFloat.huge ->
  PyFloat.round (q * d) d = PyFloat.Fin q.
Proof.
  intros Hd Hfit Hhuge. unfold PyFloat.round.
  replace (Z.abs (q * d)) with (Z.abs q * d) by (rewrite Z.abs_mul; f_equal; lia).
  rewrite round_mag_exact by (try assumption; lia).
  apply Z.leb_gt in Hhuge. rewrite Hhuge. f_equal.
  rewrite Z.sgn_mul, (Z.sgn_pos d) by lia. rewrite Z.mul_1_r.
  destruct q; simpl; lia.
Qed.

(** An integer that is a double: 53 significant bits and below 2^1024. *)
Definition is_double_int (v : Z) : Prop :=
  fits_53_bits (Z.abs v) /\ Z.abs v < 2 ^ 1024.

Lemma is_double_int_small (v : Z) : Z.abs v <= 2 ^ 53 -> is_double_int v.
Proof.
  intros H. split.
  - destruct (Z.eq_dec (Z.abs v) (2 ^ 53)) as [E|E].
    + exists 1, 53. rewrite E. lia.
    + exists (Z.abs v), 0. rewrite Z.pow_0_r. lia.
  - assert (2 ^ 53 < 2 ^ 1024) by (apply Z.pow_lt_mono_r; lia). lia.
Qed.

Lemma is_double_int_units (v : Z) :
  is_double_int v ->
  fits_53_bits (Z.abs (v * PyFloat.one)) /\ Z.abs (v * PyFloat.one) < PyFloat.huge.
Proof.
  intros [(m & s & Hm & Hs & E) Hlt]. pose proof one_pos as H1.
  rewrite Z.abs_mul, (Z.abs_eq PyFloat.one) by lia. split.
  - exists m, (s + 1074). split; [exact Hm|]. split; [lia|].
    rewrite E, Z.pow_add_r by lia. unfold PyFloat.one. ring.
  - unfold PyFloat.huge. change 2098 with (1024 + 1074).
    rewrite Z.pow_add_r by lia. fold PyFloat.one. nia.
Qed.

(** [float(n)] of such an integer, and the sum of two whose sum is one. *)
Lemma round_int_exact (v : Z) :
  is_double_int v -> PyFloat.round (v * PyFloat.one) 1 = PyFloat.Fin (v * PyFloat.one).
Proof.
  intros H. apply is_double_int_units in H as [H1 H2].
  rewrite <- (Z.mul_1_r (v * PyFloat.one)) at 1.
  apply round_exact; [lia | assumption | assumption].
Qed.

Lemma add_int_exact (a b : Z) :
  is_double_int (a + b) ->
  PyFloat.add (PyFloat.Fin (a * PyFloat.one)) (PyFloat.Fin (b * PyFloat.one))
  = PyFloat.Fin ((a + b) * PyFloat.one).
Proof.
  intros H. simpl. rewrite <- Z.mul_add_distr_r. apply round_int_exact, H.
Qed.

(** ** C9: the order of the items of one account *)

(** An item is whole when its amount, if it has one, is an integer: the
    amounts the classifier forms are. *)
Definition whole_amount (item : BSItem) : bool :=
  match item_amount item with
  | None => true
  | Some (PyFloat.Fin k) => k mod PyFloat.one =? 0
  | Some _ => false
  end.

(** The integer a whole item adds to the total. *)
Definition item_int (item : BSItem) : Z :=
  match item_amount item with
  | Some (PyFloat.Fin k) => k / PyFloat.one
  | _ => 0
  end.

Definition contributes (item : BSItem) : bool :=
  match item_amount item with Some _ => true | None => false end.

Definition int_total (items : list BSItem) : Z :=
  fold_right Z.add 0 (map item_int items).

Definition abs_total (items : list BSItem) : Z :=
  fold_right Z.add 0 (map (fun item => Z.abs (item_int item)) items).

Lemma fold_add_permutation (l l' : list Z) :
  Permutation l l' -> fold_right Z.add 0 l = fold_right Z.add 0 l'.
Proof. intros H. induction H; simpl; lia. Qed.

Lemma forallb_permutation {A : Type} (f : A -> bool) (l l' : list A) :
  Permutation l l' -> forallb f l = forallb f l'.
Proof.
  intros H. induction H; simpl; try congruence.
  destruct (f x), (f y); reflexivity.
Qed.

Lemma existsb_permutation {A : Type} (f : A -> bool) (l l' : list A) :
  Permutation l l' -> existsb f l = existsb f l'.
Proof.
  intros H. induction H; simpl; try congruence.
  destruct (f x), (f y); reflexivity.
Qed.

Lemma abs_total_nonneg (items : list BSItem) : 0 <= abs_total items.
Proof. induction items; unfold abs_total in *; simpl; lia. Qed.

(** While every partial sum stays within 2^53 the floating-point loop
    computes the integer sum. *)
Lemma sum_items_exact (items : list BSItem) (acc : Z) (flag : bool) :
  forallb whole_amount items = true ->
  Z.abs acc + abs_total items <= 2 ^ 53 ->
  sum_items items (PyFloat.Fin (acc * PyFloat.one)) flag =
  (PyFloat.Fin ((acc + int_total items) * PyFloat.one),
   flag || existsb contributes items).
Proof.
  revert acc flag. induction items as [|item items IH]; intros acc flag Hw Hb.
  - simpl. rewrite Z.add_0_r, orb_false_r. reflexivity.
  - cbn [forallb] in Hw. apply andb_true_iff in Hw as [Hi Hw].
    unfold abs_total in Hb. cbn [map fold_right] in Hb. fold (abs_total items) in Hb.
    unfold int_total. cbn [map fold_right existsb sum_items]. fold (int_total items).
    unfold whole_amount in Hi. unfold item_int in *. unfold contributes at 1.
    pose proof (abs_total_nonneg items) as Hnn. pose proof one_pos as H1.
    destruct (item_amount item) as [[| |k]|] eqn:Ea; try discriminate.
    + apply Z.eqb_eq in Hi.
      assert (Ek : k = k / PyFloat.one * PyFloat.one).
      { rewrite Z.mul_comm. apply Z.div_exact; lia. }
      set (v := k / PyFloat.one) in *. rewrite Ek.
      rewrite add_int_exact by (apply is_double_int_small; lia).
      rewrite IH by (try assumption; lia).
      rewrite Z.add_assoc, orb_true_r. reflexivity.
    + rewrite IH by (try assumption; lia). reflexivity.
Qed.

Lemma format_total_int (v : Z) :
  format_total (PyFloat.Fin (v * PyFloat.one)) = Ok (format_int v).
Proof.
  pose proof one_pos. unfold format_total. simpl.
  rewrite Z.quot_mul by lia. rewrite Z.eqb_refl. reflexivity.
Qed.

Lemma consolidated_amount_exact (items : list BSItem) :
  forallb whole_amount items = true ->
  abs_total items <= 2 ^ 53 ->
  consolidated_amount items =
  Ok (if existsb contributes items then Some (format_int (int_total items))
      else None).
Proof.
  intros Hw Hb. unfold consolidated_amount.
  replace (PyFloat.of_Z 0) with (PyFloat.Fin (0 * PyFloat.one))
    by (vm_compute; reflexivity).
  rewrite sum_items_exact by (try assumption; simpl; lia).
  simpl orb. rewrite Z.add_0_l.
  destruct (existsb contributes items); [|reflexivity].
  rewrite format_total_int. reflexivity.
Qed.

(** C9, as the code has it: when the amounts of a group are integers whose
    absolute values sum to at most 2^53, every reordering of the group
    consolidates to the same amount, the grouped integer sum. *)
Theorem consolidated_amount_permutation (items items' : list BSItem) :
  Permutation items items' ->
  forallb whole_amount items = true ->
  abs_total items <= 2 ^ 53 ->
  consolidated_amount items' = consolidated_amount items /\
  consolidated_amount items =
  Ok (if existsb contributes items then Some (format_int (int_total items))
      else None).
Proof.
  intros Hp Hw Hb. split; [|apply consolidated_amount_exact; assumption].
  rewrite (consolidated_amount_exact items Hw Hb).
  rewrite consolidated_amount_exact.
  - rewrite (existsb_permutation _ _ _ Hp). unfold int_total.
    rewrite (fold_add_permutation _ _ (Permutation_map item_int Hp)). reflexivity.
  - rewrite <- (forallb_permutation _ _ _ Hp). exact Hw.
  - unfold abs_total in *.
    rewrite <- (fold_add_permutation _ _
                  (Permutation_map (fun item => Z.abs (item_int item)) Hp)).
    exact Hb.
Qed.

Definition item_of (account amount : pystr) : BSItem :=
  {| level := 2; name := account; value := amount; note := [] |}.

Lemma consolidated_amount_permutation_witness :
  consolidated_amount
    [item_of (u "現金及び預金") (u "2"); item_of (u "現金及び預金") (u "-500,000");
     item_of (u "現金及び預金") (u "1,234,567")] =
  consolidated_amount
    [item_of (u "現金及び預金") (u "1,234,567"); item_of (u "現金及び預金") (u "2");
     item_of (u "現金及び預金") (u "-500,000")].
Proof.
  apply (consolidated_amount_permutation
           [item_of (u "現金及び預金") (u "1,234,567");
            item_of (u "現金及び預金") (u "2");
            item_of (u "現金及び預金") (u "-500,000")]).
  - apply (Permutation_cons_append [_; _]).
  - vm_compute. reflexivity.
  - vm_compute. discriminate.
Defined.

(** C9 as stated fails beyond 2^53: three raw amounts of one account, read
    in two orders, consolidate to two different totals.  The classifier
    leaves each of the three amounts as it is. *)
Lemma consolidated_amount_order_matters :
  Permutation
    [(u "現金及び預金", u "9,007,199,254,740,992"); (u "現金及び預金", u "1");
     (u "現金及び預金", u "1")]
    [(u "現金及び預金", u "1"); (u "現金及び預金", u "1");
     (u "現金及び預金", u "9,007,199,254,740,992")] /\
  consolidated_entries cash_config
    [(u "現金及び預金", u "9,007,199,254,740,992"); (u "現金及び預金", u "1");
     (u "現金及び預金", u "1")]
  = Ok [(u "現金及び預金",
         item_of (u "現金及び預金") (u "9,007,199,254,740,992"))] /\
  consolidated_entries cash_config
    [(u "現金及び預金", u "1"); (u "現金及び預金", u "1");
     (u "現金及び預金", u "9,007,199,254,740,992")]
  = Ok [(u "現金及び預金",
         item_of (u "現金及び預金") (u "9,007,199,254,740,994"))] /\
  consolidated_amount
    [item_of (u "現金及び預金") (u "9,007,199,254,740,992");
     item_of (u "現金及び預金") (u "1"); item_of (u "現金及び預金") (u "1")]
  <> consolidated_amount
       [item_of (u "現金及び預金") (u "1"); item_of (u "現金及び預金") (u "1");
        item_of (u "現金及び預金") (u "9,007,199,254,740,992")].
Proof.
  split; [apply (Permutation_cons_append [_; _])|].
  split; [vm_compute; reflexivity|].
  split; [vm_compute; reflexivity|].
  vm_compute. discriminate.
Qed.

(** ** [float] on a run of decimal digits *)

Lemma digit_in_spec (blocks : list N) (c : char) (d : Z) :
  digit_in blocks c = Some d ->
  exists b, In b blocks /\ (b <= c < b + 10)%N /\ d = Z.of_N (c - b).
Proof.
  induction blocks as [|b blocks IH]; simpl; [discriminate|].
  destruct ((b <=? c) && (c <? b + 10))%N eqn:E.
  - intros [= <-]. apply andb_true_iff in E as [E1 E2].
    apply N.leb_le in E1. apply N.ltb_lt in E2.
    exists b. repeat split; [left; reflexivity | assumption | assumption].
  - intros H. destruct (IH H) as (b' & Hin & Hr & Hd).
    exists b'. repeat split; [right; assumption | apply Hr | apply Hr | assumption].
Qed.

Lemma digit_value_range (c : char) (d : Z) :
  digit_value c = Some d -> 0 <= d <= 9.
Proof.
  intros H. apply digit_in_spec in H as (b & _ & Hr & ->). lia.
Qed.

Lemma digit_value_ascii (c : char) (d : Z) :
  digit_value c = Some d -> (c < 127)%N -> c = (48 + Z.to_N d)%N.
Proof.
  intros H Hc. apply digit_in_spec in H as (b & Hin & Hr & ->).
  assert (Hb : Forall (fun b => b = 48 \/ 127 <= b)%N decimal_blocks).
  { unfold decimal_blocks.
    repeat (constructor; [first [left; reflexivity | right; lia]|]). constructor. }
  rewrite Forall_forall in Hb. destruct (Hb b Hin) as [-> | Hb']; lia.
Qed.

Lemma digit_value_not_space (c : char) (d : Z) :
  digit_value c = Some d -> is_space c = false.
Proof.
  intros H. apply digit_in_spec in H as (b & Hin & Hr & _).
  assert (Hb : forallb (fun b : N => forallb (fun i : N => negb (is_space (b + i)%N))
                                  [0; 1; 2; 3; 4; 5; 6; 7; 8; 9]%N)
                       decimal_blocks = true) by (vm_compute; reflexivity).
  rewrite forallb_forall in Hb. specialize (Hb b Hin).
  rewrite forallb_forall in Hb. specialize (Hb (c - b)%N).
  replace (b + (c - b))%N with c in Hb by lia.
  apply negb_true_iff, Hb.
  assert (Hd : (c - b = 0 \/ c - b = 1 \/ c - b = 2 \/ c - b = 3 \/ c - b = 4 \/
                c - b = 5 \/ c - b = 6 \/ c - b = 7 \/ c - b = 8 \/ c - b = 9)%N)
    by lia.
  simpl. intuition.
Qed.

(** The ASCII digit [float] reads for a decimal digit of any script. *)
Lemma to_ascii_char_digit (c : char) (d : Z) :
  digit_value c = Some d -> to_ascii_char c = (48 + Z.to_N d)%N.
Proof.
  intros H. unfold to_ascii_char. destruct (c <? 127)%N eqn:E.
  - apply N.ltb_lt in E. apply digit_value_ascii; assumption.
  - rewrite (digit_value_not_space _ _ H), H. reflexivity.
Qed.

Definition all_digits (s : pystr) : bool := forallb is_digit s.

Lemma to_ascii_digits (s : pystr) :
  all_digits s = true -> forallb is_ascii_digit (map to_ascii_char s) = true.
Proof.
  unfold all_digits. induction s as [|c s IH]; simpl; [reflexivity|].
  intros H. apply andb_true_iff in H as [Hc Hs]. rewrite (IH Hs), andb_true_r.
  unfold is_digit in Hc. destruct (digit_value c) as [d|] eqn:E; [|discriminate].
  rewrite (to_ascii_char_digit _ _ E). pose proof (digit_value_range _ _ E).
  unfold is_ascii_digit. apply andb_true_iff. split; apply N.leb_le; lia.
Qed.

(** The value of the digits of a string, whatever else it holds. *)
Definition digit_step (acc : Z) (c : char) : Z :=
  match digit_value c with
  | Some d => 10 * acc + d
  | None => acc
  end.

Definition token_value (body : pystr) : Z := fold_left digit_step body 0.

Lemma digits_value_to_ascii (s : pystr) (acc : Z) :
  all_digits s = true ->
  digits_value acc (map to_ascii_char s) = fold_left digit_step s acc.
Proof.
  unfold all_digits. revert acc.
  induction s as [|c s IH]; intros acc; cbn [map digits_value fold_left forallb];
    [reflexivity|].
  intros H. apply andb_true_iff in H as [Hc Hs]. rewrite (IH _ Hs).
  unfold is_digit in Hc.
  destruct (digit_value c) as [d|] eqn:E; [|discriminate].
  assert (Ed : digit_step acc c = 10 * acc + d)
    by (unfold digit_step; rewrite E; reflexivity).
  rewrite Ed, (to_ascii_char_digit _ _ E). pose proof (digit_value_range _ _ E).
  f_equal. lia.
Qed.

Lemma fold_digit_step_remove_commas (s : pystr) (acc : Z) :
  fold_left digit_step (remove_char c_comma s) acc = fold_left digit_step s acc.
Proof.
  revert acc. induction s as [|c s IH]; intros acc; simpl; [reflexivity|].
  destruct (char_eqb c c_comma) eqn:E; simpl.
  - apply N.eqb_eq in E. subst c. rewrite IH. reflexivity.
  - apply IH.
Qed.

Lemma drop_underscores_digits (s : pystr) (prev : option char) :
  forallb is_ascii_digit s = true ->
  match prev with Some p => char_eqb p c_underscore = false | None => True end ->
  drop_underscores prev s = Some s.
Proof.
  revert prev. induction s as [|c s IH]; intros prev Hs Hp; simpl.
  - destruct prev as [p|]; [rewrite Hp|]; reflexivity.
  - simpl in Hs. apply andb_true_iff in Hs as [Hc Hs].
    assert (Hcu : char_eqb c c_underscore = false).
    { unfold is_ascii_digit in Hc. apply andb_true_iff in Hc as [_ Hc].
      apply N.leb_le in Hc. apply N.eqb_neq. unfold c_underscore. lia. }
    rewrite Hcu, Hc, andb_false_r. rewrite (IH (Some c) Hs Hcu). reflexivity.
Qed.

Lemma ascii_digit_not_space (c : char) :
  is_ascii_digit c = true -> is_ascii_space c = false.
Proof.
  unfold is_ascii_digit, is_ascii_space. intros H.
  apply andb_true_iff in H as [H1 H2]. apply N.leb_le in H1, H2.
  apply orb_false_iff. split.
  - apply andb_false_iff. right. apply N.leb_gt. lia.
  - apply N.eqb_neq. lia.
Qed.

Lemma lstrip_by_head (p : char -> bool) (c : char) (s : pystr) :
  p c = false -> lstrip_by p (c :: s) = c :: s.
Proof. intros H. simpl. rewrite H. reflexivity. Qed.

Lemma strip_by_digits (s : pystr) :
  forallb is_ascii_digit s = true -> strip_by is_ascii_space s = s.
Proof.
  intros H. unfold strip_by.
  assert (Hl : forall l, forallb is_ascii_digit l = true ->
                         lstrip_by is_ascii_space l = l).
  { intros [|c l] Hc; [reflexivity|]. apply lstrip_by_head, ascii_digit_not_space.
    simpl in Hc. apply andb_true_iff in Hc. apply Hc. }
  rewrite (Hl s H), Hl, rev_involutive; [reflexivity|].
  rewrite forallb_forall in *. intros x Hx. apply H, in_rev, Hx.
Qed.

Lemma take_while_all (p : char -> bool) (s : pystr) :
  forallb p s = true -> take_while p s = s.
Proof.
  induction s as [|c s IH]; simpl; [reflexivity|].
  intros H. apply andb_true_iff in H as [Hc Hs]. rewrite Hc, (IH Hs). reflexivity.
Qed.

Lemma parse_unsigned_digits (c : char) (s : pystr) :
  forallb is_ascii_digit (c :: s) = true ->
  parse_unsigned (c :: s) =
  Some (PyFloat.round (digits_value 0 (c :: s) * PyFloat.one) 1).
Proof.
  intros H. unfold parse_unsigned.
  assert (Hc : is_ascii_digit c = true) by (simpl in H; apply andb_true_iff in H; apply H).
  assert (Hlow : lower_ascii c = c).
  { unfold lower_ascii. unfold is_ascii_digit in Hc.
    apply andb_true_iff in Hc as [_ Hc]. apply N.leb_le in Hc.
    assert (E : (65 <=? c)%N = false) by (apply N.leb_gt; lia). rewrite E. reflexivity. }
  assert (Hne : forall w, (57 < w)%N -> char_eqb c w = false).
  { intros w Hw. unfold is_ascii_digit in Hc. apply andb_true_iff in Hc as [_ Hc].
    apply N.leb_le in Hc. apply N.eqb_neq. lia. }
  cbn [map]. rewrite Hlow.
  assert (Hi : forall w rest l, (57 < w)%N -> pystr_eqb (c :: l) (w :: rest) = false).
  { intros w rest l Hw. simpl. rewrite (Hne w Hw). reflexivity. }
  change (u "inf") with [105; 110; 102]%N.
  change (u "infinity") with [105; 110; 102; 105; 110; 105; 116; 121]%N.
  change (u "nan") with [110; 97; 110]%N.
  rewrite !Hi by lia. cbn [orb].
  unfold split_digits. rewrite (take_while_all _ _ H), skipn_all.
  rewrite List.app_nil_r. cbn [parse_exponent List.length Z.of_nat Z.sub].
  unfold decimal_to_float. cbn [Z.leb Z.compare Z.pow Z.pow_pos].
  rewrite Z.mul_1_r. reflexivity.
Qed.

(** [float] of a non-empty run of decimal digits is the double nearest to
    the number they spell. *)
Lemma py_float_digits (s : pystr) :
  all_digits s = true -> s <> [] ->
  py_float s = Some (PyFloat.round (token_value s * PyFloat.one) 1).
Proof.
  intros H Hne. unfold py_float.
  pose proof (to_ascii_digits s H) as Ha.
  rewrite (drop_underscores_digits _ None Ha I), (strip_by_digits _ Ha).
  destruct s as [|c s]; [congruence|]. cbn [map] in *.
  assert (Hc : is_ascii_digit (to_ascii_char c) = true)
    by (simpl in Ha; apply andb_true_iff in Ha; apply Ha).
  unfold is_ascii_digit in Hc. apply andb_true_iff in Hc as [Hc1 Hc2].
  apply N.leb_le in Hc1, Hc2.
  assert (E1 : char_eqb (to_ascii_char c) c_minus = false)
    by (apply N.eqb_neq; unfold c_minus; lia).
  assert (E2 : char_eqb (to_ascii_char c) c_plus = false)
    by (apply N.eqb_neq; unfold c_plus; lia).
  rewrite E1, E2. rewrite (parse_unsigned_digits _ _ Ha).
  change (to_ascii_char c :: map to_ascii_char s) with (map to_ascii_char (c :: s)).
  rewrite (digits_value_to_ascii _ 0 H). reflexivity.
Qed.

(** ** C8: the unit rescale of the Amount Formatter *)

Lemma is_double_int_div_million (q : Z) :
  1 <= q -> is_double_int (q * 1000000) -> is_double_int q.
Proof.
  intros Hq [(m & s & Hm & Hs & E) Hlt].
  rewrite Z.abs_eq in E, Hlt by lia.
  assert (Hbig : Z.abs q < 2 ^ 1024) by (rewrite Z.abs_eq; lia).
  split; [|exact Hbig]. rewrite Z.abs_eq by lia.
  destruct (Z_lt_le_dec s 6) as [Hs6|Hs6].
  - assert (H2 : 2 ^ s <= 2 ^ 5) by (apply Z.pow_le_mono_r; lia).
    assert (H0 : 0 < 2 ^ s) by (apply Z.pow_pos_nonneg; lia).
    change (2 ^ 5) with 32 in H2. change (2 ^ 53) with 9007199254740992 in Hm.
    exists q, 0. rewrite Z.pow_0_r. change (2 ^ 53) with 9007199254740992.
    split; [nia | lia].
  - assert (Hpow : 2 ^ s = 2 ^ (s - 6) * 64).
    { change 64 with (2 ^ 6). rewrite <- Z.pow_add_r by lia. f_equal. lia. }
    assert (Hdiv : (15625 | 2 ^ (s - 6) * m)).
    { exists q. rewrite Hpow in E. lia. }
    apply Z.gauss in Hdiv.
    2:{ apply Z.coprime_pow_r; [lia | reflexivity]. }
    destruct Hdiv as [m' ->].
    exists m', (s - 6). split; [lia|]. split; [lia|].
    rewrite Hpow in E. lia.
Qed.

Lemma format_int_opp (q : Z) :
  0 < q -> format_int (q * -1) = c_minus :: format_int q.
Proof.
  intros H. unfold format_int.
  assert (E1 : (q * -1 <? 0) = true) by (apply Z.ltb_lt; lia).
  assert (E2 : (q <? 0) = false) by (apply Z.ltb_ge; lia).
  rewrite E1, E2. replace (q * -1) with (- q) by lia.
  rewrite Zabs2N.inj_opp. reflexivity.
Qed.

Lemma is_digit_not_minus (c : char) : is_digit c = true -> char_eqb c_minus c = false.
Proof.
  intros H. apply N.eqb_neq. intros <-. vm_compute in H. discriminate.
Qed.

(** The digits of a token once its commas are removed. *)
Lemma remove_commas_digits (body : pystr) :
  forallb is_number_char body = true ->
  all_digits (remove_char c_comma body) = true.
Proof.
  unfold all_digits, remove_char. intros H. rewrite forallb_forall in *.
  intros c Hc. apply filter_In in Hc as [Hin Hne]. specialize (H c Hin).
  unfold is_number_char in H. apply negb_true_iff in Hne. rewrite Hne in H.
  rewrite orb_false_r in H. exact H.
Qed.

Lemma remove_commas_nonempty (body : pystr) :
  existsb is_digit body = true -> remove_char c_comma body <> [].
Proof.
  intros H. apply existsb_exists in H as (c & Hin & Hd).
  assert (Hc : In c (remove_char c_comma body)).
  { apply filter_In. split; [exact Hin|]. apply negb_true_iff, N.eqb_neq.
    intros ->. vm_compute in Hd. discriminate. }
  intros E. rewrite E in Hc. destruct Hc.
Qed.

(** What [format_amount] parses of a token: a sign and a run of digits. *)
Lemma token_clean_amount (negative : bool) (body : pystr) :
  forallb is_number_char body = true ->
  existsb is_digit body = true ->
  let clean_amount :=
    remove_char c_comma ((if negative then [c_minus] else []) ++ body) in
  startswith clean_amount [c_minus] = negative /\
  (if startswith clean_amount [c_minus] then tl clean_amount else clean_amount)
  = remove_char c_comma body.
Proof.
  intros Hb He. pose proof (remove_commas_digits _ Hb) as Hd.
  pose proof (remove_commas_nonempty _ He) as Hne.
  destruct negative; cbn zeta.
  - unfold remove_char. rewrite filter_app. fold (remove_char c_comma body).
    change (filter _ [c_minus]) with [c_minus]. simpl. split; reflexivity.
  - cbn [app]. destruct (remove_char c_comma body) as [|c s]; [congruence|].
    unfold all_digits in Hd. simpl in Hd. apply andb_true_iff in Hd as [Hc _].
    cbn [startswith]. rewrite (is_digit_not_minus _ Hc). split; reflexivity.
Qed.

(** C8, as the code has it.  The empty string is returned empty; a string
    whose numeral [float] refuses is returned unchanged; a token (an
    optional minus, then digits and commas) whose value is at least
    1,000,000, a multiple of 1,000,000 and exactly a double is returned as
    that value over 1,000,000, grouped, behind the minus when there is
    one. *)
Theorem format_amount_unit_rescale :
  format_amount [] = Ok [] /\
  (forall amount,
     amount <> [] ->
     py_float (let clean_amount := remove_char c_comma amount in
               if startswith clean_amount [c_minus] then tl clean_amount
               else clean_amount) = None ->
     format_amount amount = Ok amount) /\
  (forall (negative : bool) (body : pystr),
     forallb is_number_char body = true ->
     existsb is_digit body = true ->
     1000000 <= token_value body ->
     token_value body mod 1000000 = 0 ->
     is_double_int (token_value body) ->
     format_amount ((if negative then [c_minus] else []) ++ body) =
     Ok ((if negative then [c_minus] else [])
           ++ format_int (token_value body / 1000000))).
Proof.
  split; [reflexivity|]. split.
  - intros amount Hne Hf. unfold format_amount.
    destruct amount as [|c s]; [congruence|].
    cbv beta iota zeta in *. unfold float_of_str, pystr in *. rewrite Hf. reflexivity.
  - intros negative body Hb He Hge Hmod Hdbl.
    pose proof one_pos as H1.
    set (v := token_value body) in *.
    assert (Ev : v = v / 1000000 * 1000000).
    { rewrite Z.mul_comm. apply Z.div_exact; lia. }
    set (q := v / 1000000) in *.
    assert (Hq : 1 <= q) by lia.
    assert (Hqd : is_double_int q) by (apply is_double_int_div_million; [lia | rewrite <- Ev; exact Hdbl]).
    unfold format_amount.
    destruct ((if negative then [c_minus] else []) ++ body) as [|c0 s0] eqn:Ea.
    { exfalso. destruct negative; [discriminate|]. simpl in Ea. subst body. discriminate. }
    cbv beta iota zeta. rewrite <- Ea. clear Ea c0 s0.
    pose proof (token_clean_amount negative body Hb He) as [Hs Hc].
    cbv beta iota zeta in Hs, Hc. unfold pystr in *.
    rewrite Hc. unfold float_of_str.
    rewrite (py_float_digits _ (remove_commas_digits _ Hb) (remove_commas_nonempty _ He)).
    unfold token_value at 1. rewrite fold_digit_step_remove_commas.
    fold (token_value body). fold v.
    rewrite (round_int_exact v Hdbl).
    cbn [bind PyFloat.ge_Z PyFloat.rem_Z].
    assert (Hge' : (1000000 * PyFloat.one <=? v * PyFloat.one) = true)
      by (apply Z.leb_le; nia).
    assert (Hrem : Z.rem (v * PyFloat.one) (1000000 * PyFloat.one) = 0).
    { rewrite Ev. replace (q * 1000000 * PyFloat.one) with (q * (1000000 * PyFloat.one)) by ring.
      apply Z.rem_mul. lia. }
    rewrite Hge', Hrem. cbn [Z.ltb Z.compare PyFloat.eq_Z Z.mul Z.eqb andb].
    cbn [PyFloat.div_Z].
    replace (v * PyFloat.one) with (q * PyFloat.one * 1000000) by (rewrite Ev at 1; ring).
    destruct (is_double_int_units q Hqd) as [Hfit Hhuge].
    rewrite (round_exact (q * PyFloat.one) 1000000) by (try assumption; lia).
    cbn [PyFloat.to_int bind]. rewrite Z.quot_mul by lia.
    rewrite Hs. destruct negative.
    + rewrite format_int_opp by lia. reflexivity.
    + reflexivity.
Qed.

Lemma format_amount_unit_rescale_witness :
  format_amount (u "-12,000,000") = Ok (u "-12").
Proof.
  apply (proj2 (proj2 format_amount_unit_rescale) true (u "12,000,000")).
  - reflexivity.
  - reflexivity.
  - vm_compute. discriminate.
  - reflexivity.
  - apply is_double_int_small. vm_compute. discriminate.
Defined.

(** C8 as stated fails on a large token: 10^23 is a multiple of 1,000,000
    and no double, and the formatter returns the double nearest to it,
    not 10^17. *)
Lemma format_amount_large_token :
  token_value (u "100,000,000,000,000,000,000,000") = 10 ^ 23 /\
  10 ^ 23 mod 1000000 = 0 /\
  format_amount (u "100,000,000,000,000,000,000,000")
  = Ok (u "99,999,999,999,999,991,611,392") /\
  format_int (10 ^ 23 / 1000000) = u "100,000,000,000,000,000" /\
  format_amount (u "100,000,000,000,000,000,000,000")
  <> Ok (format_int (10 ^ 23 / 1000000)).
Proof. vm_compute. repeat split; discriminate. Qed.

(** ** C10: fractions in the Amount Formatter *)

(** C10, as the code has it: when the numeral of the input parses to a
    double with a fractional part, the formatter returns the integer part
    of that double, cut toward zero and grouped, behind the minus sign the
    input began with. *)
Theorem format_amount_truncates_double (amount : pystr) (k : Z) :
  amount <> [] ->
  py_float (if startswith (remove_char c_comma amount) [c_minus]
            then tl (remove_char c_comma amount)
            else remove_char c_comma amount) = Some (PyFloat.Fin k) ->
  k mod PyFloat.one <> 0 ->
  format_amount amount =
  Ok ((if startswith (remove_char c_comma amount) [c_minus] then [c_minus] else [])
        ++ format_int (Z.quot k PyFloat.one)).
Proof.
  intros Hne Hf Hk. pose proof one_pos as H1. unfold format_amount.
  destruct amount as [|c s] eqn:Ea; [congruence|]. rewrite <- Ea in *. clear Ea c s Hne.
  cbv beta iota zeta. unfold float_of_str, pystr in *. rewrite Hf.
  cbn [bind PyFloat.ge_Z PyFloat.rem_Z].
  assert (Hcond : (1000000 * PyFloat.one <=? k)
                  && PyFloat.eq_Z
                       (if Z.rem k (1000000 * PyFloat.one) <? 0
                        then PyFloat.round (Z.rem k (1000000 * PyFloat.one)
                                            + 1000000 * PyFloat.one) 1
                        else PyFloat.Fin (Z.rem k (1000000 * PyFloat.one))) 0 = false).
  { destruct (1000000 * PyFloat.one <=? k) eqn:Hge; [|reflexivity].
    apply Z.leb_le in Hge. cbn [andb].
    assert (Hr : 0 <= Z.rem k (1000000 * PyFloat.one)) by (apply Z.rem_nonneg; lia).
    apply Z.ltb_ge in Hr. rewrite Hr. cbn [PyFloat.eq_Z].
    apply Z.eqb_neq. intros E. rewrite Z.mul_0_l in E.
    apply Z.rem_divide in E; [|lia]. apply Hk, Z.mod_divide; [lia|].
    destruct E as [x ->]. exists (x * 1000000). ring. }
  rewrite Hcond. cbn [PyFloat.to_int bind].
  destruct (startswith (remove_char c_comma amount) [c_minus]); reflexivity.
Qed.

(** The double [float] reads from [2.9], in units of 2^-1074. *)
Definition units_of_2_9 : Z :=
  match py_float (u "2.9") with
  | Some (PyFloat.Fin k) => k
  | _ => 0
  end.

Lemma format_amount_truncates_double_witness :
  format_amount (u "-2.9") = Ok (u "-2").
Proof.
  apply (format_amount_truncates_double (u "-2.9") units_of_2_9).
  - discriminate.
  - vm_compute. reflexivity.
  - vm_compute. discriminate.
Defined.

Lemma format_amount_fraction_examples :
  format_amount (u "2.9") = Ok (u "2") /\
  format_amount (u "-2.9") = Ok (u "-2") /\
  format_amount (u "1,234.5") = Ok (u "1,234") /\
  format_amount (u "-0.5") = Ok (u "-0").
Proof. repeat split; vm_compute; reflexivity. Qed.

(** The result the claim words for a decimal numeral: the digits before
    the point, grouped. *)
Definition decimal_truncation (s : pystr) : pystr :=
  format_int (digits_value 0 (take_while is_ascii_digit s)).

(** C10 as stated fails on a decimal within half a unit in the last place
    of an integer: its fraction is not zero, it is below 1, and the
    formatter returns 1, the double the numeral parses to. *)
Lemma format_amount_rounds_decimal_up :
  decimal_truncation (u "0.99999999999999999999") = u "0" /\
  py_float (u "0.99999999999999999999") = Some (PyFloat.Fin PyFloat.one) /\
  format_amount (u "0.99999999999999999999") = Ok (u "1") /\
  format_amount (u "0.99999999999999999999")
  <> Ok (decimal_truncation (u "0.99999999999999999999")).
Proof. vm_compute. repeat split; discriminate. Qed.

(** ** C1, C2: the pipeline on the scenarios of the specification *)

Definition cash_rows : list (pystr * pystr) :=
  [(u "現金及び預金", u "1,234,567"); (u "現金及び預金", u "2,000,000")].

(** The cell of row [i], column [j] of a returned table. *)
Definition table_cell (t : result (list row)) (i j : nat) : pystr :=
  match t with
  | Ok rows => nth j (nth i rows []) []
  | Raise _ => []
  end.

(** C1 on the code: the classifier formats each amount before the items
    are grouped, so 2,000,000 enters the sum as 2 beside 1,234,567 and the
    one consolidated entry of the account reads 1,234,569, not 3,234,567.
    The summing loop adds amounts of different units: 1,000,000 and
    500,000 consolidate to 500,001, and by the way it is split over the
    rows one total of 3,000,000 reads 3 or 3,000,000, one of 2,000,000
    reads 2,000,000 or 2. *)
Theorem cash_scenario_consolidates_rescaled :
  map_item_to_bs_account (account_mapping cash_config)
    (Some (u "現金及び預金")) (u "1,234,567")
  = Ok (Some (item_of (u "現金及び預金") (u "1,234,567"))) /\
  map_item_to_bs_account (account_mapping cash_config)
    (Some (u "現金及び預金")) (u "2,000,000")
  = Ok (Some (item_of (u "現金及び預金") (u "2"))) /\
  consolidated_entries cash_config cash_rows
  = Ok [(u "現金及び預金", item_of (u "現金及び預金") (u "1,234,569"))] /\
  table_cell (transform_to_balance_sheet cash_config (statement_frame cash_rows)) 2 2
  = u "現金及び預金" /\
  table_cell (transform_to_balance_sheet cash_config (statement_frame cash_rows)) 2 9
  = quoted (u "1,234,569") /\
  table_cell (transform_to_balance_sheet cash_config (statement_frame cash_rows)) 2 9
  <> quoted (u "3,234,567") /\
  consolidated_entries cash_config
    [(u "現金及び預金", u "1,000,000"); (u "現金及び預金", u "500,000")]
  = Ok [(u "現金及び預金", item_of (u "現金及び預金") (u "500,001"))] /\
  consolidated_entries cash_config
    [(u "現金及び預金", u "1,000,000"); (u "現金及び預金", u "2,000,000")]
  = Ok [(u "現金及び預金", item_of (u "現金及び預金") (u "3"))] /\
  consolidated_entries cash_config
    [(u "現金及び預金", u "2,500,000"); (u "現金及び預金", u "500,000")]
  = Ok [(u "現金及び預金", item_of (u "現金及び預金") (u "3,000,000"))] /\
  consolidated_entries cash_config
    [(u "現金及び預金", u "1,500,000"); (u "現金及び預金", u "500,000")]
  = Ok [(u "現金及び預金", item_of (u "現金及び預金") (u "2,000,000"))] /\
  consolidated_entries cash_config
    [(u "現金及び預金", u "1,000,000"); (u "現金及び預金", u "1,000,000")]
  = Ok [(u "現金及び預金", item_of (u "現金及び預金") (u "2"))].
Proof. repeat split; vm_compute; try reflexivity; discriminate. Qed.

Definition building_config : config :=
  {| account_mapping :=
       [(u "建物及び構築物（純額）", PatternList [Some (u "建物")])];
     structure := None |}.

Definition building_rows : list (pystr * pystr) := [(u "建物", u "△500,000")].

(** C2 on the code: the grouping path renders the negative total of the
    scenario with a leading minus; the legacy [_add_item_row] renders the
    same consolidated item with the glyph. *)
Theorem building_scenario_minus_sign :
  clean_amount_value (u "△500,000") = u "-500,000" /\
  consolidated_entries building_config building_rows
  = Ok [(u "建物及び構築物（純額）",
         item_of (u "建物及び構築物（純額）") (u "-500,000"))] /\
  table_cell (transform_to_balance_sheet building_config
                (statement_frame building_rows)) 14 2
  = u "建物及び構築物（純額）" /\
  table_cell (transform_to_balance_sheet building_config
                (statement_frame building_rows)) 14 9
  = quoted (u "-500,000") /\
  table_cell (_add_item_row (u "建物及び構築物（純額）")
                [(u "建物及び構築物（純額）",
                  item_of (u "建物及び構築物（純額）") (u "-500,000"))] 3) 0 9
  = quoted (u "△500,000").
Proof. repeat split; vm_compute; reflexivity. Qed.

(** ** C6: what leaves [transform_to_balance_sheet] *)

(** When no label column or no value column is found the report is the
    empty table. *)
Lemma transform_empty_report (cfg : config) (df cy : DataFrame) :
  current_year_rows df = Ok cy ->
  truthy (_detect_item_name_column cy) = false \/
  truthy (_detect_value_column cy) = false ->
  transform_to_balance_sheet cfg df = Ok [].
Proof.
  intros Hcy H. unfold transform_to_balance_sheet. rewrite Hcy. cbn [bind].
  destruct H as [H | H]; rewrite H; cbn [negb orb]; [reflexivity|].
  rewrite orb_true_r. reflexivity.
Qed.

(** A frame without text or numeric columns gives the empty report. *)
Lemma transform_empty_report_example :
  transform_to_balance_sheet cash_config
    {| columns := [ {| col_name := u "flag"; col_dtype := OtherDtype;
                       col_cells := [Some (u "True")] |} ];
       n_rows := 1 |} = Ok [].
Proof. vm_compute. reflexivity. Qed.

(** The selection of the current period raises before any column is
    looked for when the context column holds no strings. *)
Lemma transform_context_accessor_raises :
  transform_to_balance_sheet cash_config
    {| columns := [ {| col_name := u "コンテキストID"; col_dtype := Float64Dtype;
                       col_cells := [None] |} ];
       n_rows := 1 |} = Raise AttributeError.
Proof. vm_compute. reflexivity. Qed.

(** An amount of 310 digits: 1 followed by 309 zeros. *)
Definition huge_amount : pystr := 49%N :: repeat 48%N 309.

(** C6 on the code: the amount is beyond the doubles, [float] gives an
    infinity, [int] raises [OverflowError], and the exception leaves the
    formatter, the classifier and [transform_to_balance_sheet]. *)
Theorem transform_overflow_escapes :
  py_float huge_amount = Some (PyFloat.Inf false) /\
  format_amount huge_amount = Raise OverflowError /\
  map_item_to_bs_account (account_mapping cash_config)
    (Some (u "現金及び預金")) huge_amount = Raise OverflowError /\
  transform_to_balance_sheet cash_config
    (statement_frame [(u "現金及び預金", huge_amount)]) = Raise OverflowError.
Proof. repeat split; vm_compute; reflexivity. Qed.

(** * Further properties of the transformer *)

(** ** The shape of a cleaned amount *)

Lemma take_while_forallb (p : char -> bool) (s : pystr) :
  forallb p (take_while p s) = true.
Proof.
  induction s as [|c s IH]; simpl; [reflexivity|].
  destruct (p c) eqn:E; simpl; [rewrite E, IH|]; reflexivity.
Qed.

Lemma number_char_not_sign (c : char) :
  is_number_char c = true -> is_sign_char c = false.
Proof.
  intros H. destruct (is_sign_char c) eqn:E; [|reflexivity].
  unfold is_sign_char in E. apply orb_true_iff in E.
  destruct E as [E | E]; apply N.eqb_eq in E; subst c; vm_compute in H; discriminate.
Qed.

(** A match of the number pattern: a first character and the run of number
    characters after it; the first character is a sign before a non-empty
    run, or itself a number character. *)
Lemma first_number_pattern_shape (s m : pystr) :
  first_number_pattern s = Some m ->
  exists c body,
    m = c :: body /\ forallb is_number_char body = true /\
    ((is_sign_char c = true /\ body <> []) \/
     (is_sign_char c = false /\ is_number_char c = true)).
Proof.
  induction s as [|c s IH]; simpl; [discriminate|].
  destruct (is_sign_char c) eqn:Es.
  - destruct (take_while is_number_char s) as [|d body] eqn:Et; [exact IH|].
    intros [= <-]. exists c, (d :: body). split; [reflexivity|].
    split; [rewrite <- Et; apply take_while_forallb|].
    left. split; [exact Es | discriminate].
  - destruct (is_number_char c) eqn:En; [|exact IH].
    intros [= <-]. exists c, (take_while is_number_char s).
    split; [reflexivity|]. split; [apply take_while_forallb|].
    right. split; assumption.
Qed.

(** A cleaned token: digits and commas, at least one, behind an optional
    ASCII minus. *)
Definition number_token (t : pystr) : Prop :=
  exists body,
    body <> [] /\ forallb is_number_char body = true /\
    (t = body \/ t = c_minus :: body).

Lemma clean_amount_value_shape (value : pystr) :
  clean_amount_value value = [] \/ number_token (clean_amount_value value).
Proof.
  unfold clean_amount_value. destruct value as [|v0 vs]; [left; reflexivity|].
  destruct (first_number_pattern (v0 :: vs)) as [m|] eqn:E; [|left; reflexivity].
  right. apply first_number_pattern_shape in E as (c & body & -> & Hb & Hc).
  cbn [startswith tl]. destruct (char_eqb c_triangle c) eqn:Et; cbn [andb].
  - exists body. destruct Hc as [[_ Hne] | [Hs _]].
    + repeat split; [exact Hne | exact Hb | right; reflexivity].
    + apply N.eqb_eq in Et. subst c. vm_compute in Hs. discriminate.
  - destruct Hc as [[Hs Hne] | [Hs Hn]].
    + exists body. repeat split; [exact Hne | exact Hb |].
      right. f_equal. unfold is_sign_char in Hs. apply orb_true_iff in Hs.
      destruct Hs as [Hs | Hs]; apply N.eqb_eq in Hs; subst c;
        [vm_compute in Et; discriminate | reflexivity].
    + exists (c :: body). repeat split; [discriminate | | left; reflexivity].
      simpl. rewrite Hn, Hb. reflexivity.
Qed.

(** Whatever the input, the Amount Normalizer returns the empty string or
    a token of digits and commas behind an optional ASCII minus; the glyph
    never survives. *)
Theorem clean_amount_value_token (value : pystr) :
  (clean_amount_value value = [] \/ number_token (clean_amount_value value)) /\
  ~ In c_triangle (clean_amount_value value).
Proof.
  pose proof (clean_amount_value_shape value) as H.
  split; [exact H|]. intros Hin.
  destruct H as [E | (body & _ & Hb & [E | E])]; rewrite E in Hin.
  - destruct Hin.
  - rewrite forallb_forall in Hb. specialize (Hb _ Hin). vm_compute in Hb. discriminate.
  - destruct Hin as [Hin | Hin]; [vm_compute in Hin; discriminate|].
    rewrite forallb_forall in Hb. specialize (Hb _ Hin). vm_compute in Hb. discriminate.
Qed.

Lemma clean_amount_value_of_token (t : pystr) :
  number_token t -> clean_amount_value t = t.
Proof.
  intros (body & Hne & Hb & [-> | ->]).
  - destruct body as [|c body]; [congruence|].
    simpl in Hb. apply andb_true_iff in Hb as [Hc Hb].
    unfold clean_amount_value. cbn [first_number_pattern].
    rewrite (number_char_not_sign _ Hc), Hc, (take_while_all _ _ Hb).
    cbn [startswith]. destruct (char_eqb c_triangle c) eqn:Et; [|reflexivity].
    apply N.eqb_eq in Et. subst c. vm_compute in Hc. discriminate.
  - unfold clean_amount_value. cbn [first_number_pattern].
    change (is_sign_char c_minus) with true. cbv iota.
    rewrite (take_while_all _ _ Hb). destruct body as [|c body]; [congruence|].
    reflexivity.
Qed.

(** Cleaning is idempotent: a cleaned amount cleans to itself. *)
Theorem clean_amount_value_idempotent (value : pystr) :
  clean_amount_value (clean_amount_value value) = clean_amount_value value.
Proof.
  destruct (clean_amount_value_shape value) as [E | H].
  - rewrite E. reflexivity.
  - apply clean_amount_value_of_token, H.
Qed.

(** ** The Annotation Extractor *)

Lemma in_lstrip_by (p : char -> bool) (s : pystr) (x : char) :
  In x (lstrip_by p s) -> In x s.
Proof.
  induction s as [|c s IH]; simpl; [intros []|].
  destruct (p c); [right; apply IH; assumption | intros H; exact H].
Qed.

Lemma in_strip_by (p : char -> bool) (s : pystr) (x : char) :
  In x (strip_by p s) -> In x s.
Proof.
  unfold strip_by. intros H. apply in_rev, in_lstrip_by, in_rev in H.
  apply in_lstrip_by in H. exact H.
Qed.

Lemma lstrip_by_last (p : char -> bool) (l : pystr) (x : char) :
  p x = false -> lstrip_by p (l ++ [x]) = lstrip_by p l ++ [x].
Proof.
  intros H. induction l as [|c l IH]; simpl; [rewrite H; reflexivity|].
  destruct (p c); [exact IH | reflexivity].
Qed.

Lemma strip_by_head (p : char -> bool) (x : char) (s : pystr) :
  p x = false -> exists rest, strip_by p (x :: s) = x :: rest.
Proof.
  intros H. unfold strip_by. rewrite (lstrip_by_head _ _ _ H).
  cbn [rev]. rewrite (lstrip_by_last _ _ _ H), rev_app_distr.
  eexists. reflexivity.
Qed.

Lemma note_matches_chars (s : pystr) (x : char) :
  In x (note_matches s) -> x = c_note \/ is_note_char x = true.
Proof.
  induction s as [|c s IH]; simpl; [intros []|].
  destruct (char_eqb c c_note) eqn:E; [|exact IH].
  intros [<- | H]; [left; apply N.eqb_eq, E|].
  apply in_app_or in H as [H | H]; [|apply IH, H].
  right. pose proof (take_while_forallb is_note_char s) as Hall.
  rewrite forallb_forall in Hall. apply Hall, H.
Qed.

Lemma note_matches_head (s : pystr) :
  note_matches s = [] \/ exists rest, note_matches s = c_note :: rest.
Proof.
  induction s as [|c s IH]; simpl; [left; reflexivity|].
  destruct (char_eqb c c_note) eqn:E; [|exact IH].
  right. apply N.eqb_eq in E. subst c. eexists. reflexivity.
Qed.

Lemma note_matches_none (s : pystr) :
  ~ In c_note s -> note_matches s = [].
Proof.
  induction s as [|c s IH]; simpl; [reflexivity|].
  intros H. destruct (char_eqb c c_note) eqn:E.
  - apply N.eqb_eq in E. exfalso. apply H. left. exact E.
  - apply IH. intros Hin. apply H. right. exact Hin.
Qed.

(** The Annotation Extractor returns the empty string for a value without
    the marker; any other result begins with the marker and holds nothing
    but markers, ASCII digits, commas and whitespace. *)
Theorem extract_note_numbers_shape (value : pystr) :
  (~ In c_note value -> extract_note_numbers value = []) /\
  (extract_note_numbers value = [] \/
   exists rest, extract_note_numbers value = c_note :: rest) /\
  (forall x, In x (extract_note_numbers value) ->
     x = c_note \/ is_note_char x = true).
Proof.
  unfold extract_note_numbers. destruct value as [|v0 vs].
  { repeat split; [left; reflexivity | intros x []]. }
  split; [|split].
  - intros H. rewrite (note_matches_none _ H). reflexivity.
  - destruct (note_matches_head (v0 :: vs)) as [E | [rest E]]; rewrite E.
    + left. reflexivity.
    + right. apply strip_by_head. reflexivity.
  - intros x H. apply in_strip_by in H. apply (note_matches_chars _ _ H).
Qed.

Lemma extract_note_numbers_shape_witness :
  extract_note_numbers (u "1,234 (単位:百万円)") = [].
Proof.
  apply (proj1 (extract_note_numbers_shape (u "1,234 (単位:百万円)"))).
  vm_compute. intuition discriminate.
Defined.

(** ** What the Amount Formatter raises *)

Lemma rne_bounds (a d : Z) :
  0 <= a -> 0 < d -> a / d <= PyFloat.rne a d <= a / d + 1.
Proof.
  intros Ha Hd. unfold PyFloat.rne.
  destruct (2 * (a mod d) <? d); [lia|].
  destruct (d <? 2 * (a mod d)); [lia|].
  destruct (Z.even (a / d)); lia.
Qed.

Lemma round_mag_bounds (a d : Z) :
  0 <= a -> 0 < d -> 0 <= PyFloat.round_mag a d <= 2 * (a / d) + 1.
Proof.
  intros Ha Hd. unfold PyFloat.round_mag.
  assert (Hq : 0 <= a / d) by (apply Z.div_pos; lia).
  destruct (a / d <? PyFloat.mant) eqn:E.
  - pose proof (rne_bounds a d Ha Hd). lia.
  - apply Z.ltb_ge in E. unfold PyFloat.mant in E.
    assert (H53 : 0 < 2 ^ 53) by (apply Z.pow_pos_nonneg; lia).
    assert (Hqpos : 0 < a / d) by lia.
    assert (Hlog : 53 <= Z.log2 (a / d)) by (apply Z.log2_le_pow2; assumption).
    set (s := Z.log2 (a / d) - 52).
    assert (Hs : 0 < 2 ^ s) by (apply Z.pow_pos_nonneg; unfold s; lia).
    assert (Hle : 2 ^ s <= a / d).
    { transitivity (2 ^ Z.log2 (a / d)).
      - apply Z.pow_le_mono_r; unfold s; lia.
      - apply Z.log2_spec. assumption. }
    pose proof (rne_bounds a (d * 2 ^ s) Ha ltac:(nia)) as [Hlo Hhi].
    rewrite <- Z.div_div in Hlo, Hhi by lia.
    pose proof (Z.mul_div_le (a / d) (2 ^ s) Hs).
    assert (0 <= a / d / 2 ^ s) by (apply Z.div_pos; lia).
    nia.
Qed.

Lemma round_finite_in_range (n d k : Z) :
  0 < d -> PyFloat.round n d = PyFloat.Fin k -> Z.abs k < PyFloat.huge.
Proof.
  intros Hd. unfold PyFloat.round.
  pose proof (round_mag_bounds (Z.abs n) d (Z.abs_nonneg n) Hd) as [Hlo _].
  destruct (PyFloat.huge <=? PyFloat.round_mag (Z.abs n) d) eqn:E; [discriminate|].
  apply Z.leb_gt in E. intros [= <-].
  rewrite Z.abs_mul, (Z.abs_eq (PyFloat.round_mag _ _)) by assumption.
  assert (Hs : Z.abs (Z.sgn n) <= 1) by (destruct n; cbn [Z.sgn Z.abs]; lia).
  pose proof (Z.abs_nonneg (Z.sgn n)). nia.
Qed.

Lemma decimal_to_float_in_range (m e k : Z) :
  decimal_to_float m e = PyFloat.Fin k -> Z.abs k < PyFloat.huge.
Proof.
  unfold decimal_to_float. destruct (0 <=? e) eqn:E.
  - apply round_finite_in_range. lia.
  - apply round_finite_in_range. apply Z.leb_gt in E. apply Z.pow_pos_nonneg; lia.
Qed.

Lemma parse_unsigned_in_range (s : pystr) (k : Z) :
  parse_unsigned s = Some (PyFloat.Fin k) -> Z.abs k < PyFloat.huge.
Proof.
  unfold parse_unsigned.
  destruct (pystr_eqb _ (u "inf") || pystr_eqb _ (u "infinity")); [discriminate|].
  destruct (pystr_eqb _ (u "nan")); [discriminate|].
  destruct (split_digits s) as [ip s1].
  destruct (match s1 with
            | [] => ([], s1)
            | c :: s1' => if char_eqb c c_dot then split_digits s1' else ([], s1)
            end) as [fp s2].
  destruct (ip ++ fp) as [|d ds]; [discriminate|].
  destruct (parse_exponent s2) as [e|]; [|discriminate].
  intros [= H]. apply (decimal_to_float_in_range _ _ _ H).
Qed.

(** A finite value [float] returns is within the range of the doubles. *)
Lemma py_float_in_range (s : pystr) (k : Z) :
  py_float s = Some (PyFloat.Fin k) -> Z.abs k < PyFloat.huge.
Proof.
  unfold py_float.
  destruct (drop_underscores None (map to_ascii_char s)) as [a|]; [|discriminate].
  destruct (strip_by is_ascii_space a) as [|c rest]; [discriminate|].
  destruct (char_eqb c c_minus).
  - destruct (parse_unsigned rest) as [[| |k']|] eqn:E; try discriminate.
    intros [= <-]. rewrite Z.abs_opp. apply (parse_unsigned_in_range _ _ E).
  - destruct (char_eqb c c_plus); apply parse_unsigned_in_range.
Qed.

(** Dividing a finite double that is at least 1,000,000 by 1,000,000 gives
    a finite double. *)
Lemma div_million_finite (k : Z) :
  1000000 * PyFloat.one <= k -> k < PyFloat.huge ->
  exists k', PyFloat.div_Z (PyFloat.Fin k) 1000000 = PyFloat.Fin k'.
Proof.
  intros Hge Hlt. pose proof one_pos as H1. cbn [PyFloat.div_Z]. unfold PyFloat.round.
  rewrite Z.abs_eq by lia.
  pose proof (round_mag_bounds k 1000000 ltac:(lia) ltac:(lia)) as [_ Hhi].
  pose proof (Z.mul_div_le k 1000000 ltac:(lia)).
  assert (E : (PyFloat.huge <=? PyFloat.round_mag k 1000000) = false)
    by (apply Z.leb_gt; lia).
  rewrite E. eexists. reflexivity.
Qed.

(** The only exception that leaves [format_amount] is [OverflowError], and
    it does so exactly when [float] reads the numeral as an infinity. *)
Theorem format_amount_raises_only_overflow (amount : pystr) :
  (forall e, format_amount amount = Raise e ->
     e = OverflowError /\
     exists s,
       py_float (if startswith (remove_char c_comma amount) [c_minus]
                 then tl (remove_char c_comma amount)
                 else remove_char c_comma amount) = Some (PyFloat.Inf s)) /\
  (forall s,
     amount <> [] ->
     py_float (if startswith (remove_char c_comma amount) [c_minus]
               then tl (remove_char c_comma amount)
               else remove_char c_comma amount) = Some (PyFloat.Inf s) ->
     format_amount amount = Raise OverflowError).
Proof.
  unfold format_amount. destruct amount as [|c0 s0] eqn:Ea.
  { split; [discriminate | congruence]. }
  rewrite <- Ea. clear Ea c0 s0. cbv beta iota zeta. unfold float_of_str, pystr.
  destruct (py_float _) as [[| sg | k]|] eqn:Ef.
  - split; [discriminate | discriminate].
  - cbn [bind PyFloat.ge_Z PyFloat.rem_Z PyFloat.eq_Z PyFloat.to_int andb].
    rewrite andb_false_r. cbn [bind except_ValueError]. split.
    + intros e [= <-]. split; [reflexivity | exists sg; reflexivity].
    + reflexivity.
  - split; [|discriminate]. intros e.
    pose proof (py_float_in_range _ _ Ef) as Hr.
    cbn [bind PyFloat.ge_Z].
    destruct (1000000 * PyFloat.one <=? k) eqn:Hge; cbn [andb].
    + destruct (PyFloat.eq_Z (PyFloat.rem_Z (PyFloat.Fin k) 1000000) 0).
      * apply Z.leb_le in Hge.
        destruct (div_million_finite k Hge ltac:(lia)) as [k' ->].
        cbn [PyFloat.to_int bind].
        destruct (startswith _ _); discriminate.
      * cbn [PyFloat.to_int bind]. destruct (startswith _ _); discriminate.
    + cbn [PyFloat.to_int bind]. destruct (startswith _ _); discriminate.
  - split; discriminate.
Qed.

Lemma format_amount_raises_only_overflow_witness :
  format_amount (u "-inf") = Raise OverflowError.
Proof.
  apply (proj2 (format_amount_raises_only_overflow (u "-inf")) false).
  - discriminate.
  - reflexivity.
Defined.

(** ** The grouped rendering of an integer, read back *)

Lemma uint_chars_all_digits (d : Decimal.uint) : all_digits (uint_chars d) = true.
Proof.
  unfold all_digits.
  induction d; cbn [uint_chars forallb]; rewrite ?IHd; reflexivity.
Qed.

Lemma digit_step_ascii (acc : Z) (i : N) :
  (i < 10)%N -> digit_step acc (48 + i)%N = 10 * acc + Z.of_N i.
Proof.
  intros H. unfold digit_step.
  assert (E : digit_value (48 + i)%N = Some (Z.of_N i)).
  { assert (Hi : (i = 0 \/ i = 1 \/ i = 2 \/ i = 3 \/ i = 4 \/ i = 5 \/ i = 6 \/
                  i = 7 \/ i = 8 \/ i = 9)%N) by lia.
    repeat (destruct Hi as [-> | Hi]; [reflexivity|]). subst i. reflexivity. }
  rewrite E. reflexivity.
Qed.

Lemma uint_chars_value_acc (d : Decimal.uint) (acc : positive) :
  fold_left digit_step (uint_chars d) (Z.pos acc) = Z.pos (Pos.of_uint_acc d acc).
Proof.
  revert acc. induction d; intros acc; cbn [uint_chars fold_left Pos.of_uint_acc];
    [reflexivity | ..].
  all: match goal with
       | |- context [digit_step _ ?c] =>
           let i := eval vm_compute in (c - 48)%N in
           change c with (48 + i)%N; rewrite (digit_step_ascii _ i) by reflexivity
       end.
  all: match goal with
       | |- fold_left _ _ ?z = Z.pos (Pos.of_uint_acc _ ?p) =>
           replace z with (Z.pos p) by lia
       end; apply IHd.
Qed.

Lemma uint_chars_value (d : Decimal.uint) :
  fold_left digit_step (uint_chars d) 0 = Z.of_N (Pos.of_uint d).
Proof.
  induction d; cbn [uint_chars fold_left Pos.of_uint]; [reflexivity | exact IHd | ..].
  all: match goal with
       | |- context [digit_step _ ?c] =>
           let i := eval vm_compute in (c - 48)%N in
           change c with (48 + i)%N; rewrite (digit_step_ascii _ i) by reflexivity
       end; cbn [Z.mul Z.add Z.of_N N.to_nat]; apply uint_chars_value_acc.
Qed.

(** The decimal digits of [n] spell [n]. *)
Lemma decimal_digits_value (n : N) : token_value (decimal_digits n) = Z.of_N n.
Proof.
  unfold token_value, decimal_digits. rewrite uint_chars_value.
  change (Pos.of_uint (N.to_uint n)) with (N.of_uint (N.to_uint n)).
  rewrite DecimalN.Unsigned.of_to. reflexivity.
Qed.

Lemma decimal_digits_nonempty (n : N) : decimal_digits n <> [].
Proof.
  unfold decimal_digits. pose proof (DecimalN.Unsigned.of_to n) as H.
  destruct (N.to_uint n) eqn:E; try discriminate.
  simpl in H. subst n. discriminate.
Qed.

Lemma remove_commas_group_rev (ds : pystr) (i : nat) :
  all_digits ds = true -> remove_char c_comma (group_rev ds i) = ds.
Proof.
  unfold all_digits. revert i. induction ds as [|d ds IH]; intros i H; [reflexivity|].
  cbn [forallb] in H. apply andb_true_iff in H as [Hd Hs].
  assert (Hc : negb (char_eqb d c_comma) = true).
  { apply negb_true_iff, N.eqb_neq. intros ->. vm_compute in Hd. discriminate. }
  cbn [group_rev]. destruct ds as [|e ds'].
  - unfold remove_char. cbn [filter]. rewrite Hc. reflexivity.
  - destruct i as [|[|[|i]]]; unfold remove_char in *; cbn [filter]; rewrite Hc;
      try change (negb (char_eqb c_comma c_comma)) with false; cbv iota;
      f_equal; apply IH; exact Hs.
Qed.

(** Removing the commas of a grouped run of digits gives the run back. *)
Lemma remove_commas_group_digits (ds : pystr) :
  all_digits ds = true -> remove_char c_comma (group_digits ds) = ds.
Proof.
  intros H. unfold group_digits, remove_char. rewrite filter_rev.
  fold (remove_char c_comma (group_rev (rev ds) 0)).
  rewrite remove_commas_group_rev, rev_involutive; [reflexivity|].
  unfold all_digits in *. rewrite forallb_forall in *.
  intros x Hx. apply H, in_rev, Hx.
Qed.

Lemma remove_commas_format_int (n : Z) :
  remove_char c_comma (format_int n) =
  (if n <? 0 then [c_minus] else []) ++ decimal_digits (Z.abs_N n).
Proof.
  unfold format_int.
  pose proof (remove_commas_group_digits _ (uint_chars_all_digits (N.to_uint (Z.abs_N n)))) as H.
  fold (decimal_digits (Z.abs_N n)) in H.
  destruct (n <? 0); cbn [app]; [|exact H].
  unfold remove_char in *. cbn [filter].
  change (negb (char_eqb c_minus c_comma)) with true. cbv iota. rewrite H. reflexivity.
Qed.

Lemma format_int_not_blank (n : Z) : strip (format_int n) <> [].
Proof.
  intros E. apply strip_nil in E. rewrite forallb_forall in E.
  pose proof (decimal_digits_nonempty (Z.abs_N n)) as Hne.
  destruct (decimal_digits (Z.abs_N n)) as [|d ds] eqn:Ed; [congruence|].
  assert (Hin : In d (remove_char c_comma (format_int n))).
  { rewrite remove_commas_format_int, Ed. apply in_or_app. right. left. reflexivity. }
  apply filter_In in Hin as [Hin _]. specialize (E d Hin).
  assert (Hd : is_digit d = true).
  { pose proof (uint_chars_all_digits (N.to_uint (Z.abs_N n))) as Ha.
    fold (decimal_digits (Z.abs_N n)) in Ha. rewrite Ed in Ha.
    unfold all_digits in Ha. cbn [forallb] in Ha. apply andb_true_iff in Ha. apply Ha. }
  unfold is_digit in Hd. destruct (digit_value d) as [v|] eqn:Ev; [|discriminate].
  rewrite (digit_value_not_space _ _ Ev) in E. discriminate.
Qed.

Lemma rendering_amount (l : Z) (nm nt : pystr) (n : Z) :
  is_double_int n ->
  item_amount {| level := l; name := nm; value := format_int n; note := nt |}
  = Some (PyFloat.Fin (n * PyFloat.one)).
Proof.
  intros Hd. unfold item_amount. cbn [value].
  pose proof (format_int_not_blank n) as Hs.
  destruct (strip (format_int n)) as [|s0 ss]; [congruence|].
  destruct (format_int n) as [|f0 fs] eqn:Ef.
  { exfalso. pose proof (remove_commas_format_int n) as H. rewrite Ef in H.
    pose proof (decimal_digits_nonempty (Z.abs_N n)).
    destruct (n <? 0); cbn in H; [discriminate | congruence]. }
  rewrite <- Ef. rewrite remove_commas_format_int.
  pose proof (uint_chars_all_digits (N.to_uint (Z.abs_N n))) as Ha.
  fold (decimal_digits (Z.abs_N n)) in Ha.
  pose proof (decimal_digits_nonempty (Z.abs_N n)) as Hne.
  assert (Hf : py_float (decimal_digits (Z.abs_N n))
               = Some (PyFloat.Fin (Z.abs n * PyFloat.one))).
  { rewrite (py_float_digits _ Ha Hne), decimal_digits_value, N2Z.inj_abs_N.
    rewrite round_int_exact; [reflexivity|].
    destruct Hd as [H1 H2].
    split; rewrite (Z.abs_eq (Z.abs n)) by apply Z.abs_nonneg; assumption. }
  destruct (n <? 0) eqn:En; cbn [app].
  - cbn [startswith]. change (char_eqb c_minus c_minus) with true. cbn [andb tl].
    rewrite Hf. cbn [option_map PyFloat.neg]. apply Z.ltb_lt in En.
    do 2 f_equal. lia.
  - apply Z.ltb_ge in En.
    destruct (decimal_digits (Z.abs_N n)) as [|d ds] eqn:Ed; [congruence|].
    unfold all_digits in Ha. cbn [forallb] in Ha. apply andb_true_iff in Ha as [Hd0 _].
    cbn [startswith]. rewrite (is_digit_not_minus _ Hd0). cbn [andb].
    rewrite Hf. do 2 f_equal. lia.
Qed.

(** The Aggregator reads back the integer the grouped rendering spells:
    an item whose value is [f"{n:,}"] for an integer that is a double
    adds exactly [n] to the total of its account. *)
Theorem item_amount_of_format_int (item : BSItem) (n : Z) :
  is_double_int n ->
  value item = format_int n ->
  item_amount item = Some (PyFloat.Fin (n * PyFloat.one)).
Proof.
  intros Hd Hv. destruct item as [l nm v nt]. cbn [value] in Hv. subst v.
  apply rendering_amount, Hd.
Qed.

Lemma item_amount_of_format_int_witness :
  item_amount (item_of (u "建物") (u "-1,234,567"))
  = Some (PyFloat.Fin (-1234567 * PyFloat.one)).
Proof.
  apply (item_amount_of_format_int (item_of (u "建物") (u "-1,234,567")) (-1234567)).
  - apply is_double_int_small. vm_compute. discriminate.
  - reflexivity.
Defined.

(** ** What the classifier puts in an item *)

Lemma first_matching_account_in (mapping : account_mapping_t) (s a : pystr) :
  first_matching_account mapping s = Some a -> In a (map fst mapping).
Proof.
  induction mapping as [|[b sp] rest IH]; simpl; [discriminate|].
  destruct (patterns_match sp s).
  - intros [= ->]. left. reflexivity.
  - intros H. right. apply IH, H.
Qed.

Lemma get_account_level_range (a : pystr) : 0 <= _get_account_level a <= 2.
Proof.
  unfold _get_account_level.
  destruct (contains a (u "合計")); [lia|].
  destruct (existsb (pystr_eqb a) major_categories); lia.
Qed.

Lemma classified_name_in_table (mapping : account_mapping_t)
    (item_name : option pystr) (amount : pystr) (item : BSItem) :
  map_item_to_bs_account mapping item_name amount = Ok (Some item) ->
  In (name item) (map fst mapping).
Proof.
  unfold map_item_to_bs_account.
  destruct item_name as [[|c l]|]; try discriminate.
  destruct (strip (c :: l)) as [|s0 ss]; [discriminate|].
  destruct (format_amount (clean_amount_value amount)) as [f|e]; [|discriminate].
  cbn [bind].
  destruct (first_matching_account mapping (s0 :: ss)) as [a|] eqn:Ea; [|discriminate].
  intros [= <-]. cbn [name]. apply (first_matching_account_in _ _ _ Ea).
Qed.

(** An item the classifier returns names an account of the pattern table,
    carries the level of that name (0, 1 or 2, never the 3 of the layout),
    the annotation and the formatted amount of the raw value; the label
    decides the account and nothing else. *)
Theorem map_item_to_bs_account_item (mapping : account_mapping_t)
    (item_name : option pystr) (amount : pystr) (item : BSItem) :
  map_item_to_bs_account mapping item_name amount = Ok (Some item) ->
  In (name item) (map fst mapping) /\
  level item = _get_account_level (name item) /\
  0 <= level item <= 2 /\
  note item = extract_note_numbers amount /\
  format_amount (clean_amount_value amount) = Ok (value item) /\
  exists l, item_name = Some l /\
            first_matching_account mapping (strip l) = Some (name item).
Proof.
  unfold map_item_to_bs_account.
  destruct item_name as [[|c l]|]; try discriminate.
  destruct (strip (c :: l)) as [|s0 ss] eqn:Es; [discriminate|].
  destruct (format_amount (clean_amount_value amount)) as [f|e]; [|discriminate].
  cbn [bind].
  destruct (first_matching_account mapping (s0 :: ss)) as [a|] eqn:Ea; [|discriminate].
  intros [= <-]. cbn [name level note value].
  repeat split; try apply get_account_level_range.
  - apply (first_matching_account_in _ _ _ Ea).
  - exists (c :: l). rewrite Es. split; [reflexivity | exact Ea].
Qed.

Lemma map_item_to_bs_account_item_witness :
  In (u "その他") [u "その他"; u "現金及び預金"].
Proof.
  apply (map_item_to_bs_account_item
           [(u "その他", PatternList [None; Some (u "預金")]);
            (u "現金及び預金", PatternStr (u "現金及び預金"))]
           (Some (u "  現金及び預金 ")) (u "※1 1,234")
           {| level := 2; name := u "その他"; value := u "1";
              note := u "※1 1,234" |}).
  vm_compute. reflexivity.
Defined.

Lemma contains_empty (s : pystr) : contains s [] = true.
Proof. destruct s; reflexivity. Qed.

(** An empty pattern occurs in every label: the first table entry that
    offers one takes every labelled row whose amount formats, whatever the
    entries after it. *)
Theorem empty_pattern_takes_every_label (a : pystr) (sp : source_patterns)
    (rest : account_mapping_t) (l amount formatted : pystr) :
  sp = PatternStr [] \/ (exists ps, sp = PatternList ps /\ In (Some []) ps) ->
  forallb is_space l = false ->
  format_amount (clean_amount_value amount) = Ok formatted ->
  map_item_to_bs_account ((a, sp) :: rest) (Some l) amount =
  Ok (Some {| level := _get_account_level a; name := a; value := formatted;
              note := extract_note_numbers amount |}).
Proof.
  intros Hsp Hl Hf. rewrite (map_item_to_bs_account_label _ _ _ _ Hl Hf).
  cbn [first_matching_account].
  assert (Hm : patterns_match sp (strip l) = true).
  { destruct Hsp as [-> | (ps & -> & Hin)]; cbn [patterns_match].
    - apply contains_empty.
    - apply existsb_exists. exists (Some []). split; [exact Hin | apply contains_empty]. }
  rewrite Hm. reflexivity.
Qed.

Lemma empty_pattern_takes_every_label_witness :
  map_item_to_bs_account
    [(u "その他", PatternList [Some []]);
     (u "現金及び預金", PatternStr (u "現金及び預金"))]
    (Some (u "現金及び預金")) (u "500") =
  Ok (Some {| level := 2; name := u "その他"; value := u "500"; note := [] |}).
Proof.
  apply (empty_pattern_takes_every_label (u "その他") (PatternList [Some []])
           [(u "現金及び預金", PatternStr (u "現金及び預金"))]
           (u "現金及び預金") (u "500") (u "500")).
  - right. exists [Some []]. split; [reflexivity | left; reflexivity].
  - reflexivity.
  - reflexivity.
Defined.

(** ** When an account gets a consolidated amount *)

Lemma sum_items_flag (items : list BSItem) (t : PyFloat.t) (flag : bool) :
  snd (sum_items items t flag) = flag || existsb contributes items.
Proof.
  revert t flag. induction items as [|item items IH]; intros t flag.
  - cbn. rewrite orb_false_r. reflexivity.
  - cbn [sum_items existsb]. unfold contributes at 1.
    destruct (item_amount item); rewrite IH; cbn [orb].
    + rewrite orb_true_r. reflexivity.
    + reflexivity.
Qed.

(** A group consolidates to no amount exactly when none of its items has a
    value [float] accepts: empty, blank and non-numeric values are skipped
    without failing the group. *)
Theorem consolidated_amount_none_iff (items_list : list BSItem) :
  consolidated_amount items_list = Ok None <->
  existsb contributes items_list = false.
Proof.
  unfold consolidated_amount.
  pose proof (sum_items_flag items_list (PyFloat.of_Z 0) false) as H.
  destruct (sum_items items_list (PyFloat.of_Z 0) false) as [t f].
  cbn [snd orb] in H. subst f.
  destruct (existsb contributes items_list).
  - split; [|discriminate]. destruct (format_total t); discriminate.
  - split; reflexivity.
Qed.

Fixpoint sum_Z (ns : list Z) : Z :=
  match ns with
  | [] => 0
  | n :: rest => n + sum_Z rest
  end.

Lemma integer_items_exact (items : list BSItem) (ns : list Z) :
  map value items = map format_int ns ->
  sum_Z (map Z.abs ns) <= 2 ^ 53 ->
  forallb whole_amount items = true /\
  abs_total items = sum_Z (map Z.abs ns) /\
  int_total items = sum_Z ns /\
  existsb contributes items = negb (match ns with [] => true | _ => false end).
Proof.
  revert ns. induction items as [|item items IH]; intros [|n ns] Hv Hb;
    try discriminate.
  - repeat split.
  - cbn [map] in Hv. injection Hv as Hn Hv. cbn [map sum_Z] in Hb.
    assert (Hnn : 0 <= sum_Z (map Z.abs ns)).
    { clear. induction ns; cbn [map sum_Z]; lia. }
    destruct (IH ns Hv ltac:(lia)) as (Hw & Ha & Hi & _).
    assert (Hamt : item_amount item = Some (PyFloat.Fin (n * PyFloat.one))).
    { destruct item as [l nm v nt]. cbn [value] in Hn. subst v.
      apply rendering_amount, is_double_int_small. lia. }
    pose proof one_pos as H1.
    assert (Ew : whole_amount item = true).
    { unfold whole_amount. rewrite Hamt, Z.mod_mul by lia. reflexivity. }
    assert (Ei : item_int item = n).
    { unfold item_int. rewrite Hamt, Z.div_mul by lia. reflexivity. }
    assert (Ec : contributes item = true).
    { unfold contributes. rewrite Hamt. reflexivity. }
    unfold abs_total, int_total in *.
    cbn [forallb map fold_right existsb sum_Z].
    rewrite Ew, Ei, Ec, Hw, Ha, Hi. repeat split.
Qed.

Lemma format_int_negative (n : Z) :
  n < 0 -> format_int n = c_minus :: format_int (- n).
Proof.
  intros H. unfold format_int.
  assert (E1 : (n <? 0) = true) by (apply Z.ltb_lt; lia).
  assert (E2 : (- n <? 0) = false) by (apply Z.ltb_ge; lia).
  rewrite E1, E2, Zabs2N.inj_opp. reflexivity.
Qed.

(** A group of items whose values are grouped integers, with absolute
    values summing to at most 2^53, consolidates to the grouped sum; a
    negative sum is written with a leading ASCII minus before the grouped
    magnitude, never with the glyph. *)
Theorem consolidated_amount_of_integers (items : list BSItem) (ns : list Z) :
  map value items = map format_int ns ->
  ns <> [] ->
  sum_Z (map Z.abs ns) <= 2 ^ 53 ->
  consolidated_amount items = Ok (Some (format_int (sum_Z ns))) /\
  (sum_Z ns < 0 ->
   consolidated_amount items = Ok (Some (c_minus :: format_int (- sum_Z ns)))).
Proof.
  intros Hv Hne Hb.
  destruct (integer_items_exact items ns Hv Hb) as (Hw & Ha & Hi & Hc).
  assert (E : consolidated_amount items = Ok (Some (format_int (sum_Z ns)))).
  { rewrite consolidated_amount_exact by (try assumption; lia).
    rewrite Hc, Hi. destruct ns; [congruence | reflexivity]. }
  split; [exact E|]. intros Hneg. rewrite E, (format_int_negative _ Hneg). reflexivity.
Qed.

Lemma consolidated_amount_of_integers_witness :
  consolidated_amount
    [item_of (u "建物") (u "-500,000"); item_of (u "建物") (u "120,000")]
  = Ok (Some (c_minus :: format_int (- sum_Z [-500000; 120000]))).
Proof.
  apply (proj2 (consolidated_amount_of_integers
                  [item_of (u "建物") (u "-500,000"); item_of (u "建物") (u "120,000")]
                  [-500000; 120000] eq_refl ltac:(discriminate)
                  ltac:(vm_compute; discriminate))).
  reflexivity.
Defined.

(** ** The first numeric run wins *)

Lemma first_number_pattern_skip (pre s : pystr) :
  forallb (fun c => negb (is_number_char c) && negb (is_sign_char c)) pre = true ->
  first_number_pattern (pre ++ s) = first_number_pattern s.
Proof.
  induction pre as [|c pre IH]; [reflexivity|].
  cbn [forallb app first_number_pattern]. intros H.
  apply andb_true_iff in H as [Hc Hp]. apply andb_true_iff in Hc as [Hn Hs].
  apply negb_true_iff in Hn, Hs. rewrite Hn, Hs. apply IH, Hp.
Qed.

Lemma take_while_run (p : char -> bool) (body rest : pystr) :
  forallb p body = true ->
  match rest with [] => True | c :: _ => p c = false end ->
  take_while p (body ++ rest) = body.
Proof.
  intros Hb Hr. induction body as [|c body IH]; cbn [app].
  - destruct rest as [|c rest]; [reflexivity|]. cbn. rewrite Hr. reflexivity.
  - cbn [forallb] in Hb. apply andb_true_iff in Hb as [Hc Hb].
    cbn [take_while]. rewrite Hc, (IH Hb). reflexivity.
Qed.

(** The Amount Normalizer returns the first run of digits and commas of
    its input and nothing after it: text before the run is skipped, a
    minus or the glyph right before the run becomes a leading minus, and
    whatever follows the run, further numbers included, is dropped. *)
Theorem clean_amount_value_first_run (pre body rest : pystr) (sign : option char) :
  forallb (fun c => negb (is_number_char c) && negb (is_sign_char c)) pre = true ->
  body <> [] ->
  forallb is_number_char body = true ->
  match rest with [] => True | c :: _ => is_number_char c = false end ->
  match sign with Some c => is_sign_char c = true | None => True end ->
  clean_amount_value
    (pre ++ match sign with Some c => [c] | None => [] end ++ body ++ rest)
  = match sign with Some _ => [c_minus] | None => [] end ++ body.
Proof.
  intros Hp Hne Hb Hr Hs.
  assert (Hfirst :
    first_number_pattern
      (pre ++ match sign with Some c => [c] | None => [] end ++ body ++ rest)
    = Some (match sign with Some c => [c] | None => [] end ++ body)).
  { rewrite (first_number_pattern_skip _ _ Hp). destruct sign as [c|]; cbn [app].
    - cbn [first_number_pattern]. rewrite Hs, (take_while_run _ _ _ Hb Hr).
      destruct body; [congruence | reflexivity].
    - destruct body as [|b body]; [congruence|]. cbn [app first_number_pattern].
      cbn [forallb] in Hb. apply andb_true_iff in Hb as [Hb0 Hb].
      rewrite (number_char_not_sign _ Hb0), Hb0, (take_while_run _ _ _ Hb Hr).
      reflexivity. }
  unfold clean_amount_value. rewrite Hfirst.
  destruct (pre ++ match sign with Some c => [c] | None => [] end ++ body ++ rest)
    as [|x0 xs] eqn:E.
  { exfalso. destruct pre; [|discriminate]. destruct sign; [discriminate|].
    destruct body; [congruence | discriminate]. }
  destruct sign as [c|]; cbn [app].
  - cbn [startswith tl]. unfold is_sign_char in Hs. apply orb_true_iff in Hs.
    destruct Hs as [Hs | Hs]; apply N.eqb_eq in Hs; subst c; reflexivity.
  - destruct body as [|b body]; [congruence|].
    cbn [forallb] in Hb. apply andb_true_iff in Hb as [Hb0 _].
    cbn [startswith]. destruct (char_eqb c_triangle b) eqn:Et; [|reflexivity].
    apply N.eqb_eq in Et. subst b. vm_compute in Hb0. discriminate.
Qed.

Lemma clean_amount_value_first_run_witness :
  clean_amount_value (u "※1 △500,000") = u "1".
Proof.
  apply (clean_amount_value_first_run (u "※") (u "1") (u " △500,000") None);
    try reflexivity. discriminate.
Defined.

(** ** The groups of the transformation *)

Lemma dict_get_none {A : Type} (d : list (pystr * A)) (k : pystr) :
  dict_get d k = None <-> ~ In k (map fst d).
Proof.
  induction d as [|[k' v] d IH]; cbn [dict_get map fst In]; [tauto|].
  destruct (pystr_eqb k' k) eqn:E.
  - apply pystr_eqb_eq in E. split; [discriminate | tauto].
  - rewrite IH. split.
    + intros H [H1 | H1]; [|tauto]. subst k'. rewrite pystr_eqb_refl in E. discriminate.
    + tauto.
Qed.

Lemma dict_get_in {A : Type} (d : list (pystr * A)) (k : pystr) (v : A) :
  dict_get d k = Some v -> In (k, v) d.
Proof.
  induction d as [|[k' w] d IH]; cbn [dict_get In]; [discriminate|].
  destruct (pystr_eqb k' k) eqn:E.
  - apply pystr_eqb_eq in E. intros [= ->]. left. congruence.
  - intros H. right. apply IH, H.
Qed.

Lemma dict_set_keys {A : Type} (d : list (pystr * A)) (k : pystr) (v : A) :
  map fst (dict_set d k v) =
  match dict_get d k with
  | Some _ => map fst d
  | None => map fst d ++ [k]
  end.
Proof.
  induction d as [|[k' w] d IH]; cbn [dict_set dict_get map fst app]; [reflexivity|].
  destruct (pystr_eqb k' k); [reflexivity|].
  cbn [map fst]. rewrite IH. destruct (dict_get d k); reflexivity.
Qed.

Lemma dict_set_Forall {A : Type} (P : pystr * A -> Prop)
    (d : list (pystr * A)) (k : pystr) (v : A) :
  Forall P d -> P (k, v) -> Forall P (dict_set d k v).
Proof.
  intros Hd Hk. induction Hd as [|[k' w] d Hw Hd IH]; cbn [dict_set].
  - constructor; [exact Hk | constructor].
  - destruct (pystr_eqb k' k) eqn:E.
    + apply pystr_eqb_eq in E. subst k'. constructor; assumption.
    + constructor; assumption.
Qed.

Lemma dict_set_NoDup {A : Type} (d : list (pystr * A)) (k : pystr) (v : A) :
  NoDup (map fst d) -> NoDup (map fst (dict_set d k v)).
Proof.
  intros H. rewrite dict_set_keys. destruct (dict_get d k) eqn:E; [exact H|].
  apply dict_get_none in E. apply NoDup_app; [exact H | repeat constructor; intros [] |].
  intros x Hx [<- | []]. exact (E Hx).
Qed.

(** The groups are well formed: one group per account name, none empty,
    every item filed under its own name, and every name a key of the
    pattern table. *)
Definition well_grouped (mapping : account_mapping_t)
    (d : list (pystr * list BSItem)) : Prop :=
  NoDup (map fst d) /\
  Forall (fun g => snd g <> [] /\
                   Forall (fun item => name item = fst g) (snd g) /\
                   In (fst g) (map fst mapping)) d.

Lemma group_rows_well_grouped (mapping : account_mapping_t)
    (item_col value_col : column) (n i : nat)
    (d d' : list (pystr * list BSItem)) :
  well_grouped mapping d ->
  group_rows mapping item_col value_col i n d = Ok d' ->
  well_grouped mapping d'.
Proof.
  revert i d. induction n as [|n IH]; intros i d Hd; cbn [group_rows].
  - intros [= <-]. exact Hd.
  - destruct (map_item_to_bs_account mapping _ _) as [[item|]|e] eqn:Em;
      cbn [bind]; [| apply IH, Hd | discriminate].
    apply IH. destruct Hd as [Hnd Hall].
    apply classified_name_in_table in Em as Hin.
    split; [apply dict_set_NoDup, Hnd|].
    apply dict_set_Forall; [exact Hall|]. cbn [fst snd].
    split; [intros E; destruct (match dict_get d (name item) with
                                 | Some l => l | None => [] end); discriminate|].
    split; [|exact Hin]. apply Forall_app. split; [|repeat constructor].
    destruct (dict_get d (name item)) as [old|] eqn:Eg; [|constructor].
    apply dict_get_in in Eg. rewrite Forall_forall in Hall.
    apply (Hall _ Eg).
Qed.

(** The grouping loop of [transform_to_balance_sheet], started on the
    empty dictionary, keeps one group per account: the keys are distinct
    names of the pattern table, no group is empty, and every item lies in
    the group of its own name. *)
Theorem transform_groups_well_formed (mapping : account_mapping_t)
    (item_col value_col : column) (n : nat) (d : list (pystr * list BSItem)) :
  group_rows mapping item_col value_col 0 n [] = Ok d ->
  NoDup (map fst d) /\
  (forall key items, In (key, items) d ->
     items <> [] /\
     (forall item, In item items -> name item = key) /\
     In key (map fst mapping)).
Proof.
  intros H. apply group_rows_well_grouped in H.
  2:{ split; constructor. }
  destruct H as [Hnd Hall]. split; [exact Hnd|].
  intros key items Hin. rewrite Forall_forall in Hall.
  destruct (Hall _ Hin) as (H1 & H2 & H3). cbn [fst snd] in *.
  rewrite Forall_forall in H2. repeat split; assumption.
Qed.

Lemma transform_groups_well_formed_witness :
  NoDup [u "現金及び預金"].
Proof.
  apply (transform_groups_well_formed (account_mapping cash_config)
           {| col_name := u "項目名"; col_dtype := ObjectDtype;
              col_cells := map (fun r => Some (fst r)) cash_rows |}
           {| col_name := u "値"; col_dtype := ObjectDtype;
              col_cells := map (fun r => Some (snd r)) cash_rows |}
           2
           [(u "現金及び預金",
             [item_of (u "現金及び預金") (u "1,234,567");
              item_of (u "現金及び預金") (u "2")])]).
  vm_compute. reflexivity.
Defined.

(** ** The consolidated entries *)

Lemma group_digits_nonempty (ds : pystr) :
  all_digits ds = true -> ds <> [] -> group_digits ds <> [].
Proof.
  intros Ha Hne E. apply Hne. rewrite <- (remove_commas_group_digits ds Ha), E.
  reflexivity.
Qed.

Lemma format_int_nonempty (n : Z) : format_int n <> [].
Proof.
  unfold format_int. destruct (n <? 0); [discriminate|].
  apply group_digits_nonempty; [apply uint_chars_all_digits | apply decimal_digits_nonempty].
Qed.

Lemma format_0f_nonempty (x : PyFloat.t) : format_0f x <> [].
Proof.
  destruct x as [|s|k]; cbn [format_0f]; [discriminate | destruct s; discriminate |].
  destruct (k <? 0); [discriminate|].
  apply group_digits_nonempty; [apply uint_chars_all_digits | apply decimal_digits_nonempty].
Qed.

Lemma format_total_nonempty (t : PyFloat.t) (v : pystr) :
  format_total t = Ok v -> v <> [].
Proof.
  unfold format_total. destruct (PyFloat.to_int t) as [i|e]; cbn [bind]; [|discriminate].
  destruct (PyFloat.eq_Z t i); intros [= <-];
    [apply format_int_nonempty | apply format_0f_nonempty].
Qed.

Lemma consolidated_amount_nonempty (items : list BSItem) (v : pystr) :
  consolidated_amount items = Ok (Some v) -> v <> [].
Proof.
  unfold consolidated_amount.
  destruct (sum_items items (PyFloat.of_Z 0) false) as [t f].
  destruct f; [|discriminate].
  destruct (format_total t) as [w|e] eqn:E; cbn [bind]; [|discriminate].
  intros [= <-]. apply (format_total_nonempty _ _ E).
Qed.

Lemma dict_get_set {A : Type} (d : list (pystr * A)) (k k' : pystr) (v : A) :
  dict_get (dict_set d k v) k' =
  if pystr_eqb k k' then Some v else dict_get d k'.
Proof.
  induction d as [|[k0 w] d IH]; cbn [dict_set dict_get]; [reflexivity|].
  destruct (pystr_eqb k0 k) eqn:E0.
  - apply pystr_eqb_eq in E0. subst k0. cbn [dict_get].
    destruct (pystr_eqb k k'); reflexivity.
  - cbn [dict_get]. destruct (pystr_eqb k0 k') eqn:E1; [|exact IH].
    apply pystr_eqb_eq in E1. subst k0.
    destruct (pystr_eqb k k') eqn:E2; [|reflexivity].
    apply pystr_eqb_eq in E2. subst k'. rewrite pystr_eqb_refl in E0. discriminate.
Qed.

(** The entry the summing loop makes of one group. *)
Definition entry_of (account_name : pystr) (items_list : list BSItem)
    : option BSItem :=
  match items_list with
  | [] => None
  | first :: _ =>
      match consolidated_amount items_list with
      | Ok (Some formatted_amount) =>
          Some {| level := level first; name := account_name;
                  value := formatted_amount; note := [] |}
      | _ => None
      end
  end.

Lemma consolidate_lookup_acc (d : list (pystr * list BSItem))
    (acc c : item_dict_t) (k : pystr) :
  NoDup (map fst d) ->
  consolidate d acc = Ok c ->
  dict_get c k =
  match dict_get d k with
  | Some items_list =>
      match entry_of k items_list with
      | Some e => Some e
      | None => dict_get acc k
      end
  | None => dict_get acc k
  end.
Proof.
  revert acc. induction d as [|[k0 items] d IH]; intros acc Hnd; cbn [consolidate].
  - intros [= <-]. reflexivity.
  - cbn [map fst] in Hnd. apply NoDup_cons_iff in Hnd as [Hk0 Hnd].
    assert (Hnone : pystr_eqb k0 k = true -> dict_get d k = None).
    { intros E. apply pystr_eqb_eq in E. subst k0. apply dict_get_none, Hk0. }
    cbn [dict_get]. destruct items as [|first rest].
    + intros H. rewrite (IH _ Hnd H). cbn [entry_of].
      destruct (pystr_eqb k0 k) eqn:E; [rewrite (Hnone eq_refl)|]; reflexivity.
    + destruct (consolidated_amount (first :: rest)) as [[v|]|e] eqn:Ec; cbn [bind];
        [| |discriminate]; intros H; rewrite (IH _ Hnd H).
      * rewrite dict_get_set. destruct (pystr_eqb k0 k) eqn:E.
        -- rewrite (Hnone eq_refl). apply pystr_eqb_eq in E. subst k0.
           unfold entry_of. rewrite Ec. reflexivity.
        -- reflexivity.
      * destruct (pystr_eqb k0 k) eqn:E; [|reflexivity].
        rewrite (Hnone eq_refl). unfold entry_of. rewrite Ec. reflexivity.
Qed.

(** The summing loop, on groups with distinct names: looking an account
    up in its result gives the entry of that account's group, with the
    level of the group's first item, the consolidated amount and no
    annotation, and nothing for an account without a group or without a
    valid amount.  An entry never has an empty amount. *)
Theorem consolidate_lookup (d : list (pystr * list BSItem)) (c : item_dict_t) :
  NoDup (map fst d) ->
  consolidate d [] = Ok c ->
  (forall k, dict_get c k =
             match dict_get d k with
             | Some items_list => entry_of k items_list
             | None => None
             end) /\
  (forall k item, dict_get c k = Some item ->
     name item = k /\ note item = [] /\ value item <> []).
Proof.
  intros Hnd Hc.
  assert (H : forall k, dict_get c k =
                        match dict_get d k with
                        | Some items_list => entry_of k items_list
                        | None => None
                        end).
  { intros k. rewrite (consolidate_lookup_acc d [] c k Hnd Hc).
    destruct (dict_get d k) as [items|]; [|reflexivity].
    destruct (entry_of k items); reflexivity. }
  split; [exact H|]. intros k item Hk. rewrite H in Hk.
  destruct (dict_get d k) as [items|]; [|discriminate].
  unfold entry_of in Hk. destruct items as [|first rest]; [discriminate|].
  destruct (consolidated_amount (first :: rest)) as [[v|]|e] eqn:E; try discriminate.
  injection Hk as <-. cbn [name note value].
  repeat split. apply (consolidated_amount_nonempty _ _ E).
Qed.

Lemma consolidate_lookup_witness :
  dict_get [(u "現金及び預金", item_of (u "現金及び預金") (u "1,234,569"))]
    (u "現金及び預金")
  = entry_of (u "現金及び預金")
      [item_of (u "現金及び預金") (u "1,234,567"); item_of (u "現金及び預金") (u "2")].
Proof.
  apply (proj1 (consolidate_lookup
                  [(u "現金及び預金",
                    [item_of (u "現金及び預金") (u "1,234,567");
                     item_of (u "現金及び預金") (u "2")])]
                  [(u "現金及び預金", item_of (u "現金及び預金") (u "1,234,569"))]
                  ltac:(repeat constructor; intros [])
                  ltac:(vm_compute; reflexivity)) (u "現金及び預金")).
Defined.

(** ** The layout depends on the data in cell 9 only *)

(** A row with its amount cell emptied. *)
Definition clear_amount (r : row) : row := list_set r 9 [].

Lemma clear_amount_header (i : nat) (label : pystr) :
  (i <= 2)%nat -> clear_amount (header_row i label) = header_row i label.
Proof.
  intros H. destruct i as [|[|[|i]]]; [reflexivity | reflexivity | reflexivity | lia].
Qed.

Lemma clear_amount_label (n : pystr) (l : Z) :
  clear_amount (place_label blank_row n l) = place_label blank_row n l.
Proof.
  unfold place_label.
  destruct (l =? 1); [reflexivity|].
  destruct (l =? 2); [reflexivity|].
  destruct (l =? 3); reflexivity.
Qed.

Lemma clear_amount_set_amount (n v : pystr) (l : Z) :
  clear_amount (list_set (place_label blank_row n l) 9 v) = place_label blank_row n l.
Proof.
  unfold place_label.
  destruct (l =? 1); [reflexivity|].
  destruct (l =? 2); [reflexivity|].
  destruct (l =? 3); reflexivity.
Qed.

Lemma clear_amount_item_row (n : pystr) (d : item_dict_t) (l : Z) :
  map clear_amount (_add_item_row_with_grouping n d l)
  = _add_item_row_with_grouping n [] l.
Proof.
  unfold _add_item_row_with_grouping. cbn [dict_get].
  destruct (dict_get d n) as [item|]; [destruct (value item)|]; cbn [map];
    rewrite ?clear_amount_set_amount, ?clear_amount_label; reflexivity.
Qed.

Lemma map_flat_map {A B C : Type} (f : B -> C) (g : A -> list B) (l : list A) :
  map f (flat_map g l) = flat_map (fun x => map f (g x)) l.
Proof.
  induction l as [|x l IH]; cbn [flat_map map]; [reflexivity|].
  rewrite map_app, IH. reflexivity.
Qed.

Lemma clear_amount_section (s : structure_t) (section_name : pystr) (d : item_dict_t) :
  map clear_amount (_build_section_with_grouping s section_name d)
  = _build_section_with_grouping s section_name [].
Proof.
  unfold _build_section_with_grouping. cbn [map].
  rewrite (clear_amount_header 0) by lia. f_equal.
  rewrite map_flat_map. apply flat_map_ext. intros [category [subs|items|]];
    cbn [category_rows map].
  - rewrite (clear_amount_header 1) by lia. f_equal.
    rewrite map_flat_map. apply flat_map_ext. intros [subcat [items|]];
      cbn [subcategory_rows map].
    + rewrite (clear_amount_header 2) by lia. f_equal.
      rewrite map_flat_map. apply flat_map_ext. intros x. apply clear_amount_item_row.
    + apply clear_amount_item_row.
  - rewrite (clear_amount_header 1) by lia. f_equal.
    rewrite map_flat_map. apply flat_map_ext. intros x. apply clear_amount_item_row.
  - apply clear_amount_item_row.
Qed.

(** The table of the template alone: what the builder emits for a
    dictionary without entries. *)
Definition template_table (cfg : config) : list row :=
  _build_section_with_grouping (_load_bs_structure cfg) (u "資産の部") []
    ++ [blank_row]
    ++ _build_section_with_grouping (_load_bs_structure cfg) (u "負債の部") [].

(** Whatever the frame, a returned table that is not the empty report has
    the rows of the template, in its order and number: emptying cell 9 of
    every row gives the table of the template alone.  The data reaches
    the report through the amount cells only. *)
Theorem transform_layout_from_template (cfg : config) (df : DataFrame)
    (t : list row) :
  transform_to_balance_sheet cfg df = Ok t ->
  t <> [] ->
  map clear_amount t = template_table cfg /\
  List.length t = List.length (template_table cfg).
Proof.
  intros Ht Hne. apply transform_returns_converted in Ht.
  destruct Ht as [-> | (cy & ic & vc & d & ci & _ & _ & _ & ->)]; [congruence|].
  rewrite convert_id.
  2:{ apply Forall_app. split; [apply build_section_with_grouping_25|].
      apply Forall_app. split; [repeat constructor|].
      apply build_section_with_grouping_25. }
  assert (E : map clear_amount
                (_build_section_with_grouping (_load_bs_structure cfg) (u "資産の部") ci
                 ++ [blank_row]
                 ++ _build_section_with_grouping (_load_bs_structure cfg)
                      (u "負債の部") ci)
              = template_table cfg).
  { rewrite !map_app, !clear_amount_section. reflexivity. }
  split; [exact E|]. rewrite <- E, length_map. reflexivity.
Qed.

Lemma transform_layout_from_template_witness :
  List.length
    (match transform_to_balance_sheet cash_config (statement_frame cash_rows) with
     | Ok t => t
     | Raise _ => []
     end) = List.length (template_table cash_config).
Proof.
  apply (transform_layout_from_template cash_config (statement_frame cash_rows)).
  - vm_compute. reflexivity.
  - vm_compute. discriminate.
Defined.

(** ** The Row Standardizer, applied again *)

(** Standardizing keeps the number of rows, leaves a table of 25-cell rows
    as it is, and so changes nothing when applied a second time. *)
Theorem convert_to_csv_format_idempotent (bs_table : list row) :
  List.length (_convert_to_csv_format bs_table) = List.length bs_table /\
  _convert_to_csv_format (_convert_to_csv_format bs_table)
  = _convert_to_csv_format bs_table /\
  (Forall (fun r => List.length r = 25%nat) bs_table ->
   _convert_to_csv_format bs_table = bs_table).
Proof.
  split; [apply length_map|]. split; [|apply convert_id].
  apply convert_id, convert_rows_25.
Qed.

Lemma convert_to_csv_format_idempotent_witness :
  _convert_to_csv_format [blank_row; header_row 1 (u "流動資産")]
  = [blank_row; header_row 1 (u "流動資産")].
Proof.
  apply (proj2 (proj2 (convert_to_csv_format_idempotent
                         [blank_row; header_row 1 (u "流動資産")]))).
  repeat constructor.
Defined.

(** ** Column detection and the selection of the current period *)

Lemma find_candidate_in (cands names : list pystr) (x : pystr) :
  find (fun cand => existsb (pystr_eqb cand) names) cands = Some x ->
  In x names.
Proof.
  intros H. apply find_some in H as [_ H].
  apply existsb_exists in H as (n & Hn & E). apply pystr_eqb_eq in E. congruence.
Qed.

Lemma find_name_in (f : pystr -> bool) (names : list pystr) (x : pystr) :
  find f names = Some x -> In x names.
Proof. intros H. apply find_some in H. apply H. Qed.

Lemma find_column_in (f : column -> bool) (cols : list column) (x : pystr) :
  option_map col_name (find f cols) = Some x -> In x (map col_name cols).
Proof.
  destruct (find f cols) as [c|] eqn:E; [|discriminate].
  intros [= <-]. apply find_some in E. apply in_map, E.
Qed.

Lemma get_column_some (df : DataFrame) (x : pystr) :
  In x (map col_name (columns df)) -> exists c, get_column df x = Some c /\ col_name c = x.
Proof.
  unfold get_column. induction (columns df) as [|c cols IH]; cbn [map In find]; [intros []|].
  destruct (pystr_eqb (col_name c) x) eqn:E.
  - intros _. exists c. split; [reflexivity | apply pystr_eqb_eq, E].
  - intros [H | H]; [rewrite H, pystr_eqb_refl in E; discriminate | apply IH, H].
Qed.

Lemma detect_item_name_exact (df : DataFrame) :
  has_column df (u "項目名") = true ->
  _detect_item_name_column df = Some (u "項目名").
Proof.
  unfold has_column, _detect_item_name_column. intros H. cbn [find].
  assert (E : existsb (pystr_eqb (u "項目名")) (map col_name (columns df)) = true).
  { apply existsb_exists in H as (c & Hc & E). apply existsb_exists.
    exists (col_name c). split; [apply in_map, Hc|].
    apply pystr_eqb_eq in E. rewrite E. apply pystr_eqb_refl. }
  rewrite E. reflexivity.
Qed.

Lemma detect_value_exact (df : DataFrame) :
  has_column df (u "値") = true -> _detect_value_column df = Some (u "値").
Proof.
  unfold has_column, _detect_value_column. intros H. cbn [find].
  assert (E : existsb (pystr_eqb (u "値")) (map col_name (columns df)) = true).
  { apply existsb_exists in H as (c & Hc & E). apply existsb_exists.
    exists (col_name c). split; [apply in_map, Hc|].
    apply pystr_eqb_eq in E. rewrite E. apply pystr_eqb_refl. }
  rewrite E. reflexivity.
Qed.

(** Both detectors answer with a label of the frame, so the column they
    name can be read; a column labelled exactly 項目名 (or 値) is chosen
    whatever the other columns are. *)
Theorem detected_columns_exist (df : DataFrame) :
  (forall x, _detect_item_name_column df = Some x ->
     exists c, get_column df x = Some c /\ col_name c = x) /\
  (forall x, _detect_value_column df = Some x ->
     exists c, get_column df x = Some c /\ col_name c = x) /\
  (has_column df (u "項目名") = true ->
   _detect_item_name_column df = Some (u "項目名")) /\
  (has_column df (u "値") = true -> _detect_value_column df = Some (u "値")).
Proof.
  split; [|split; [|split]].
  - intros x. unfold _detect_item_name_column.
    destruct (find _ [u "項目名"; _; _; _; _]) as [c1|] eqn:E1.
    { intros [= <-]. apply get_column_some, (find_candidate_in _ _ _ E1). }
    destruct (find _ (map col_name (columns df))) as [c2|] eqn:E2.
    { intros [= <-]. apply get_column_some, (find_name_in _ _ _ E2). }
    intros H. apply get_column_some, (find_column_in _ _ _ H).
  - intros x. unfold _detect_value_column.
    destruct (find _ [u "値"; _; _; _; _]) as [c1|] eqn:E1.
    { intros [= <-]. apply get_column_some, (find_candidate_in _ _ _ E1). }
    destruct (find _ (map col_name (columns df))) as [c2|] eqn:E2.
    { intros [= <-]. apply get_column_some, (find_name_in _ _ _ E2). }
    intros H. apply get_column_some, (find_column_in _ _ _ H).
  - apply detect_item_name_exact.
  - apply detect_value_exact.
Qed.

Lemma detected_columns_exist_witness :
  _detect_value_column (statement_frame cash_rows) = Some (u "値").
Proof.
  apply (proj2 (proj2 (proj2 (detected_columns_exist (statement_frame cash_rows))))).
  reflexivity.
Defined.

Lemma select_rows_names (df : DataFrame) (mask : list bool) :
  map col_name (columns (select_rows df mask)) = map col_name (columns df) /\
  map col_dtype (columns (select_rows df mask)) = map col_dtype (columns df).
Proof.
  unfold select_rows. cbn [columns]. rewrite !map_map. split; reflexivity.
Qed.

Lemma select_rows_count (df : DataFrame) (mask : list bool) :
  (n_rows (select_rows df mask) <= n_rows df)%nat.
Proof.
  unfold select_rows, count_true. cbn [n_rows].
  etransitivity; [apply filter_length_le|]. apply firstn_le_length.
Qed.

Lemma find_object_schema (cs cs' : list column) :
  map col_name cs = map col_name cs' ->
  map col_dtype cs = map col_dtype cs' ->
  option_map col_name (find is_object cs) = option_map col_name (find is_object cs').
Proof.
  revert cs'. induction cs as [|c cs IH]; intros [|c' cs'] Hn Hd; try discriminate;
    [reflexivity|].
  cbn [map] in Hn, Hd. injection Hn as Hn0 Hn. injection Hd as Hd0 Hd.
  cbn [find]. unfold is_object at 1 3. rewrite Hd0.
  destruct (col_dtype c'); cbn [option_map]; try apply (IH _ Hn Hd).
  rewrite Hn0. reflexivity.
Qed.

(** The selection of the current period never adds a row and keeps the
    labels and dtypes of the columns; the label column found on the
    selected rows is therefore the one found on the whole frame. *)
Theorem current_year_rows_keeps_schema (df cy : DataFrame) :
  current_year_rows df = Ok cy ->
  map col_name (columns cy) = map col_name (columns df) /\
  map col_dtype (columns cy) = map col_dtype (columns df) /\
  (n_rows cy <= n_rows df)%nat /\
  _detect_item_name_column cy = _detect_item_name_column df.
Proof.
  intros H.
  assert (Hs : map col_name (columns cy) = map col_name (columns df) /\
               map col_dtype (columns cy) = map col_dtype (columns df) /\
               (n_rows cy <= n_rows df)%nat).
  { unfold current_year_rows in H.
    assert (Hsel : forall mask, cy = select_rows df mask ->
              map col_name (columns cy) = map col_name (columns df) /\
              map col_dtype (columns cy) = map col_dtype (columns df) /\
              (n_rows cy <= n_rows df)%nat).
    { intros mask ->. destruct (select_rows_names df mask).
      repeat split; try assumption. apply select_rows_count. }
    assert (Hid : cy = df ->
              map col_name (columns cy) = map col_name (columns df) /\
              map col_dtype (columns cy) = map col_dtype (columns df) /\
              (n_rows cy <= n_rows df)%nat).
    { intros ->. repeat split. apply Nat.le_refl. }
    destruct (has_column df (u "コンテキストID")).
    { destruct (get_column df (u "コンテキストID")) as [c|]; [|injection H as <-; auto].
      destruct (str_contains_current c) as [m|e]; cbn [bind] in H; [|discriminate].
      injection H as <-. eapply Hsel. reflexivity. }
    destruct (has_column df (u "相対年度")).
    { destruct (get_column df (u "相対年度")) as [c|]; injection H as <-; [|auto].
      eapply Hsel. reflexivity. }
    destruct (existsb _ (columns df)); [|injection H as <-; auto].
    destruct (instant_mask df _ _) as [m|e]; cbn [bind] in H; [|discriminate].
    destruct (existsb (fun b => b) m); injection H as <-; [|auto].
    eapply Hsel. reflexivity. }
  destruct Hs as (Hn & Hd & Hr). repeat split; try assumption.
  unfold _detect_item_name_column. rewrite Hn, (find_object_schema _ _ Hn Hd).
  reflexivity.
Qed.

Lemma current_year_rows_keeps_schema_witness :
  (n_rows {| columns :=
               [ {| col_name := u "項目名"; col_dtype := ObjectDtype;
                    col_cells := [Some (u "現金及び預金")] |};
                 {| col_name := u "相対年度"; col_dtype := ObjectDtype;
                    col_cells := [Some (u "当期末")] |} ];
             n_rows := 1 |}
   <= 2)%nat.
Proof.
  apply (current_year_rows_keeps_schema
           {| columns :=
                [ {| col_name := u "項目名"; col_dtype := ObjectDtype;
                     col_cells := [Some (u "現金及び預金"); Some (u "現金及び預金")] |};
                  {| col_name := u "相対年度"; col_dtype := ObjectDtype;
                     col_cells := [Some (u "当期末"); Some (u "前期末")] |} ];
              n_rows := 2 |}).
  vm_compute. reflexivity.
Defined.

(** ** Rows that classify to nothing *)

(** The grouping loop as a loop over the list of the rows it reads. *)
Fixpoint group_list (mapping : account_mapping_t) (rows : list (pystr * pystr))
    (bs_items_dict : list (pystr * list BSItem))
    : result (list (pystr * list BSItem)) :=
  match rows with
  | [] => Ok bs_items_dict
  | (item_name, value) :: rest =>
      bs_item <- map_item_to_bs_account mapping (Some item_name) value ;;
      match bs_item with
      | Some item =>
          group_list mapping rest
            (dict_set bs_items_dict (name item)
               (match dict_get bs_items_dict (name item) with
                | Some l => l
                | None => []
                end ++ [item]))
      | None => group_list mapping rest bs_items_dict
      end
  end.

(** The text the grouping loop reads in row [i] of a column: the empty
    string for a missing cell. *)
Definition cell_text (c : column) (i : nat) : pystr :=
  match cell_at c i with Some s => s | None => [] end.

(** Rows [i] to [i + n - 1] of the label and value columns, as read. *)
Definition frame_rows (item_col value_col : column) (i n : nat)
    : list (pystr * pystr) :=
  map (fun j => (cell_text item_col j, cell_text value_col j)) (seq i n).

Definition remove_nth {A : Type} (i : nat) (l : list A) : list A :=
  firstn i l ++ skipn (S i) l.

Definition drop_cell (i : nat) (c : column) : column :=
  {| col_name := col_name c;
     col_dtype := col_dtype c;
     col_cells := remove_nth i (col_cells c) |}.

(** The frame without its row [i]: every column loses that cell and keeps
    its label and dtype. *)
Definition drop_row (i : nat) (df : DataFrame) : DataFrame :=
  {| columns := map (drop_cell i) (columns df);
     n_rows := pred (n_rows df) |}.

(** None of the three conditions of the row selection applies: no column
    is labelled コンテキストID or 相対年度 and no label holds [Instant] or
    [Quarter]. *)
Definition no_period_column (df : DataFrame) : bool :=
  negb (has_column df (u "コンテキストID"))
  && negb (has_column df (u "相対年度"))
  && negb (existsb (fun c => contains (col_name c) (u "Instant")
                             || contains (col_name c) (u "Quarter"))
                   (columns df)).

Lemma group_rows_frame_rows (mapping : account_mapping_t)
    (item_col value_col : column) (i n : nat) (d : list (pystr * list BSItem)) :
  group_rows mapping item_col value_col i n d
  = group_list mapping (frame_rows item_col value_col i n) d.
Proof.
  unfold frame_rows. revert i d. induction n as [|n IH]; intros i d; [reflexivity|].
  cbn [group_rows seq map group_list]. unfold cell_text at 1 2.
  destruct (map_item_to_bs_account mapping _ _) as [[item|]|e]; cbn [bind];
    [apply IH | apply IH | reflexivity].
Qed.

Lemma group_list_skip (mapping : account_mapping_t)
    (before after : list (pystr * pystr)) (l v : pystr)
    (d : list (pystr * list BSItem)) :
  map_item_to_bs_account mapping (Some l) v = Ok None ->
  group_list mapping (before ++ (l, v) :: after) d
  = group_list mapping (before ++ after) d.
Proof.
  intros H. revert d. induction before as [|[l0 v0] before IH]; intros d; cbn [app group_list].
  - rewrite H. reflexivity.
  - destruct (map_item_to_bs_account mapping (Some l0) v0) as [[item|]|e]; cbn [bind];
      [apply IH | apply IH | reflexivity].
Qed.

Lemma nth_remove_nth {A : Type} (l : list A) (d : A) (i j : nat) :
  nth j (remove_nth i l) d = if (j <? i)%nat then nth j l d else nth (S j) l d.
Proof.
  unfold remove_nth. revert l j. induction i as [|i IH]; intros [|x l] j.
  - destruct j; reflexivity.
  - reflexivity.
  - cbn [firstn skipn app]. destruct (j <? S i)%nat; destruct j; reflexivity.
  - destruct j as [|j]; [reflexivity|]. cbn [firstn skipn app nth]. rewrite IH.
    reflexivity.
Qed.

Lemma cell_text_drop (c : column) (i j : nat) :
  cell_text (drop_cell i c) j
  = if (j <? i)%nat then cell_text c j else cell_text c (S j).
Proof.
  unfold cell_text, cell_at, drop_cell. cbn [col_cells]. rewrite nth_remove_nth.
  destruct (j <? i)%nat; reflexivity.
Qed.

Lemma frame_rows_split (item_col value_col : column) (i n : nat) :
  (i < n)%nat ->
  frame_rows item_col value_col 0 n
  = frame_rows item_col value_col 0 i
      ++ (cell_text item_col i, cell_text value_col i)
         :: frame_rows item_col value_col (S i) (n - S i).
Proof.
  intros H. remember (n - S i)%nat as m eqn:Em.
  assert (E : n = (i + S m)%nat) by lia. clear Em. subst n.
  unfold frame_rows. rewrite seq_app, map_app. reflexivity.
Qed.

Lemma frame_rows_drop (item_col value_col : column) (i n : nat) :
  (i < n)%nat ->
  frame_rows (drop_cell i item_col) (drop_cell i value_col) 0 (pred n)
  = frame_rows item_col value_col 0 i
      ++ frame_rows item_col value_col (S i) (n - S i).
Proof.
  intros H. remember (n - S i)%nat as m eqn:Em.
  assert (E : n = (i + S m)%nat) by lia. clear Em. subst n.
  replace (pred (i + S m)) with (i + m)%nat by lia.
  unfold frame_rows. rewrite seq_app, map_app. cbn [Nat.add]. f_equal.
  - apply map_ext_in. intros j Hj. apply in_seq in Hj. rewrite !cell_text_drop.
    assert (Ej : (j <? i)%nat = true) by (apply Nat.ltb_lt; lia).
    rewrite Ej. reflexivity.
  - rewrite <- seq_shift, map_map. apply map_ext_in. intros j Hj.
    apply in_seq in Hj. rewrite !cell_text_drop.
    assert (Ej : (j <? i)%nat = false) by (apply Nat.ltb_ge; lia).
    rewrite Ej. reflexivity.
Qed.

Lemma group_rows_drop (mapping : account_mapping_t) (item_col value_col : column)
    (i n : nat) (d : list (pystr * list BSItem)) :
  (i < n)%nat ->
  map_item_to_bs_account mapping (Some (cell_text item_col i)) (cell_text value_col i)
  = Ok None ->
  group_rows mapping (drop_cell i item_col) (drop_cell i value_col) 0 (pred n) d
  = group_rows mapping item_col value_col 0 n d.
Proof.
  intros Hlt Hnone.
  rewrite !group_rows_frame_rows, (frame_rows_drop _ _ _ _ Hlt),
    (frame_rows_split item_col value_col i n Hlt).
  symmetry. apply group_list_skip, Hnone.
Qed.

Lemma has_column_drop_row (i : nat) (df : DataFrame) (x : pystr) :
  has_column (drop_row i df) x = has_column df x.
Proof.
  unfold has_column, drop_row. cbn [columns].
  induction (columns df) as [|c cols IH]; [reflexivity|].
  cbn [map existsb drop_cell col_name]. rewrite IH. reflexivity.
Qed.

Lemma get_column_drop_row (i : nat) (df : DataFrame) (x : pystr) :
  get_column (drop_row i df) x = option_map (drop_cell i) (get_column df x).
Proof.
  unfold get_column, drop_row. cbn [columns].
  induction (columns df) as [|c cols IH]; [reflexivity|].
  cbn [map find drop_cell col_name].
  destruct (pystr_eqb (col_name c) x); [reflexivity | exact IH].
Qed.

Lemma no_period_drop_row (i : nat) (df : DataFrame) :
  no_period_column (drop_row i df) = no_period_column df.
Proof.
  unfold no_period_column. rewrite !has_column_drop_row. do 2 f_equal.
  unfold drop_row. cbn [columns].
  induction (columns df) as [|c cols IH]; [reflexivity|].
  cbn [map existsb drop_cell col_name]. rewrite IH. reflexivity.
Qed.

Lemma get_column_has (df : DataFrame) (x : pystr) (c : column) :
  get_column df x = Some c -> has_column df x = true.
Proof.
  unfold get_column, has_column. intros H. apply find_some in H as [Hin E].
  apply existsb_exists. exists c. split; assumption.
Qed.

Lemma current_year_rows_no_period (df : DataFrame) :
  no_period_column df = true -> current_year_rows df = Ok df.
Proof.
  unfold no_period_column, current_year_rows. intros H.
  apply andb_true_iff in H as [H H3]. apply andb_true_iff in H as [H1 H2].
  apply negb_true_iff in H1, H2, H3. cbv zeta. rewrite H1, H2, H3. reflexivity.
Qed.

(** Without a period column and with the columns 項目名 and 値, the report
    is built from the rows of these two columns, all of them. *)
Lemma transform_no_period (cfg : config) (df : DataFrame)
    (item_col value_col : column) :
  no_period_column df = true ->
  get_column df (u "項目名") = Some item_col ->
  get_column df (u "値") = Some value_col ->
  transform_to_balance_sheet cfg df =
  (bs_items_dict <-
     group_rows (account_mapping cfg) item_col value_col 0 (n_rows df) [] ;;
   bs_table <- _build_balance_sheet_structure_with_grouping
                 (_load_bs_structure cfg) bs_items_dict ;;
   Ok (_convert_to_csv_format bs_table)).
Proof.
  intros Hp Hi Hv. unfold transform_to_balance_sheet.
  rewrite (current_year_rows_no_period _ Hp). cbn [bind]. cbv zeta.
  rewrite (detect_item_name_exact df (get_column_has _ _ _ Hi)),
    (detect_value_exact df (get_column_has _ _ _ Hv)).
  change (truthy (Some (u "項目名"))) with true.
  change (truthy (Some (u "値"))) with true.
  cbn [negb orb]. rewrite Hi, Hv. reflexivity.
Qed.

(** On a frame with the columns 項目名 and 値 and no period column, whatever
    its other columns, a row that classifies to nothing, because its label
    is blank or no pattern occurs in it, leaves the report as if the row
    were absent, wherever it stands in the frame. *)
Theorem transform_ignores_unclassified_row (cfg : config) (df : DataFrame)
    (item_col value_col : column) (i : nat) :
  no_period_column df = true ->
  get_column df (u "項目名") = Some item_col ->
  get_column df (u "値") = Some value_col ->
  (i < n_rows df)%nat ->
  map_item_to_bs_account (account_mapping cfg)
    (Some (cell_text item_col i)) (cell_text value_col i) = Ok None ->
  transform_to_balance_sheet cfg (drop_row i df)
  = transform_to_balance_sheet cfg df.
Proof.
  intros Hp Hi Hv Hlt Hnone.
  rewrite (transform_no_period cfg df item_col value_col Hp Hi Hv).
  rewrite (transform_no_period cfg (drop_row i df)
             (drop_cell i item_col) (drop_cell i value_col)).
  - cbn [n_rows drop_row]. rewrite (group_rows_drop _ _ _ _ _ _ Hlt Hnone).
    reflexivity.
  - rewrite no_period_drop_row. exact Hp.
  - rewrite get_column_drop_row, Hi. reflexivity.
  - rewrite get_column_drop_row, Hv. reflexivity.
Qed.

(** A statement with a third column of remarks; its second row is a sales
    line the pattern table of [cash_config] does not know. *)
Definition remarks_frame : DataFrame :=
  {| columns :=
       [ {| col_name := u "備考"; col_dtype := ObjectDtype;
            col_cells := [None; Some (u "対象外"); None] |};
         {| col_name := u "項目名"; col_dtype := ObjectDtype;
            col_cells := [Some (u "現金及び預金"); Some (u "売上高");
                          Some (u "現金及び預金")] |};
         {| col_name := u "値"; col_dtype := ObjectDtype;
            col_cells := [Some (u "1,234,567"); Some (u "999");
                          Some (u "2,000,000")] |} ];
     n_rows := 3 |}.

Lemma transform_ignores_unclassified_row_witness :
  transform_to_balance_sheet cash_config (drop_row 1 remarks_frame)
  = transform_to_balance_sheet cash_config remarks_frame.
Proof.
  eapply (transform_ignores_unclassified_row cash_config remarks_frame _ _ 1).
  - vm_compute. reflexivity.
  - reflexivity.
  - reflexivity.
  - cbn [n_rows remarks_frame]. lia.
  - vm_compute. reflexivity.
Defined.

(** ** Where an amount may appear *)

Lemma add_item_row_with_grouping_labelled (n : pystr) (d : item_dict_t) (l : Z) :
  l = 1 \/ l = 2 \/ l = 3 ->
  Forall (fun r =>
            exists (i : nat) (label : pystr),
              (i <= 2)%nat /\
              nth i r [] = label /\
              (r = list_set blank_row i label \/
               exists item,
                 dict_get d label = Some item /\
                 value item <> [] /\
                 r = list_set (list_set blank_row i label) 9 (quoted (value item))))
         (_add_item_row_with_grouping n d l).
Proof.
  intros Hl.
  assert (Hi : exists i, (i <= 2)%nat /\
                 place_label blank_row n l = list_set blank_row i n /\
                 nth i (list_set blank_row i n) [] = n /\
                 forall q, nth i (list_set (list_set blank_row i n) 9 q) [] = n).
  { destruct Hl as [-> | [-> | ->]]; [exists 0%nat | exists 1%nat | exists 2%nat];
      (split; [lia|]); repeat split. }
  destruct Hi as (i & Hi & Hp & Hn & Hq).
  unfold _add_item_row_with_grouping. cbv zeta. rewrite Hp.
  destruct (dict_get d n) as [item|] eqn:E.
  - destruct (value item) as [|v0 vs] eqn:Ev.
    + constructor; [|constructor]. exists i, n.
      split; [exact Hi|]. split; [exact Hn|]. left. reflexivity.
    + constructor; [|constructor]. exists i, n.
      split; [exact Hi|]. split; [apply Hq|]. right. exists item.
      split; [exact E|]. rewrite Ev. split; [discriminate | reflexivity].
  - constructor; [|constructor]. exists i, n.
    split; [exact Hi|]. split; [exact Hn|]. left. reflexivity.
Qed.

(** Every row of a section the grouping path builds is a blank row of 25
    cells with one label written in cell 0, 1 or 2 and nothing else, or
    with, besides the label, in cell 9 and between double quotes, the
    amount of the entry the dictionary holds under that very label; that
    amount is not empty. *)
Theorem section_amounts_belong_to_labels (s : structure_t)
    (section_name : pystr) (d : item_dict_t) :
  Forall (fun r =>
            exists (i : nat) (label : pystr),
              (i <= 2)%nat /\
              nth i r [] = label /\
              (r = list_set blank_row i label \/
               exists item,
                 dict_get d label = Some item /\
                 value item <> [] /\
                 r = list_set (list_set blank_row i label) 9 (quoted (value item))))
         (_build_section_with_grouping s section_name d).
Proof.
  pose proof (fun n l => add_item_row_with_grouping_labelled n d l) as Hrow.
  assert (Hh : forall (i : nat) (label : pystr), (i <= 2)%nat ->
            exists (i' : nat) (label' : pystr),
              (i' <= 2)%nat /\
              nth i' (header_row i label) [] = label' /\
              (header_row i label = list_set blank_row i' label' \/
               exists item,
                 dict_get d label' = Some item /\
                 value item <> [] /\
                 header_row i label
                 = list_set (list_set blank_row i' label') 9 (quoted (value item)))).
  { intros i label Hi. exists i, label. split; [exact Hi|].
    destruct i as [|[|[|i]]]; [| | |lia]; (split; [reflexivity | left; reflexivity]). }
  unfold _build_section_with_grouping. constructor; [apply Hh; lia|].
  apply Forall_flat_map. intros [category [subs|items|]]; cbn [category_rows].
  - constructor; [apply Hh; lia|]. apply Forall_flat_map.
    intros [subcat [items|]]; cbn [subcategory_rows].
    + constructor; [apply Hh; lia|]. apply Forall_flat_map. intros x.
      apply Hrow. lia.
    + apply Hrow. lia.
  - constructor; [apply Hh; lia|]. apply Forall_flat_map. intros x.
    apply Hrow. lia.
  - apply Hrow. lia.
Qed.

(** ** The legacy path *)

Lemma matching_items_unique (d : item_dict_t) (k : pystr) (item : BSItem) :
  NoDup (map fst d) ->
  dict_get d k = Some item ->
  map snd (filter (fun kv => pystr_eqb (fst kv) k) d) = [item].
Proof.
  induction d as [|[k0 v0] d IH]; cbn [map fst dict_get filter]; [discriminate|].
  intros Hnd. apply NoDup_cons_iff in Hnd as [Hk0 Hnd]. cbn [fst].
  destruct (pystr_eqb k0 k) eqn:E.
  - intros [= ->]. apply pystr_eqb_eq in E. subst k0. cbn [map snd]. f_equal.
    assert (Hf : filter (fun kv => pystr_eqb (fst kv) k) d = []).
    { clear -Hk0. induction d as [|[k1 v1] d IH]; [reflexivity|].
      cbn [filter fst]. destruct (pystr_eqb k1 k) eqn:E1.
      - apply pystr_eqb_eq in E1. subst k1. exfalso. apply Hk0. left. reflexivity.
      - apply IH. intros H. apply Hk0. right. exact H. }
    rewrite Hf. reflexivity.
  - apply IH, Hnd.
Qed.

(** The legacy [_add_item_row] writes a negative amount with the glyph:
    for the one item of an account, a grouped negative integer within
    2^53, the amount cell is the glyph and the grouped magnitude, quoted. *)
Theorem add_item_row_negative_glyph (item_name : pystr) (d : item_dict_t)
    (item : BSItem) (n lvl : Z) :
  NoDup (map fst d) ->
  dict_get d item_name = Some item ->
  value item = format_int n ->
  n < 0 ->
  - n <= 2 ^ 53 ->
  _add_item_row item_name d lvl =
  Ok [list_set (place_label blank_row item_name lvl) 9
        (quoted (c_triangle :: format_int (- n)))].
Proof.
  intros Hnd Hget Hv Hneg Hb. unfold _add_item_row.
  rewrite (matching_items_unique _ _ _ Hnd Hget).
  assert (Habs : sum_Z (map Z.abs [n]) <= 2 ^ 53) by (cbn [map sum_Z]; lia).
  destruct (integer_items_exact [item] [n] ltac:(cbn [map]; congruence) Habs)
    as (Hw & Ha & Hi & Hc).
  replace (PyFloat.of_Z 0) with (PyFloat.Fin (0 * PyFloat.one))
    by (vm_compute; reflexivity).
  rewrite sum_items_exact by (try assumption; rewrite Ha; cbn [map sum_Z Z.abs]; lia).
  rewrite Hi, Hc. cbn [sum_Z orb negb]. replace (0 + (n + 0)) with n by lia.
  pose proof one_pos as H1.
  cbn [PyFloat.is_integer PyFloat.to_int PyFloat.lt_Z bind].
  rewrite Z.mod_mul by lia. cbn [Z.eqb bind].
  assert (E : (n * PyFloat.one <? 0 * PyFloat.one) = true) by (apply Z.ltb_lt; nia).
  rewrite E. cbn [bind]. rewrite Z.quot_mul by lia.
  replace (Z.abs n) with (- n) by lia. reflexivity.
Qed.

Lemma add_item_row_negative_glyph_witness :
  _add_item_row (u "建物及び構築物（純額）")
    [(u "建物及び構築物（純額）", item_of (u "建物及び構築物（純額）") (u "-500,000"))] 3
  = Ok [list_set (place_label blank_row (u "建物及び構築物（純額）") 3) 9
          (quoted (c_triangle :: format_int (- -500000)))].
Proof.
  apply (add_item_row_negative_glyph (u "建物及び構築物（純額）")
           [(u "建物及び構築物（純額）",
             item_of (u "建物及び構築物（純額）") (u "-500,000"))]
           (item_of (u "建物及び構築物（純額）") (u "-500,000")) (-500000) 3).
  - repeat constructor. intros [].
  - reflexivity.
  - reflexivity.
  - reflexivity.
  - vm_compute. discriminate.
Defined.

Lemma flat_mapM_middle {A B : Type} (f : A -> result (list B))
    (pre post : list A) (x : A) (rows : list B) :
  flat_mapM f (pre ++ x :: post) = Ok rows ->
  exists a b c,
    flat_mapM f pre = Ok a /\ f x = Ok b /\ flat_mapM f post = Ok c /\
    rows = a ++ b ++ c.
Proof.
  revert rows. induction pre as [|y pre IH]; intros rows; cbn [app flat_mapM].
  - destruct (f x) as [b|e]; cbn [bind]; [|discriminate].
    destruct (flat_mapM f post) as [c|e]; cbn [bind]; [|discriminate].
    intros [= <-]. exists [], b, c. repeat split.
  - destruct (f y) as [ys|e]; cbn [bind]; [|discriminate].
    destruct (flat_mapM f (pre ++ x :: post)) as [zs|e]; cbn [bind]; [|discriminate].
    intros [= <-]. destruct (IH zs eq_refl) as (a & b & c & Ha & Hb & Hc & ->).
    exists (ys ++ a), b, c. rewrite Ha. cbn [bind]. repeat split; try assumption.
    rewrite app_assoc. reflexivity.
Qed.

(** The row of a leaf at level 2: its label in cell 1, cells 0 and 2 empty. *)
Definition leaf_row_level2 (leaf : pystr) (r : row) : Prop :=
  nth 1 r [] = leaf /\ nth 0 r [] = [] /\ nth 2 r [] = [] /\
  List.length r = 25%nat.

Lemma add_item_row_level2 (leaf : pystr) (d : item_dict_t) (rows : list row) :
  _add_item_row leaf d 2 = Ok rows ->
  exists r, rows = [r] /\ leaf_row_level2 leaf r.
Proof.
  unfold _add_item_row.
  destruct (map snd (filter _ d)) as [|m ms].
  { intros [= <-]. eexists. split; [reflexivity | repeat split]. }
  destruct (sum_items (m :: ms) (PyFloat.of_Z 0) false) as [t f].
  destruct f.
  - destruct (if PyFloat.is_integer t then _ else _) as [f1|e]; cbn [bind]; [|discriminate].
    destruct (if PyFloat.lt_Z t 0 then _ else _) as [f2|e]; cbn [bind]; [|discriminate].
    intros [= <-]. eexists. split; [reflexivity | repeat split].
  - intros [= <-]. eexists. split; [reflexivity | repeat split].
Qed.

Lemma legacy_direct_leaf_rows (d : item_dict_t) (items : list pystr) (rows : list row) :
  flat_mapM (fun item_name => _add_item_row item_name d 2) items = Ok rows ->
  Forall2 leaf_row_level2 items rows.
Proof.
  revert rows. induction items as [|leaf items IH]; intros rows; cbn [flat_mapM].
  - intros [= <-]. constructor.
  - destruct (_add_item_row leaf d 2) as [ys|e] eqn:E; cbn [bind]; [|discriminate].
    destruct (flat_mapM _ items) as [zs|e]; cbn [bind]; [|discriminate].
    intros [= <-]. apply add_item_row_level2 in E as (r & -> & Hr).
    constructor; [exact Hr | apply IH; reflexivity].
Qed.

(** In the legacy [_build_section] the leaves of a category with a direct
    list stand at level 2: after the header row, one row per leaf, in
    order, with the leaf in cell 1, the column of the category header. *)
Theorem build_section_direct_leaves_in_cell_1 (s : structure_t)
    (section_name : pystr) (d : item_dict_t) (pre post : section_t)
    (category : pystr) (items : list pystr) (rows : list row) :
  dict_get s section_name = Some (pre ++ (category, CatList items) :: post) ->
  _build_section s section_name d = Ok rows ->
  exists before after leaf_rows,
    rows = before ++ header_row 1 category :: leaf_rows ++ after /\
    nth 1 (header_row 1 category) [] = category /\
    Forall2 leaf_row_level2 items leaf_rows.
Proof.
  intros Hs. unfold _build_section. rewrite Hs.
  destruct (flat_mapM _ (pre ++ (category, CatList items) :: post)) as [rs|e] eqn:E;
    cbn [bind]; [|discriminate].
  intros [= <-]. apply flat_mapM_middle in E as (a & b & c & _ & Hb & _ & ->).
  cbn [category_rowsM] in Hb.
  destruct (flat_mapM _ items) as [ls|e] eqn:El; cbn [bind] in Hb; [|discriminate].
  injection Hb as <-. exists (header_row 0 section_name :: a), c, ls.
  split; [|split; [reflexivity | apply (legacy_direct_leaf_rows _ _ _ El)]].
  reflexivity.
Qed.

Lemma build_section_direct_leaves_in_cell_1_witness :
  exists before after leaf_rows,
    match _build_section default_structure (u "負債の部") [] with
    | Ok rows => rows
    | Raise _ => []
    end = before ++ header_row 1 (u "流動負債") :: leaf_rows ++ after /\
    nth 1 (header_row 1 (u "流動負債")) [] = u "流動負債" /\
    Forall2 leaf_row_level2
      [u "支払手形及び買掛金"; u "銀行業における預金"; u "短期借入金";
       u "1年内返済予定の長期借入金"; u "1年内償還予定の社債";
       u "コマーシャル・ペーパー"; u "リース債務"; u "未払法人税等";
       u "契約負債"; u "賞与引当金"; u "店舗閉鎖損失引当金";
       u "ポイント引当金"; u "設備関係支払手形"; u "その他";
       u "流動負債合計"] leaf_rows.
Proof.
  eapply (build_section_direct_leaves_in_cell_1 default_structure (u "負債の部") [] []).
  - vm_compute. reflexivity.
  - vm_compute. reflexivity.
Defined.

(** * The account table of [processor.py] *)

Lemma flatten_as_assignments (m : list (pystr * list (pystr * pystr)))
    (d : list (pystr * pystr)) :
  fold_left
    (fun flattened category =>
       fold_left (fun f kv => dict_set f (fst kv) (snd kv)) (snd category) flattened)
    m d
  = fold_left (fun f kv => dict_set f (fst kv) (snd kv)) (concat (map snd m)) d.
Proof.
  revert d. induction m as [|c m IH]; intros d; cbn [fold_left map concat]; [reflexivity|].
  rewrite fold_left_app. apply IH.
Qed.

Lemma assignments_lookup (pairs : list (pystr * pystr)) (k : pystr) :
  dict_get (fold_left (fun f kv => dict_set f (fst kv) (snd kv)) pairs []) k
  = dict_get (rev pairs) k.
Proof.
  induction pairs as [|[k0 v0] pairs IH] using rev_ind; [reflexivity|].
  rewrite fold_left_app, rev_app_distr. cbn [fold_left rev app fst snd dict_get].
  rewrite dict_get_set, IH. reflexivity.
Qed.

Lemma assignments_NoDup (pairs d : list (pystr * pystr)) :
  NoDup (map fst d) ->
  NoDup (map fst (fold_left (fun f kv => dict_set f (fst kv) (snd kv)) pairs d)).
Proof.
  revert d. induction pairs as [|kv pairs IH]; intros d H; cbn [fold_left]; [exact H|].
  apply IH, dict_set_NoDup, H.
Qed.

(** Flattening keeps one binding per source account, and the binding it
    keeps is the one that comes last in the configuration: a later
    category overrides an earlier one. *)
Theorem flatten_account_mapping_last_wins
    (account_mapping : list (pystr * list (pystr * pystr))) :
  NoDup (map fst (_flatten_account_mapping account_mapping)) /\
  (forall k, dict_get (_flatten_account_mapping account_mapping) k
             = dict_get (rev (concat (map snd account_mapping))) k).
Proof.
  unfold _flatten_account_mapping. rewrite flatten_as_assignments. split.
  - apply assignments_NoDup. constructor.
  - apply assignments_lookup.
Qed.

Lemma find_first_occurrence (am pre post : list (pystr * pystr)) (k g s : pystr) :
  am = pre ++ (k, g) :: post ->
  Forall (fun kv => ~ substring (fst kv) s) pre ->
  substring k s ->
  find (fun kv => contains s (fst kv)) am = Some (k, g).
Proof.
  intros -> Hpre Hk. induction Hpre as [|[k0 g0] pre H0 _ IH]; cbn [app find fst].
  - apply contains_substring in Hk. rewrite Hk. reflexivity.
  - destruct (contains s k0) eqn:E; [|exact IH].
    apply contains_substring in E. contradiction.
Qed.

Lemma find_no_occurrence (am : list (pystr * pystr)) (s : pystr) :
  Forall (fun kv => ~ substring (fst kv) s) am ->
  find (fun kv => contains s (fst kv)) am = None.
Proof.
  intros H. induction H as [|[k0 g0] am H0 _ IH]; cbn [find fst]; [reflexivity|].
  destruct (contains s k0) eqn:E; [|exact IH].
  apply contains_substring in E. contradiction.
Qed.

(** The cell mapping of the standard mode.  A missing or empty cell is
    returned as it is.  Otherwise the cell is stripped; a key equal to the
    stripped text decides, even when an earlier key occurs in it; failing
    that, the first key in table order that occurs in the text; failing
    that, the stripped text itself is returned. *)
Theorem apply_account_mapping_spec (account_mapping : list (pystr * pystr))
    (v : pystr) :
  _apply_account_mapping account_mapping None = None /\
  _apply_account_mapping account_mapping (Some []) = Some [] /\
  (v <> [] ->
   (forall g, dict_get account_mapping (strip v) = Some g ->
      _apply_account_mapping account_mapping (Some v) = Some g) /\
   (forall pre k g post,
      dict_get account_mapping (strip v) = None ->
      account_mapping = pre ++ (k, g) :: post ->
      Forall (fun kv => ~ substring (fst kv) (strip v)) pre ->
      substring k (strip v) ->
      _apply_account_mapping account_mapping (Some v) = Some g) /\
   (Forall (fun kv => ~ substring (fst kv) (strip v)) account_mapping ->
    _apply_account_mapping account_mapping (Some v) = Some (strip v))).
Proof.
  split; [reflexivity|]. split; [reflexivity|].
  intros Hne. destruct v as [|c v]; [congruence|]. cbn [_apply_account_mapping].
  split; [|split].
  - intros g Hg. rewrite Hg. reflexivity.
  - intros pre k g post Hnone Ham Hpre Hk. rewrite Hnone.
    rewrite (find_first_occurrence _ _ _ _ _ _ Ham Hpre Hk). reflexivity.
  - intros Hall.
    assert (Hnone : dict_get account_mapping (strip (c :: v)) = None).
    { apply dict_get_none. intros Hin. apply in_map_iff in Hin as ([k g] & Hk & Hin).
      cbn [fst] in Hk. subst k. rewrite Forall_forall in Hall.
      apply (Hall _ Hin). exists [], []. cbn [fst app]. rewrite List.app_nil_r.
      reflexivity. }
    rewrite Hnone, (find_no_occurrence _ _ Hall). reflexivity.
Qed.

Lemma apply_account_mapping_spec_witness :
  _apply_account_mapping
    [(u "預金", u "その他"); (u "現金及び預金", u "現金預金")]
    (Some (u " 現金及び預金 ")) = Some (u "現金預金").
Proof.
  apply (proj1 (proj2 (proj2 (apply_account_mapping_spec
           [(u "預金", u "その他"); (u "現金及び預金", u "現金預金")]
           (u " 現金及び預金 "))) ltac:(discriminate))).
  reflexivity.
Defined.
